(** * bablify: WebRTC data-channel test server and diagnostic client

    A shallow embedding of [webrtc_test_server.py] and
    [debug_webrtc_connection.py].

    - Python values that travel as JSON are the inductive [pyval].
    - The two registries of the server ([connections], [data_channels]) are
      Python dicts, which keep insertion order; they are association lists
      with Python's update-in-place / append semantics ([Dict]).
    - Handlers run in a small writer/exception monad [M]: every log line and
      every call of a channel's transmit primitive is recorded in a trace, and
      a computation ends in [Return v] or [Raise e].
    - [json.dumps] / [json.loads] belong to Python's standard library, not to
      the repository; [Json.dumps] and [Json.loads] model them on float-free
      documents.  What [json.dumps] refuses is an [Unserializable] [payload],
      and the decoder of the handlers is a parameter that returns a value or
      raises. *)

From Stdlib Require Import List String Ascii ZArith Lia Bool Arith.
From Stdlib Require Import Decimal DecimalString DecimalZ.
Import ListNotations.

Local Open Scope string_scope.
Local Open Scope Z_scope.

Set Implicit Arguments.

(** ** Python values *)

(** The JSON-native fragment of Python's values: [None], [bool], [int],
    [str], [list] and [dict] with [str] keys.  [float] is left out.  A [str]
    is a sequence of code points below 256, one [ascii] each. *)
#[local] Unset Elimination Schemes.
Inductive pyval : Type :=
| PNone : pyval
| PBool : bool -> pyval
| PInt : Z -> pyval
| PStr : string -> pyval
| PList : list pyval -> pyval
| PDict : list (string * pyval) -> pyval.
#[local] Set Elimination Schemes.

(** Python truthiness, as used by [if x], [not x], [x and y]. *)
Definition truthy (v : pyval) : bool :=
  match v with
  | PNone => false
  | PBool b => b
  | PInt z => negb (z =? 0)
  | PStr s => negb (String.eqb s "")
  | PList l => match l with [] => false | _ => true end
  | PDict l => match l with [] => false | _ => true end
  end.

(** ** Insertion-ordered dictionaries *)

Module Dict.
Section WithKey.
Variables (K V : Type) (eqb : K -> K -> bool).

Definition t := list (K * V).

Definition empty : t := [].

(** [d.get(k)] / [d[k]] *)
Fixpoint get (k : K) (d : t) : option V :=
  match d with
  | [] => None
  | (k', v) :: d' => if eqb k k' then Some v else get k d'
  end.

(** [k in d] *)
Definition mem (k : K) (d : t) : bool :=
  match get k d with Some _ => true | None => false end.

(** [d[k] = v]: an existing key keeps its position, a new key goes last. *)
Fixpoint set (k : K) (v : V) (d : t) : t :=
  match d with
  | [] => [(k, v)]
  | (k', v') :: d' =>
      if eqb k k' then (k', v) :: d' else (k', v') :: set k v d'
  end.

(** [del d[k]] for a key that is present; nothing to remove otherwise. *)
Fixpoint del (k : K) (d : t) : t :=
  match d with
  | [] => []
  | (k', v') :: d' => if eqb k k' then d' else (k', v') :: del k d'
  end.

(** [len(d)] *)
Definition len (d : t) : Z := Z.of_nat (List.length d).

(** [list(d.keys())] *)
Definition keys (d : t) : list K := List.map fst d.

(** [dict(pairs)]: later pairs override earlier ones. *)
Definition of_pairs (l : list (K * V)) : t :=
  fold_left (fun d kv => set (fst kv) (snd kv) d) l empty.

(** No two keys of the dictionary are equal: the representation invariant
    of a Python dict. *)
Fixpoint wf (d : t) : bool :=
  match d with
  | [] => true
  | (k, _) :: d' => negb (mem k d') && wf d'
  end.
End WithKey.
End Dict.

(** [d.get(key, default)] on a JSON object. *)
Definition pdict_get (key : string) (default : pyval) (d : list (string * pyval))
: pyval :=
match Dict.get String.eqb key d with
| Some v => v
| None => default
end.

(** Every dict inside the value has pairwise distinct keys. *)
Fixpoint pyval_wf (v : pyval) : bool :=
match v with
| PList l => forallb pyval_wf l
| PDict d =>
    Dict.wf String.eqb d
    && (fix go (d : list (string * pyval)) : bool :=
          match d with
          | [] => true
          | (_, x) :: d' => pyval_wf x && go d'
          end) d
| _ => true
end.

(** ** Python's [json] module on float-free documents

    A model of Python's standard [json] module, which the repository calls
    but does not contain: [dumps] is [json.dumps] with its defaults
    (separators [", "] and [": "], [ensure_ascii=True], keys in insertion
    order) and [loads] is [json.loads] restricted to documents without
    fractional numbers and with [\u] escapes below 256: [loads s = Some v]
    when [s] is such a document and [v] its value.  [None] says nothing:
    the text is no JSON, or JSON of another kind (a fraction, [NaN], an
    escape above 255), which Python decodes. *)
Module Json.

Definition dquote : ascii := "034"%char.
Definition backslash : ascii := "092"%char.

Definition hex_digit (n : N) : ascii :=
  if (n <? 10)%N then ascii_of_N (48 + n) else ascii_of_N (87 + n).

(** One character as [py_encode_basestring_ascii] writes it. *)
Definition escape_char (c : ascii) : string :=
  let n := N_of_ascii c in
  if (n =? 34)%N then String backslash (String dquote "")
  else if (n =? 92)%N then String backslash (String backslash "")
  else if (n =? 8)%N then String backslash "b"
  else if (n =? 12)%N then String backslash "f"
  else if (n =? 10)%N then String backslash "n"
  else if (n =? 13)%N then String backslash "r"
  else if (n =? 9)%N then String backslash "t"
  else if ((32 <=? n) && (n <=? 126))%N then String c ""
  else String backslash
         (String "u" (String "0" (String "0"
            (String (hex_digit (n / 16)) (String (hex_digit (n mod 16)) ""))))).

Fixpoint escape (s : string) : string :=
  match s with
  | EmptyString => EmptyString
  | String c s' => escape_char c ++ escape s'
  end.

Definition quote (s : string) : string :=
  String dquote (escape s ++ String dquote "").

Definition string_of_Z (z : Z) : string := NilZero.string_of_int (Z.to_int z).

Fixpoint dumps (v : pyval) : string :=
  match v with
  | PNone => "null"
  | PBool true => "true"
  | PBool false => "false"
  | PInt z => string_of_Z z
  | PStr s => quote s
  | PList l =>
      match l with
      | [] => "[]"
      | x :: l' =>
          "[" ++ dumps x ++
          (fix more (l : list pyval) : string :=
             match l with
             | [] => "]"
             | y :: l'' => ", " ++ dumps y ++ more l''
             end) l'
      end
  | PDict d =>
      match d with
      | [] => "{}"
      | (k, x) :: d' =>
          "{" ++ quote k ++ ": " ++ dumps x ++
          (fix more (d : list (string * pyval)) : string :=
             match d with
             | [] => "}"
             | (k', y) :: d'' => ", " ++ quote k' ++ ": " ++ dumps y ++ more d''
             end) d'
      end
  end.

(** *** Decoder *)

Definition is_ws (c : ascii) : bool :=
  let n := N_of_ascii c in
  ((n =? 32) || (n =? 9) || (n =? 10) || (n =? 13))%N.

Fixpoint skip_ws (s : string) : string :=
  match s with
  | String c s' => if is_ws c then skip_ws s' else s
  | EmptyString => s
  end.

Fixpoint strip_prefix (p s : string) : option string :=
  match p with
  | EmptyString => Some s
  | String a p' =>
      match s with
      | String b s' => if Ascii.eqb a b then strip_prefix p' s' else None
      | EmptyString => None
      end
  end.

Definition hex_value (c : ascii) : option N :=
  let n := N_of_ascii c in
  if ((48 <=? n) && (n <=? 57))%N then Some (n - 48)%N
  else if ((97 <=? n) && (n <=? 102))%N then Some (n - 87)%N
  else if ((65 <=? n) && (n <=? 70))%N then Some (n - 55)%N
  else None.

Definition hex4 (a b c d : ascii) : option N :=
  match hex_value a, hex_value b, hex_value c, hex_value d with
  | Some x, Some y, Some z, Some w => Some (((x * 16 + y) * 16 + z) * 16 + w)%N
  | _, _, _, _ => None
  end.

(** The character a two-character escape stands for. *)
Definition unescape_simple (e : ascii) : option ascii :=
  let n := N_of_ascii e in
  if (n =? 34)%N then Some dquote
  else if (n =? 92)%N then Some backslash
  else if (n =? 47)%N then Some "/"%char
  else if (n =? 98)%N then Some "008"%char
  else if (n =? 102)%N then Some "012"%char
  else if (n =? 110)%N then Some "010"%char
  else if (n =? 114)%N then Some "013"%char
  else if (n =? 116)%N then Some "009"%char
  else None.

Definition cons_char (c : ascii) (r : option (string * string))
  : option (string * string) :=
  match r with
  | Some (s, rest) => Some (String c s, rest)
  | None => None
  end.

(** The body of a string literal, after its opening quote, up to and
    including the closing quote. *)
Fixpoint parse_chars (s : string) : option (string * string) :=
  match s with
  | EmptyString => None
  | String c r =>
      if Ascii.eqb c dquote then Some (EmptyString, r)
      else if Ascii.eqb c backslash then
        match r with
        | String e r' =>
            match unescape_simple e with
            | Some c' => cons_char c' (parse_chars r')
            | None =>
                if Ascii.eqb e "u" then
                  match r' with
                  | String h1 (String h2 (String h3 (String h4 r''))) =>
                      match hex4 h1 h2 h3 h4 with
                      | Some n =>
                          if (n <? 256)%N
                          then cons_char (ascii_of_N n) (parse_chars r'')
                          else None
                      | None => None
                      end
                  | _ => None
                  end
                else None
            end
        | EmptyString => None
        end
      else if (N_of_ascii c <? 32)%N then None
      else cons_char c (parse_chars r)
  end.

Definition digit_of (c : ascii) : option (uint -> uint) :=
  let n := N_of_ascii c in
  if (n =? 48)%N then Some D0 else if (n =? 49)%N then Some D1
  else if (n =? 50)%N then Some D2 else if (n =? 51)%N then Some D3
  else if (n =? 52)%N then Some D4 else if (n =? 53)%N then Some D5
  else if (n =? 54)%N then Some D6 else if (n =? 55)%N then Some D7
  else if (n =? 56)%N then Some D8 else if (n =? 57)%N then Some D9
  else None.

Fixpoint parse_digits (s : string) : uint * string :=
  match s with
  | String c r =>
      match digit_of c with
      | Some mk => let (d, r') := parse_digits r in (mk d, r')
      | None => (Nil, s)
      end
  | EmptyString => (Nil, s)
  end.

(** What may follow an integer literal: anything but a digit, and not the
    start of a fraction or exponent (that would make the number a float). *)
Definition int_stop (s : string) : bool :=
  match s with
  | EmptyString => true
  | String c _ =>
      match digit_of c with
      | Some _ => false
      | None =>
          let n := N_of_ascii c in
          negb ((n =? 46) || (n =? 101) || (n =? 69))%N
      end
  end.

(** JSON forbids leading zeros. *)
Definition digits_ok (d : uint) : bool :=
  match d with
  | Nil => false
  | D0 Nil => true
  | D0 _ => false
  | _ => true
  end.

Definition parse_int (s : string) : option (Z * string) :=
  match s with
  | EmptyString => None
  | String c r =>
      let neg := Ascii.eqb c "-" in
      let (d, rest) := parse_digits (if neg then r else s) in
      if digits_ok d && int_stop rest
      then Some (Z.of_int (if neg then Neg d else Pos d), rest)
      else None
  end.

Fixpoint parse_value (fuel : nat) (s : string) {struct fuel}
  : option (pyval * string) :=
  match fuel with
  | O => None
  | S f =>
      match skip_ws s with
      | EmptyString => None
      | String c r =>
          if Ascii.eqb c "n" then
            option_map (pair PNone) (strip_prefix "ull" r)
          else if Ascii.eqb c "t" then
            option_map (pair (PBool true)) (strip_prefix "rue" r)
          else if Ascii.eqb c "f" then
            option_map (pair (PBool false)) (strip_prefix "alse" r)
          else if Ascii.eqb c dquote then
            match parse_chars r with
            | Some (str, r') => Some (PStr str, r')
            | None => None
            end
          else if Ascii.eqb c "[" then
            match skip_ws r with
            | EmptyString => None
            | String c' r' =>
                if Ascii.eqb c' "]" then Some (PList [], r')
                else
                  match parse_elems f r with
                  | Some (l, r'') => Some (PList l, r'')
                  | None => None
                  end
            end
          else if Ascii.eqb c "{" then
            match skip_ws r with
            | EmptyString => None
            | String c' r' =>
                if Ascii.eqb c' "}" then Some (PDict [], r')
                else
                  match parse_members f r with
                  | Some (d, r'') =>
                      Some (PDict (Dict.of_pairs String.eqb d), r'')
                  | None => None
                  end
            end
          else
            match parse_int (String c r) with
            | Some (z, r') => Some (PInt z, r')
            | None => None
            end
      end
  end

with parse_elems (fuel : nat) (s : string) {struct fuel}
  : option (list pyval * string) :=
  match fuel with
  | O => None
  | S f =>
      match parse_value f s with
      | Some (v, r) =>
          match skip_ws r with
          | EmptyString => None
          | String c r' =>
              if Ascii.eqb c "," then
                match parse_elems f r' with
                | Some (l, r'') => Some (v :: l, r'')
                | None => None
                end
              else if Ascii.eqb c "]" then Some ([v], r')
              else None
          end
      | None => None
      end
  end

with parse_members (fuel : nat) (s : string) {struct fuel}
  : option (list (string * pyval) * string) :=
  match fuel with
  | O => None
  | S f =>
      match skip_ws s with
      | EmptyString => None
      | String q r =>
          if Ascii.eqb q dquote then
            match parse_chars r with
            | Some (k, r1) =>
                match skip_ws r1 with
                | EmptyString => None
                | String c1 r2 =>
                    if Ascii.eqb c1 ":" then
                      match parse_value f r2 with
                      | Some (v, r3) =>
                          match skip_ws r3 with
                          | EmptyString => None
                          | String c3 r4 =>
                              if Ascii.eqb c3 "," then
                                match parse_members f r4 with
                                | Some (d, r5) => Some ((k, v) :: d, r5)
                                | None => None
                                end
                              else if Ascii.eqb c3 "}" then Some ([(k, v)], r4)
                              else None
                          end
                      | None => None
                      end
                    else None
                end
            | None => None
            end
          else None
      end
  end.

Definition loads (s : string) : option pyval :=
  match parse_value (S (String.length s)) s with
  | Some (v, r) =>
      match skip_ws r with
      | EmptyString => Some v
      | String _ _ => None
      end
  | None => None
  end.

(** *** Measures and shapes used to state the codec's properties *)

Definition is_digit (c : ascii) : bool :=
  match digit_of c with Some _ => true | None => false end.

(** What [dumps] writes after the first item of a list, up to the closing
    bracket; [dumps_more_members] is the same for an object. *)
Fixpoint dumps_more (l : list pyval) : string :=
  match l with
  | [] => "]"
  | y :: l' => ", " ++ dumps y ++ dumps_more l'
  end.

Fixpoint dumps_more_members (d : list (string * pyval)) : string :=
  match d with
  | [] => "}"
  | (k, y) :: d' => ", " ++ quote k ++ ": " ++ dumps y ++ dumps_more_members d'
  end.

(** The number of constructors and list cells of a value: fuel enough to
    parse its text. *)
Fixpoint size (v : pyval) : nat :=
  match v with
  | PList l =>
      S ((fix go (l : list pyval) : nat :=
            match l with
            | [] => O
            | x :: l' => S (size x + go l')
            end) l)
  | PDict d =>
      S ((fix go (d : list (string * pyval)) : nat :=
            match d with
            | [] => O
            | (_, x) :: d' => S (size x + go d')
            end) d)
  | _ => 1%nat
  end.

(** The sizes of the items of a list, and of the values of an object. *)
Fixpoint size_list (l : list pyval) : nat :=
  match l with
  | [] => O
  | x :: l' => S (size x + size_list l')
  end.

Fixpoint size_members (d : list (string * pyval)) : nat :=
  match d with
  | [] => O
  | (_, x) :: d' => S (size x + size_members d')
  end.

(** The first character of a value's text. *)
Definition value_start (c : ascii) : bool :=
  negb (is_ws c) && negb (Ascii.eqb c "]") && negb (Ascii.eqb c "}").

(** The first character of an integer literal. *)
Definition is_num_start (c : ascii) : bool := is_digit c || Ascii.eqb c "-".

(** A value whose text parses back to it, whatever follows. *)
Definition roundtrips (v : pyval) : Prop :=
  pyval_wf v = true ->
  forall fuel rest,
    (size v <= fuel)%nat -> int_stop rest = true ->
    parse_value fuel (dumps v ++ rest) = Some (v, rest).

(** Every value of the object is well formed. *)
Fixpoint wf_members (d : list (string * pyval)) : bool :=
  match d with
  | [] => true
  | (_, x) :: d' => pyval_wf x && wf_members d'
  end.

End Json.

(** [json.dumps(v, indent=2)]: one item per line, item separator [","]. *)
Module JsonIndent.

Fixpoint spaces (n : nat) : string :=
  match n with
  | O => EmptyString
  | S n' => String " " (spaces n')
  end.

Definition newline_indent (level : nat) : string :=
  String "010"%char (spaces (2 * level)).

Fixpoint dumps_at (level : nat) (v : pyval) : string :=
  match v with
  | PList (x :: l') =>
      "[" ++ newline_indent (S level) ++ dumps_at (S level) x ++
      (fix more (l : list pyval) : string :=
         match l with
         | [] => newline_indent level ++ "]"
         | y :: l'' =>
             "," ++ newline_indent (S level) ++ dumps_at (S level) y ++ more l''
         end) l'
  | PDict ((k, x) :: d') =>
      "{" ++ newline_indent (S level) ++ Json.quote k ++ ": " ++
      dumps_at (S level) x ++
      (fix more (d : list (string * pyval)) : string :=
         match d with
         | [] => newline_indent level ++ "}"
         | (k', y) :: d'' =>
             "," ++ newline_indent (S level) ++ Json.quote k' ++ ": " ++
             dumps_at (S level) y ++ more d''
         end) d'
  | _ => Json.dumps v
  end.

Definition dumps (v : pyval) : string := dumps_at 0 v.

End JsonIndent.

(** ** Exceptions, trace and the handler monad *)

(** The class of a raised exception.  Every exception of the model is an
    instance of Python's [Exception]; [KeyboardInterrupt], [SystemExit] and
    the other signals that derive from [BaseException] alone are not
    modelled. *)
Inductive exc_class : Type :=
| JSONDecodeError
| TypeError
| AttributeError
| IndexError
| OtherError (name : string).

(** An exception instance; [str(e)] is [exc_msg e]. *)
Record pyexc : Type := Exc { exc_cls : exc_class; exc_msg : string }.

Definition is_JSONDecodeError (e : pyexc) : bool :=
  match exc_cls e with JSONDecodeError => true | _ => false end.

Inductive level : Type := DEBUG | INFO | WARNING | ERROR.

(** What a handler does to the outside world, in order.
    - [Log l fmt args]: [logger.<l>(f"...")], the f-string kept as its
      template [fmt] and the values it interpolates;
    - [Transmit label data]: [channel.send(data)] was called on the channel
      labelled [label];
    - [HttpRequest method url]: the diagnostic client issued a request. *)
Inductive event : Type :=
| Log (l : level) (fmt : string) (args : list pyval)
| Transmit (label : string) (data : string)
| HttpRequest (method : string) (url : string).

Definition trace := list event.

Inductive outcome (A : Type) : Type :=
| Return (a : A)
| Raise (e : pyexc).
Arguments Raise {A} e.

(** A computation that writes a trace and returns or raises. *)
Definition M (A : Type) : Type := (trace * outcome A)%type.

Declare Scope monad_scope.
Delimit Scope monad_scope with monad.
Bind Scope monad_scope with M.

Definition ret {A} (a : A) : M A := ([], Return a).

Definition raise {A} (e : pyexc) : M A := ([], Raise e).

Definition bind {A B} (m : M A) (k : A -> M B) : M B :=
  match m with
  | (tr, Return a) => let (tr', r) := k a in ((tr ++ tr')%list, r)
  | (tr, Raise e) => (tr, Raise e)
  end.

Definition emit (ev : event) : M unit := ([ev], Return tt).

Definition log (l : level) (fmt : string) (args : list pyval) : M unit :=
  emit (Log l fmt args).

(** [try: m except <class accepted by handles> as e: h e] *)
Definition try_except {A} (m : M A) (handles : pyexc -> bool) (h : pyexc -> M A)
  : M A :=
  match m with
  | (tr, Return a) => (tr, Return a)
  | (tr, Raise e) =>
      if handles e then let (tr', r) := h e in ((tr ++ tr')%list, r)
      else (tr, Raise e)
  end.

(** [except Exception]: every modelled exception. *)
Definition any_Exception (_ : pyexc) : bool := true.

Notation "x <- m ;; k" := (bind m (fun x => k))
  (at level 61, m at next level, right associativity) : monad_scope.
Notation "m ;; k" := (bind m (fun _ => k))
  (at level 61, right associativity) : monad_scope.
Local Open Scope monad_scope.

(** The events of a computation and its result. *)
Definition events {A} (m : M A) : trace := fst m.
Definition result {A} (m : M A) : outcome A := snd m.

(** The payloads handed to a transmit primitive, in call order. *)
Fixpoint transmitted (tr : trace) : list string :=
  match tr with
  | [] => []
  | Transmit _ data :: tr' => data :: transmitted tr'
  | _ :: tr' => transmitted tr'
  end.

(** The log lines of a given level. *)
Fixpoint logged (l : level) (tr : trace) : list string :=
  match tr with
  | [] => []
  | Log l' fmt _ :: tr' =>
      match l, l' with
      | DEBUG, DEBUG | INFO, INFO | WARNING, WARNING | ERROR, ERROR =>
          fmt :: logged l tr'
      | _, _ => logged l tr'
      end
  | _ :: tr' => logged l tr'
  end.

(** ** Data channels *)

Inductive send_result : Type :=
| SendOk
| SendRaises (e : pyexc).

(** A data-channel handle as the server uses it ([RTCDataChannel],
    [MockRTCDataChannel] or any object with the same attributes):
    [readyState] is [None] when the object has no such attribute, and [send]
    is the transport's transmit primitive, which may raise. *)
Record channel : Type := {
  label : string;
  readyState : option pyval;
  send : string -> send_result
}.

(** [MockRTCDataChannel()].  Its [send] only logs the data it is given:
    in a trace that line is the [Transmit] event of the call. *)
Definition MockRTCDataChannel : channel :=
  {| label := "test"; readyState := Some (PStr "open"); send := fun _ => SendOk |}.

(** [v != s] for a [str] literal [s]. *)
Definition ne_str (v : pyval) (s : string) : bool :=
  match v with
  | PStr s' => negb (String.eqb s' s)
  | _ => true
  end.

(** [channel.send(data)] *)
Definition channel_send (ch : channel) (data : string) : M unit :=
  emit (Transmit (label ch) data) ;;
  match send ch data with
  | SendOk => ret tt
  | SendRaises e => raise e
  end.

(** A payload as the guard sees it.  [Value v] is a payload that
    [json.dumps] encodes, [v] being what it encodes (a [str] is sent as it
    is).  [Unserializable e] is a payload on which [json.dumps] raises [e]:
    an object that is not JSON (a [set], [bytes]), an integer with more
    digits than the interpreter converts to text, a nesting beyond its
    recursion limit. *)
Inductive payload : Type :=
| Value (v : pyval)
| Unserializable (e : pyexc).

Coercion Value : pyval >-> payload.

(** [safe_channel_send(channel, message_data, message_type)]; the handle is
    [None] or an object.  [json.dumps] is called inside the [try]. *)
Definition safe_channel_send (channel : option channel)
  (message_data : payload) (message_type : string) : M bool :=
  match channel with
  | None =>
      log WARNING "❌ Cannot send {message_type}: channel is None"
        [PStr message_type] ;;
      ret false
  | Some ch =>
      match readyState ch with
      | None =>
          log WARNING
            "❌ Cannot send {message_type}: channel has no readyState attribute"
            [PStr message_type] ;;
          ret false
      | Some st =>
          if ne_str st "open" then
            log WARNING
              "❌ Cannot send {message_type}: channel state is '{channel.readyState}', expected 'open'"
              [PStr message_type; st] ;;
            ret false
          else
            try_except
              (match message_data with
               | Value (PStr s) => channel_send ch s
               | Value v => channel_send ch (Json.dumps v)
               | Unserializable e => raise e
               end ;;
               log INFO "✅ Successfully sent {message_type}" [PStr message_type] ;;
               ret true)
              any_Exception
              (fun e =>
                 log ERROR "❌ Failed to send {message_type}: {e}"
                   [PStr message_type; PStr (exc_msg e)] ;;
                 ret false)
      end
  end.

(** ** Pure Python operations that may raise *)

Definition lift_outcome {A} (o : outcome A) : M A := ([], o).

(** [type(v).__name__] *)
Definition type_name (v : pyval) : string :=
  match v with
  | PNone => "NoneType"
  | PBool _ => "bool"
  | PInt _ => "int"
  | PStr _ => "str"
  | PList _ => "list"
  | PDict _ => "dict"
  end.

(** [obj.get(key, default)]: only a [dict] has the method. *)
Definition py_get (obj : pyval) (key : string) (default : pyval) : M pyval :=
  match obj with
  | PDict d => ret (pdict_get key default d)
  | _ =>
      raise (Exc AttributeError
               ("'" ++ type_name obj ++ "' object has no attribute 'get'"))
  end.

(** [v == s] for a [str] literal [s]. *)
Definition eq_str (v : pyval) (s : string) : bool := negb (ne_str v s).

(** A hashable value used as a dict key. *)
Inductive pykey : Type :=
| KNone
| KBool (b : bool)
| KInt (z : Z)
| KStr (s : string).

Definition key_val (k : pykey) : pyval :=
  match k with
  | KNone => PNone
  | KBool b => PBool b
  | KInt z => PInt z
  | KStr s => PStr s
  end.

(** [hash(v)]: lists and dicts are unhashable. *)
Definition hash_key (v : pyval) : M pykey :=
  match v with
  | PNone => ret KNone
  | PBool b => ret (KBool b)
  | PInt z => ret (KInt z)
  | PStr s => ret (KStr s)
  | PList _ => raise (Exc TypeError "unhashable type: 'list'")
  | PDict _ => raise (Exc TypeError "unhashable type: 'dict'")
  end.

(** Key equality as a dict sees it: [True == 1] and [False == 0]. *)
Definition key_eqb (a b : pykey) : bool :=
  match a, b with
  | KNone, KNone => true
  | KStr s, KStr t => String.eqb s t
  | KBool x, KBool y => Bool.eqb x y
  | KInt x, KInt y => x =? y
  | KBool x, KInt y => Z.b2z x =? y
  | KInt x, KBool y => x =? Z.b2z y
  | _, _ => false
  end.

(** ** [json.loads] where its answer is known

    A decoder for the examples, right wherever it answers with a value,
    [JSONDecodeError] or [RecursionError]; on any other text it answers
    [unmodelled], which no statement relies on. *)

(** The first token cannot start a JSON value: the scanner raises
    [JSONDecodeError] ("Expecting value") at once. *)
Definition expecting_value (s : string) : bool :=
  match Json.skip_ws s with
  | EmptyString => true
  | String c r =>
      let starts p :=
        match Json.strip_prefix p r with Some _ => true | None => false end in
      if Ascii.eqb c "n" then negb (starts "ull")
      else if Ascii.eqb c "t" then negb (starts "rue")
      else if Ascii.eqb c "f" then negb (starts "alse")
      else if Ascii.eqb c "N" then negb (starts "aN")
      else if Ascii.eqb c "I" then negb (starts "nfinity")
      else
        negb (Ascii.eqb c Json.dquote || Ascii.eqb c "{" || Ascii.eqb c "["
              || Ascii.eqb c "-" || Json.is_digit c)
  end.

(** The number of arrays a text opens before anything else. *)
Fixpoint leading_brackets (s : string) : Z :=
  match s with
  | String c r => if Ascii.eqb c "[" then 1 + leading_brackets r else 0
  | EmptyString => 0
  end.

(** The nesting depth of a value. *)
Fixpoint depth (v : pyval) : Z :=
  match v with
  | PList l => 1 + fold_right (fun x d => Z.max (depth x) d) 0 l
  | PDict d => 1 + fold_right (fun kx d => Z.max (depth (snd kx)) d) 0 d
  | _ => 0
  end.

(** Every integer of the value has at most 14000 bits. *)
Fixpoint small_ints (v : pyval) : bool :=
  match v with
  | PInt z => Z.log2 (Z.abs z) <? 14000
  | PList l => forallb small_ints l
  | PDict d => forallb (fun kx => small_ints (snd kx)) d
  | _ => true
  end.

(** A value well inside the interpreter's limits, which [json.dumps]
    encodes and whose text [json.loads] decodes: a nesting of at most 100,
    where the recursion limit is 1000, and integers of at most 14000 bits,
    which take fewer than the 4300 digits an integer may have as text. *)
Definition within_limits (v : pyval) : bool :=
  (depth v <=? 100) && small_ints v.

(** [RecursionError], as [json.loads] raises it. *)
Definition recursion_error : pyexc :=
  Exc (OtherError "RecursionError")
    "maximum recursion depth exceeded while decoding a JSON array from a unicode string".



Definition unmodelled : pyexc :=
  Exc (OtherError "Unmodelled") "json.loads: outside the model".

Definition py_json_loads (s : string) : outcome pyval :=
  if 131072 <=? leading_brackets s then Raise recursion_error
  else if expecting_value s then
    Raise (Exc JSONDecodeError "Expecting value")
  else
    match Json.loads s with
    | Some v => if within_limits v then Return v else Raise unmodelled
    | None => Raise unmodelled
    end.

(** ** The server *)

(** [RTCPeerConnection(configuration=...)] and [MockRTCPeerConnection()].
    The configuration is kept as the handler passes it. *)
Inductive peer_connection : Type :=
| RTCPeerConnection (configuration : pyval)
| MockRTCPeerConnection.

(** The configuration [handle_webrtc_offer] gives a peer connection: a plain
    [dict], where [aiortc] expects an [RTCConfiguration]. *)
Definition ice_configuration : pyval :=
  PDict [("iceServers",
          PList [PDict [("urls", PStr "stun:stun.l.google.com:19302")]])].

(** [WebRTCTestServer]: its two registries. *)
Record WebRTCTestServer : Type := {
  connections : Dict.t pykey peer_connection;
  data_channels : Dict.t pykey channel
}.

(** [WebRTCTestServer()] *)
Definition new_server : WebRTCTestServer :=
  {| connections := Dict.empty _ _; data_channels := Dict.empty _ _ |}.

Record Request : Type := {
  method : string;
  path : string;
  content_type : string;
  body : string
}.

Record Response : Type := {
  text : string;
  response_content_type : string;
  status : Z
}.

(** [Response(text=..., content_type='application/json')], status 200. *)
Definition json_response (payload : string) : Response :=
  {| text := payload; response_content_type := "application/json"; status := 200 |}.

(** A handler that mutates the server: the state reached survives a raise. *)
Definition SM (A : Type) : Type :=
  WebRTCTestServer -> (trace * WebRTCTestServer * outcome A)%type.

Declare Scope sm_scope.
Delimit Scope sm_scope with sm.
Bind Scope sm_scope with SM.

Definition sm_ret {A} (a : A) : SM A := fun self => ([], self, Return a).

Definition sm_bind {A B} (m : SM A) (k : A -> SM B) : SM B :=
  fun self =>
    match m self with
    | (tr, self', Return a) =>
        match k a self' with
        | (tr', self'', r) => ((tr ++ tr')%list, self'', r)
        end
    | (tr, self', Raise e) => (tr, self', Raise e)
    end.

Definition lift {A} (m : M A) : SM A := fun self => (fst m, self, snd m).

Definition sm_try_except {A} (m : SM A) (handles : pyexc -> bool)
  (h : pyexc -> SM A) : SM A :=
  fun self =>
    match m self with
    | (tr, self', Return a) => (tr, self', Return a)
    | (tr, self', Raise e) =>
        if handles e then
          match h e self' with
          | (tr', self'', r) => ((tr ++ tr')%list, self'', r)
          end
        else (tr, self', Raise e)
    end.

(** [self.connections[k] = pc] *)
Definition set_connection (k : pykey) (pc : peer_connection) : SM unit :=
  fun self =>
    ([], {| connections := Dict.set key_eqb k pc (connections self);
            data_channels := data_channels self |}, Return tt).

(** [self.data_channels[k] = ch] *)
Definition set_data_channel (k : pykey) (ch : channel) : SM unit :=
  fun self =>
    ([], {| connections := connections self;
            data_channels := Dict.set key_eqb k ch (data_channels self) |},
     Return tt).

(** [del self.data_channels[k]]: [KeyError] when [k] is not a key (its
    message, the key, is left out). *)
Definition del_data_channel (k : pykey) : SM unit :=
  fun self =>
    if Dict.mem key_eqb k (data_channels self) then
      ([], {| connections := connections self;
              data_channels := Dict.del key_eqb k (data_channels self) |},
       Return tt)
    else ([], self, Raise (Exc (OtherError "KeyError") "key")).

Definition get_self : SM WebRTCTestServer := fun self => ([], self, Return self).

Notation "x <- m ;; k" := (sm_bind m (fun x => k))
  (at level 61, m at next level, right associativity) : sm_scope.
Notation "m ;; k" := (sm_bind m (fun _ => k))
  (at level 61, right associativity) : sm_scope.

(** [getattr(channel, 'readyState', 'unknown')] *)
Definition getattr_readyState (ch : channel) (default : pyval) : pyval :=
  match readyState ch with
  | Some st => st
  | None => default
  end.

(** [channel.readyState] *)
Definition attr_readyState (ch : channel) : M pyval :=
  match readyState ch with
  | Some st => ret st
  | None => raise (Exc AttributeError "object has no attribute 'readyState'")
  end.

(** The page [handle_index] serves when the debug page is missing. *)
Definition index_fallback : string :=
"
<!DOCTYPE html>
<html>
<head>
    <title>WebRTC Test Server</title>
</head>
<body>
    <h1>🔍 WebRTC DataChannel Test Server</h1>
    <p>✅ Server is running and ready for testing!</p>
    <p>📋 Available endpoints:</p>
    <ul>
        <li><code>/config</code> - Configuration endpoint</li>
        <li><code>/webrtc/offer</code> - WebRTC offer endpoint</li>
        <li><code>/test</code> - DataChannel send test</li>
    </ul>
    <p>💡 The enhanced debug page (webrtc_debug_enhanced.html) was not found.</p>
</body>
</html>
            ".

Section Server.

(** Whether [import aiortc] succeeded when the module was loaded. *)
Variable AIORTC_AVAILABLE : bool.

(** [json.loads] on text: the value it returns or the exception it raises,
    [json.JSONDecodeError] or another one ([RecursionError] on a deep
    nesting, [ValueError] on an integer with too many digits).  The handlers
    are stated for every decoder. *)
Variable json_loads : string -> outcome pyval.

(** Python's [str()], used by f-strings that end up in payloads. *)
Variable py_str : pyval -> string.

(** The WebRTC engine's side of an offer ([RTCSessionDescription],
    [setRemoteDescription], [createAnswer], [setLocalDescription] on the
    peer connection just created, with [ice_configuration]): the answer's
    [type] and [sdp], or the exception it raises. *)
Variable engine_negotiate : pyval -> pyval -> outcome (string * string).

(** The content of [webrtc_debug_enhanced.html] when the file exists. *)
Variable debug_page : option string.

(** [json.loads(text)] *)
Definition loads_or_raise (s : string) : M pyval :=
  lift_outcome (json_loads s).

(** [await request.json()] *)
Definition request_json (request : Request) : M pyval :=
  loads_or_raise (body request).

Definition handle_index (request : Request) : Response :=
  match debug_page with
  | Some content =>
      {| text := content; response_content_type := "text/html"; status := 200 |}
  | None =>
      {| text := index_fallback; response_content_type := "text/html";
         status := 200 |}
  end.

Definition config_payload (now : string) : pyval :=
  PDict
    [("rtc_configuration",
      PDict
        [("iceServers",
          PList [PDict [("urls", PStr "stun:stun.l.google.com:19302")];
                 PDict [("urls", PStr "stun:stun1.l.google.com:19302")]]);
         ("bundlePolicy", PStr "balanced");
         ("iceCandidatePoolSize", PInt 10);
         ("iceTransportPolicy", PStr "all")]);
     ("server_info",
      PDict
        [("name", PStr "WebRTC Test Server");
         ("version", PStr "1.0.0");
         ("datachannel_fixes", PStr "enabled");
         ("timestamp", PStr now)])].

Definition handle_config (request : Request) (now : string) : M Response :=
  log INFO "📋 Configuration requested" [] ;;
  ret (json_response (JsonIndent.dumps (config_payload now))).

(** The [datachannel] callback of the peer connection created for
    [webrtc_id]. *)
Definition on_datachannel (webrtc_id : pykey) (channel : channel) : SM unit :=
  (lift (log INFO "📺 DataChannel established: {channel.label}"
           [PStr (label channel)]) ;;
   set_data_channel webrtc_id channel)%sm.

Definition on_open (webrtc_id : pykey) (channel : channel) : M unit :=
  log INFO "✅ DataChannel opened for {webrtc_id}" [key_val webrtc_id] ;;
  safe_channel_send (Some channel)
    (PDict [("type", PStr "server_ready");
            ("message", PStr "DataChannel connection established!")])
    "welcome message" ;;
  ret tt.

Definition on_message (channel : channel) (message : string)
  (uuid4 now : string) : M unit :=
  log INFO "📨 Received message: {message}" [PStr message] ;;
  try_except
    (msg_data <- loads_or_raise message ;;
     (* [msg_data.get('type')], read again by each [elif], has no effect
        and gives the same value every time. *)
     ty <- py_get msg_data "type" PNone ;;
     if eq_str ty "chat" then
       id <- py_get msg_data "id" (PStr uuid4) ;;
       data <- py_get msg_data "data" (PStr "No data") ;;
       safe_channel_send (Some channel)
         (PDict [("type", PStr "chat_response");
                 ("id", id);
                 ("message", PStr ("Echo: " ++ py_str data))])
         "chat response" ;;
       ret tt
     else if eq_str ty "stop_chat" then
       safe_channel_send (Some channel)
         (PDict [("type", PStr "chat_stopped"); ("message", PStr "Chat stopped")])
         "stop confirmation" ;;
       ret tt
     else if eq_str ty "test" then
       st <- attr_readyState channel ;;
       safe_channel_send (Some channel)
         (PDict [("type", PStr "test_response");
                 ("message", PStr "DataChannel state checking is working!");
                 ("channel_state", st);
                 ("timestamp", PStr now)])
         "test response" ;;
       ret tt
     else
       safe_channel_send (Some channel)
         (PDict [("type", PStr "echo"); ("original", msg_data)])
         "echo response" ;;
       ret tt)
    is_JSONDecodeError
    (fun _ =>
       log WARNING "⚠️  Received non-JSON message: {message}" [PStr message] ;;
       safe_channel_send (Some channel)
         (PDict [("type", PStr "error"); ("message", PStr "Invalid JSON")])
         "error response" ;;
       ret tt).

Definition on_close (webrtc_id : pykey) : SM unit :=
  (lift (log INFO "📪 DataChannel closed for {webrtc_id}" [key_val webrtc_id]) ;;
   self <- get_self ;;
   if Dict.mem key_eqb webrtc_id (data_channels self)
   then del_data_channel webrtc_id
   else sm_ret tt)%sm.

Definition error_response (e : pyexc) : Response :=
  {| text := Json.dumps (PDict [("error", PStr (exc_msg e))]);
     response_content_type := "application/json";
     status := 500 |}.

Definition handle_webrtc_offer (request : Request) (uuid4 : string)
  : SM Response :=
  sm_try_except
    (data <- lift (request_json request) ;;
     webrtc_id <- lift (py_get data "webrtc_id" (PStr uuid4)) ;;
     offer_sdp <- lift (py_get data "sdp" PNone) ;;
     offer_type <- lift (py_get data "type" PNone) ;;
     lift (log INFO "📡 Received WebRTC offer for session {webrtc_id}"
             [webrtc_id]) ;;
     let pc :=
       if AIORTC_AVAILABLE then RTCPeerConnection ice_configuration
       else MockRTCPeerConnection in
     key <- lift (hash_key webrtc_id) ;;
     set_connection key pc ;;
     (* The decorator of [on_datachannel]: [pc.on("datachannel")] registers
        the callback; in mock mode the decorator is [lambda: None], which
        takes no argument and is called with the function. *)
     lift (if AIORTC_AVAILABLE then ret tt
           else raise (Exc TypeError
                  "WebRTCTestServer.handle_webrtc_offer.<locals>.<lambda>() takes 0 positional arguments but 1 was given")) ;;
     response_data <-
       lift (if AIORTC_AVAILABLE then
               answer <- lift_outcome (engine_negotiate offer_sdp offer_type) ;;
               ret (PDict [("type", PStr (fst answer));
                           ("sdp", PStr (snd answer))])
             else
               ret (PDict [("type", PStr "answer");
                           ("sdp",
                            PStr "mock-answer-sdp-with-datachannel-support")])) ;;
     lift (log INFO "✅ Created answer for session {webrtc_id}" [webrtc_id]) ;;
     sm_ret (json_response (Json.dumps response_data)))%sm
    any_Exception
    (fun e =>
       (lift (log ERROR "❌ Error handling WebRTC offer: {e}"
                [PStr (exc_msg e)]) ;;
        sm_ret (error_response e))%sm).

(** One entry of [test_results]. *)
Definition test_result (webrtc_id : pyval) (success : bool) (channel : channel)
  : pyval :=
  PDict [("webrtc_id", webrtc_id);
         ("success", PBool success);
         ("channel_state", getattr_readyState channel (PStr "unknown"))].

(** [for wid, channel in self.data_channels.items(): ...] *)
Fixpoint broadcast (items : list (pykey * channel)) (test_message : pyval)
  : M (list pyval) :=
  match items with
  | [] => ret []
  | (wid, channel) :: items' =>
      success <- safe_channel_send (Some channel)
                   (PDict [("type", PStr "broadcast_test");
                           ("message", test_message)])
                   ("broadcast test to " ++ py_str (key_val wid)) ;;
      results <- broadcast items' test_message ;;
      ret (test_result (key_val wid) success channel :: results)
  end.

(** [webrtc_id and webrtc_id in self.data_channels], with the channel found. *)
Definition lookup_channel (self : WebRTCTestServer) (webrtc_id : pyval)
  : M (option channel) :=
  if truthy webrtc_id then
    key <- hash_key webrtc_id ;;
    ret (Dict.get key_eqb key (data_channels self))
  else ret None.

Definition handle_datachannel_test (self : WebRTCTestServer) (request : Request)
  (now : string) : M Response :=
  try_except
    (data <- (if String.eqb (content_type request) "application/json"
              then request_json request
              else ret (PDict [])) ;;
     webrtc_id <- py_get data "webrtc_id" PNone ;;
     test_message <- py_get data "message" (PStr "Test message from server") ;;
     found <- lookup_channel self webrtc_id ;;
     results <-
       match found with
       | Some channel =>
           success <- safe_channel_send (Some channel)
                        (PDict [("type", PStr "server_test");
                                ("message", test_message)])
                        ("test message to " ++ py_str webrtc_id) ;;
           ret [test_result webrtc_id success channel]
       | None => broadcast (data_channels self) test_message
       end ;;
     ret (json_response
            (Json.dumps
               (PDict [("test_results", PList results);
                       ("total_channels",
                        PInt (Dict.len (data_channels self)));
                       ("timestamp", PStr now)]))))
    any_Exception
    (fun e =>
       log ERROR "❌ Error in DataChannel test: {e}" [PStr (exc_msg e)] ;;
       ret (error_response e)).

Definition status_payload (self : WebRTCTestServer) (now : string) : pyval :=
  PDict [("server", PStr "WebRTC Test Server");
         ("status", PStr "running");
         ("connections", PInt (Dict.len (connections self)));
         ("data_channels", PInt (Dict.len (data_channels self)));
         ("aiortc_available", PBool AIORTC_AVAILABLE);
         ("datachannel_fixes", PStr "enabled");
         ("active_sessions",
          PList (List.map key_val (Dict.keys (data_channels self))));
         ("timestamp", PStr now)].

Definition handle_status (self : WebRTCTestServer) (request : Request)
  (now : string) : Response :=
  json_response (JsonIndent.dumps (status_payload self now)).

End Server.

(** ** The server as a transition system *)

(** What can happen to a running server: an HTTP request, or one of the
    events the WebRTC engine delivers to the callbacks registered by
    [handle_webrtc_offer]. *)
Inductive op : Type :=
| HttpOp (request : Request) (uuid4 now : string)
| DataChannelEvent (webrtc_id : pykey) (channel : channel)
| OpenEvent (webrtc_id : pykey) (channel : channel)
| MessageEvent (channel : channel) (message : string) (uuid4 now : string)
| CloseEvent (webrtc_id : pykey).

Section Machine.

Variable AIORTC_AVAILABLE : bool.
Variable json_loads : string -> outcome pyval.
Variable py_str : pyval -> string.
Variable engine_negotiate : pyval -> pyval -> outcome (string * string).
Variable debug_page : option string.

(** The routes of [create_app]; [None] when no handler of the server runs
    (the framework answers 404 or 405 itself).  A route added with
    [add_get] also serves [HEAD]. *)
Definition dispatch (request : Request) (uuid4 now : string)
  : SM (option Response) :=
  let get :=
    String.eqb (method request) "GET" || String.eqb (method request) "HEAD" in
  let post := String.eqb (method request) "POST" in
  let at_ p := String.eqb (path request) p in
  if get && at_ "/" then sm_ret (Some (handle_index debug_page request))
  else if get && (at_ "/config" || at_ "/openavatarchat/initconfig") then
    (r <- lift (handle_config request now) ;; sm_ret (Some r))%sm
  else if post && at_ "/webrtc/offer" then
    (r <- handle_webrtc_offer AIORTC_AVAILABLE json_loads engine_negotiate
            request uuid4 ;;
     sm_ret (Some r))%sm
  else if (get || post) && at_ "/test" then
    (self <- get_self ;;
     r <- lift (handle_datachannel_test json_loads py_str self request now) ;;
     sm_ret (Some r))%sm
  else if get && at_ "/status" then
    (self <- get_self ;;
     sm_ret (Some (handle_status AIORTC_AVAILABLE self request now)))%sm
  else if get && at_ "/debug" then
    match debug_page with
    | Some content =>
        sm_ret (Some {| text := content; response_content_type := "text/html";
                        status := 200 |})
    | None => sm_ret None
    end
  else sm_ret None.

Definition step (o : op) : SM (option Response) :=
  match o with
  | HttpOp request uuid4 now => dispatch request uuid4 now
  | DataChannelEvent webrtc_id channel =>
      (on_datachannel webrtc_id channel ;; sm_ret None)%sm
  | OpenEvent webrtc_id channel =>
      (lift (on_open webrtc_id channel) ;; sm_ret None)%sm
  | MessageEvent channel message uuid4 now =>
      (lift (on_message json_loads py_str channel message uuid4 now) ;;
       sm_ret None)%sm
  | CloseEvent webrtc_id => (on_close webrtc_id ;; sm_ret None)%sm
  end.

(** The server after a sequence of operations, with everything it logged and
    sent; an exception a callback lets escape ends that callback only. *)
Fixpoint run (ops : list op) (self : WebRTCTestServer)
  : trace * WebRTCTestServer :=
  match ops with
  | [] => ([], self)
  | o :: ops' =>
      match step o self with
      | (tr, self', _) =>
          let (tr', self'') := run ops' self' in ((tr ++ tr')%list, self'')
      end
  end.

(** The [connections] figure a [/status] request would report. *)
Definition status_connections (self : WebRTCTestServer) (now : string) : pyval :=
  match status_payload AIORTC_AVAILABLE self now with
  | PDict d => pdict_get "connections" PNone d
  | _ => PNone
  end.

End Machine.

(** ** The diagnostic client ([debug_webrtc_connection.py]) *)

(** More Python operations on JSON values. *)

Fixpoint contains_substring (needle s : string) : bool :=
  String.prefix needle s
  || match s with
     | EmptyString => false
     | String _ s' => contains_substring needle s'
     end.

Definition not_iterable {A} : M A :=
  raise (Exc TypeError "argument is not iterable").

(** [needle in container] for a [str] needle. *)
Definition py_in (needle : string) (container : pyval) : M bool :=
  match container with
  | PStr s => ret (contains_substring needle s)
  | PList l => ret (existsb (fun x => eq_str x needle) l)
  | PDict d => ret (Dict.mem String.eqb needle d)
  | _ => not_iterable
  end.

(** [container[key]] for a [str] key. *)
Definition py_getitem (container : pyval) (key : string) : M pyval :=
  match container with
  | PDict d =>
      match Dict.get String.eqb key d with
      | Some v => ret v
      | None => raise (Exc (OtherError "KeyError") key)
      end
  | PStr _ => raise (Exc TypeError "string indices must be integers")
  | PList _ => raise (Exc TypeError "list indices must be integers or slices")
  | _ => raise (Exc TypeError "object is not subscriptable")
  end.

(** [container[0]] *)
Definition py_first (container : pyval) : M pyval :=
  match container with
  | PList (x :: _) => ret x
  | PList [] => raise (Exc IndexError "list index out of range")
  | PStr (String c _) => ret (PStr (String c ""))
  | PStr EmptyString => raise (Exc IndexError "string index out of range")
  | PDict _ => raise (Exc (OtherError "KeyError") "0")
  | _ => raise (Exc TypeError "object is not subscriptable")
  end.

(** [len(v)] *)
Definition py_len (v : pyval) : M Z :=
  match v with
  | PStr s => ret (Z.of_nat (String.length s))
  | PList l => ret (Z.of_nat (List.length l))
  | PDict d => ret (Z.of_nat (List.length d))
  | _ => raise (Exc TypeError "object has no len()")
  end.

Fixpoint chars (s : string) : list pyval :=
  match s with
  | EmptyString => []
  | String c s' => PStr (String c "") :: chars s'
  end.

(** The items [for x in v] visits. *)
Definition py_iter (v : pyval) : M (list pyval) :=
  match v with
  | PStr s => ret (chars s)
  | PList l => ret l
  | PDict d => ret (List.map (fun kv => PStr (fst kv)) d)
  | _ => not_iterable
  end.

Definition is_list (v : pyval) : bool :=
  match v with PList _ => true | _ => false end.

(** [any(f(x) for x in items)]: stops at the first true item. *)
Fixpoint py_any (f : pyval -> M bool) (items : list pyval) : M bool :=
  match items with
  | [] => ret false
  | x :: items' => b <- f x ;; if b then ret true else py_any f items'
  end.

(** [for x in items: f(i, x)] with [i] counted from [i0]. *)
Fixpoint for_enumerate (f : Z -> pyval -> M unit) (i0 : Z) (items : list pyval)
  : M unit :=
  match items with
  | [] => ret tt
  | x :: items' => f i0 x ;; for_enumerate f (i0 + 1) items'
  end.

(** [s.rstrip('/')] *)
Fixpoint rstrip_slash (s : string) : string :=
  match s with
  | EmptyString => EmptyString
  | String c s' =>
      match rstrip_slash s' with
      | EmptyString => if Ascii.eqb c "/" then EmptyString else String c ""
      | r => String c r
      end
  end.

(** What the client sees of an HTTP response. *)
Record ClientResponse : Type := {
  resp_status : Z;
  resp_json : outcome pyval;
  resp_text : string
}.

(** The minimal SDP offer the client posts. *)
Definition mock_sdp : string :=
"v=0
o=- 123456789 123456789 IN IP4 127.0.0.1
s=-
t=0 0
m=audio 9 UDP/TLS/RTP/SAVPF 111
c=IN IP4 0.0.0.0
a=rtcp:9 IN IP4 0.0.0.0
a=ice-ufrag:test
a=ice-pwd:testpassword
a=fingerprint:sha-256 00:00:00:00:00:00:00:00:00:00:00:00:00:00:00:00:00:00:00:00:00:00:00:00:00:00:00:00:00:00:00:00
a=setup:actpass
a=mid:audio
a=sendrecv
a=rtcp-mux
a=rtpmap:111 opus/48000/2
a=fmtp:111 minptime=10;useinbandfec=1
".

Section WebRTCDebugger.

(** The server under test, as seen through [aiohttp.ClientSession]: the
    response to a request, or the exception the request raises. *)
Variable http_get : string -> outcome ClientResponse.
Variable http_post : string -> pyval -> outcome ClientResponse.

(** [int(time.time())] *)
Variable time_now : Z.

(** [self.base_url] *)
Variable base_url : string.

Definition session_get (url : string) : M ClientResponse :=
  emit (HttpRequest "GET" url) ;; lift_outcome (http_get url).

Definition session_post (url : string) (json : pyval) : M ClientResponse :=
  emit (HttpRequest "POST" url) ;; lift_outcome (http_post url json).

Definition test_server_connectivity : M bool :=
  log INFO "Testing server connectivity..." [] ;;
  try_except
    (response <- session_get (base_url ++ "/") ;;
     if resp_status response =? 200 then
       log INFO "✅ Server is reachable" [] ;;
       ret true
     else
       log ERROR "❌ Server returned status {response.status}"
         [PInt (resp_status response)] ;;
       ret false)
    any_Exception
    (fun e =>
       log ERROR "❌ Failed to connect to server: {e}" [PStr (exc_msg e)] ;;
       ret false).

(** [Optional[Dict]]: the configuration, or [PNone] for [None]. *)
Definition test_config_endpoint : M pyval :=
  log INFO "Testing configuration endpoint..." [] ;;
  try_except
    (response <- session_get (base_url ++ "/openavatarchat/initconfig") ;;
     if resp_status response =? 200 then
       config <- lift_outcome (resp_json response) ;;
       log INFO "✅ Configuration endpoint working" [] ;;
       log DEBUG "Config: {json.dumps(config, indent=2)}"
         [PStr (JsonIndent.dumps config)] ;;
       has_rtc <- py_in "rtc_configuration" config ;;
       (if has_rtc then
          rtc_config <- py_getitem config "rtc_configuration" ;;
          has_ice <- py_in "iceServers" rtc_config ;;
          if has_ice then
            ice_servers <- py_getitem rtc_config "iceServers" ;;
            n <- py_len ice_servers ;;
            log INFO "✅ Found {len(ice_servers)} ICE servers" [PInt n] ;;
            servers <- py_iter ice_servers ;;
            for_enumerate
              (fun i server =>
                 log DEBUG "  ICE Server {i+1}: {server}" [PInt (i + 1); server])
              0 servers
          else
            log WARNING "⚠️  No ICE servers found in configuration" []
        else
          log ERROR "❌ No RTC configuration found" []) ;;
       ret config
     else
       log ERROR "❌ Config endpoint returned status {response.status}"
         [PInt (resp_status response)] ;;
       ret PNone)
    any_Exception
    (fun e =>
       log ERROR "❌ Failed to get configuration: {e}" [PStr (exc_msg e)] ;;
       ret PNone).

Definition mock_offer : pyval :=
  PDict [("webrtc_id", PStr ("debug-test-" ++ Json.string_of_Z time_now));
         ("type", PStr "offer");
         ("sdp", PStr mock_sdp)].

Definition test_webrtc_offer_endpoint : M bool :=
  log INFO "Testing WebRTC offer endpoint..." [] ;;
  try_except
    (response <- session_post (base_url ++ "/webrtc/offer") mock_offer ;;
     if resp_status response =? 200 then
       answer <- lift_outcome (resp_json response) ;;
       log INFO "✅ WebRTC offer endpoint working" [] ;;
       log DEBUG "Received answer: {json.dumps(answer, indent=2)}"
         [PStr (JsonIndent.dumps answer)] ;;
       ret true
     else
       log ERROR
         "❌ WebRTC offer endpoint returned status {response.status}: {error_text}"
         [PInt (resp_status response); PStr (resp_text response)] ;;
       ret false)
    any_Exception
    (fun e =>
       log ERROR "❌ Failed to test WebRTC offer endpoint: {e}"
         [PStr (exc_msg e)] ;;
       ret false).

(** ['<scheme>' in server.get('urls', [''])[0]
      if isinstance(server.get('urls'), list)
      else '<scheme>' in server.get('urls', '')] *)
Definition server_has (scheme : string) (server : pyval) : M bool :=
  urls <- py_get server "urls" PNone ;;
  if is_list urls then
    urls' <- py_get server "urls" (PList [PStr ""]) ;;
    first <- py_first urls' ;;
    py_in scheme first
  else
    urls' <- py_get server "urls" (PStr "") ;;
    py_in scheme urls'.

Definition check_common_issues (config : pyval) : M unit :=
  log INFO "Checking for common issues..." [] ;;
  if negb (truthy config) then
    log ERROR "❌ No configuration available for analysis" []
  else
    rtc_config <- py_get config "rtc_configuration" (PDict []) ;;
    ice_servers <- py_get rtc_config "iceServers" (PList []) ;;
    if negb (truthy ice_servers) then
      log WARNING
        "⚠️  No ICE servers configured - this may cause connection issues" []
    else
      servers <- py_iter ice_servers ;;
      has_stun <- py_any (server_has "stun:") servers ;;
      has_turn <- py_any (server_has "turn:") servers ;;
      (if negb has_stun then
         log WARNING "⚠️  No STUN servers found - NAT traversal may fail" []
       else log INFO "✅ STUN server(s) configured" []) ;;
      (if negb has_turn then
         log WARNING
           "⚠️  No TURN servers found - connections through restrictive firewalls may fail"
           []
       else log INFO "✅ TURN server(s) configured" []).

Definition diagnose_webrtc_issues : M unit :=
  log INFO "🔍 Starting WebRTC diagnostics..." [] ;;
  (* Test 1: Server connectivity *)
  reachable <- test_server_connectivity ;;
  if negb reachable then
    log ERROR
      "❌ Server connectivity failed - cannot proceed with other tests" []
  else
    (* Test 2: Configuration endpoint *)
    config <- test_config_endpoint ;;
    if negb (truthy config) then
      log ERROR "❌ Configuration test failed - WebRTC likely won't work" []
    else
      (* Test 3: WebRTC offer endpoint *)
      offer_ok <- test_webrtc_offer_endpoint ;;
      (if negb offer_ok then
         log ERROR "❌ WebRTC offer endpoint test failed" []
       else ret tt) ;;
      (* Test 4: Check for common configuration issues *)
      check_common_issues config ;;
      log INFO "🔍 Diagnostics complete!" [].

End WebRTCDebugger.

(** The probes of the client's checklist, each recognised in a trace by the
    line its function logs first. *)
Inductive probe : Type :=
| Connectivity
| Configuration
| OfferExchange
| CommonIssues.

Definition probe_of_line (fmt : string) : option probe :=
  if String.eqb fmt "Testing server connectivity..." then Some Connectivity
  else if String.eqb fmt "Testing configuration endpoint..." then
    Some Configuration
  else if String.eqb fmt "Testing WebRTC offer endpoint..." then
    Some OfferExchange
  else if String.eqb fmt "Checking for common issues..." then Some CommonIssues
  else None.

(** The probes a run of the client executed, in order. *)
Fixpoint probes_run (tr : trace) : list probe :=
  match tr with
  | [] => []
  | Log INFO fmt _ :: tr' =>
      match probe_of_line fmt with
      | Some p => p :: probes_run tr'
      | None => probes_run tr'
      end
  | _ :: tr' => probes_run tr'
  end.

(** ** Observations, examples and predicates used by the properties *)

(** The text [safe_channel_send] hands to [channel.send]. *)
Definition wire_text (message_data : pyval) : string :=
  match message_data with
  | PStr s => s
  | _ => Json.dumps message_data
  end.

(** A handle that is absent, has no [readyState], or whose [readyState] is
    not ["open"]. *)
Definition not_ready (handle : option channel) : Prop :=
  match handle with
  | None => True
  | Some ch =>
      match readyState ch with
      | None => True
      | Some st => st <> PStr "open"
      end
  end.

(** The scenario of the specification: a channel that is still connecting. *)
Definition connecting_channel : channel :=
  {| label := "chat"; readyState := Some (PStr "connecting");
     send := fun _ => SendOk |}.

(** The chat payload of that scenario. *)
Definition chat_hi : pyval := PDict [("type", PStr "chat"); ("data", PStr "hi")].


(** An open channel whose transport rejects every send. *)
Definition failing_channel : channel :=
  {| label := "chat"; readyState := Some (PStr "open");
     send := fun _ => SendRaises (Exc (OtherError "ConnectionError") "closed") |}.

(** What a stateful handler logged and sent, the server it left, and how it
    ended. *)
Definition trace_of {A} (r : trace * WebRTCTestServer * outcome A) : trace :=
  fst (fst r).

Definition state_after {A} (r : trace * WebRTCTestServer * outcome A)
  : WebRTCTestServer := snd (fst r).

Definition outcome_of {A} (r : trace * WebRTCTestServer * outcome A)
  : outcome A := snd r.

(** A server with two sessions, each with its channel. *)
Definition two_sessions : WebRTCTestServer :=
  {| connections := [(KStr "s1", RTCPeerConnection ice_configuration);
                     (KStr "s2", RTCPeerConnection ice_configuration)];
     data_channels := [(KStr "s1", MockRTCDataChannel);
                       (KStr "s2", connecting_channel)] |}.

(** Every key of [connections] in [s] is still a key in [s'], and there are
    at least as many. *)
Definition connections_kept (s s' : WebRTCTestServer) : Prop :=
  (forall k, Dict.mem key_eqb k (connections s) = true ->
             Dict.mem key_eqb k (connections s') = true)
  /\ Dict.len (connections s) <= Dict.len (connections s').

(** Both registries satisfy the invariant of a dict: no repeated key. *)
Definition registries_wf (self : WebRTCTestServer) : bool :=
  Dict.wf key_eqb (connections self) && Dict.wf key_eqb (data_channels self).

Definition wf_kept (s s' : WebRTCTestServer) : Prop :=
  registries_wf s = true -> registries_wf s' = true.

(** A handler that relates the server it leaves to the server it started in
    by [R], also when it raises. *)
Definition preserves (R : WebRTCTestServer -> WebRTCTestServer -> Prop) {A}
  (m : SM A) : Prop :=
  forall self, R self (state_after (m self)).

(** The reply to a message that is not JSON. *)
Definition invalid_json_reply : pyval :=
  PDict [("type", PStr "error"); ("message", PStr "Invalid JSON")].

(** Whether a guarded send reported success. *)
Definition sent_ok (m : M bool) : bool :=
  match result m with
  | Return b => b
  | Raise _ => false
  end.

(** Python's [str()] for the examples: exact on [None], [bool], [int] and
    [str]; a list or dict is shown as its JSON text, which is not what
    Python prints. *)
Definition str_of (v : pyval) : string :=
  match v with
  | PNone => "None"
  | PBool true => "True"
  | PBool false => "False"
  | PInt z => Json.string_of_Z z
  | PStr s => s
  | _ => Json.dumps v
  end.

(** A server with one open channel, registered for session ["a"]. *)
Definition one_open_channel : WebRTCTestServer :=
  {| connections := [(KStr "a", RTCPeerConnection ice_configuration)];
     data_channels := [(KStr "a", MockRTCDataChannel)] |}.

(** [POST /test] with the JSON body [{"webrtc_id": "b"}]. *)
Definition test_unknown_b : Request :=
  {| method := "POST"; path := "/test"; content_type := "application/json";
     body := Json.dumps (PDict [("webrtc_id", PStr "b")]) |}.

(** A [GET /test] without a body. *)
Definition test_bodyless_get : Request :=
  {| method := "GET"; path := "/test";
     content_type := "application/octet-stream"; body := "" |}.

(** A computation that starts no probe. *)
Definition quiet {A} (m : M A) : Prop := probes_run (events m) = [].

(** The requests a run of the client issued, in order. *)
Fixpoint requests (tr : trace) : list (string * string) :=
  match tr with
  | [] => []
  | HttpRequest m url :: tr' => (m, url) :: requests tr'
  | _ :: tr' => requests tr'
  end.

(** A server that refuses connections, and one whose offer endpoint would
    answer. *)
Definition refused_get (url : string) : outcome ClientResponse :=
  Raise (Exc (OtherError "ClientConnectorError") "Cannot connect to host").

Definition accepting_post (url : string) (json : pyval) : outcome ClientResponse :=
  Return {| resp_status := 200;
            resp_json := Return (PDict [("type", PStr "answer");
                                        ("sdp", PStr "v=0")]);
            resp_text := "" |}.

Section TestEndpointModel.

Variable py_str : pyval -> string.

(** The payload of a broadcast and the description it is logged under. *)
Definition broadcast_payload (test_message : pyval) : pyval :=
  PDict [("type", PStr "broadcast_test"); ("message", test_message)].

Definition broadcast_send (test_message : pyval) (item : pykey * channel)
  : M bool :=
  safe_channel_send (Some (snd item)) (broadcast_payload test_message)
    ("broadcast test to " ++ py_str (key_val (fst item))).

(** The answer of the broadcast branch of [/test]. *)
Definition broadcast_response (self : WebRTCTestServer) (test_message : pyval)
  (now : string) : Response :=
  json_response
    (Json.dumps
       (PDict
          [("test_results",
            PList
              (List.map
                 (fun item =>
                    test_result (key_val (fst item))
                      (sent_ok (broadcast_send test_message item)) (snd item))
                 (data_channels self)));
           ("total_channels", PInt (Dict.len (data_channels self)));
           ("timestamp", PStr now)])).

End TestEndpointModel.

(** ** Predicates and examples for further properties *)

(** What makes the offer unreadable: a body [json.loads] raises on, a JSON
    value that is not an object, or an object whose [webrtc_id] is a list or
    an object. *)
Definition unreadable_offer (json_loads : string -> outcome pyval)
  (request : Request) : bool :=
  match json_loads (body request) with
  | Raise _ => true
  | Return (PDict data) =>
      match Dict.get String.eqb "webrtc_id" data with
      | Some (PList _) | Some (PDict _) => true
      | _ => false
      end
  | Return _ => true
  end.

(** The reply to a [test] message on a channel whose state is [st]. *)
Definition test_response (st : pyval) (now : string) : pyval :=
  PDict [("type", PStr "test_response");
         ("message", PStr "DataChannel state checking is working!");
         ("channel_state", st);
         ("timestamp", PStr now)].

(** The reply to a message of no known type. *)
Definition echo_reply (msg_data : pyval) : pyval :=
  PDict [("type", PStr "echo"); ("original", msg_data)].


(** [WebRTCDebugger(base_url).base_url] *)
Definition debugger_base_url (base_url : string) : string :=
  rstrip_slash base_url.

(** The last character of a string. *)
Fixpoint last_char (s : string) : option ascii :=
  match s with
  | EmptyString => None
  | String c EmptyString => Some c
  | String _ s' => last_char s'
  end.

(** [n] slashes. *)
Fixpoint slashes (n : nat) : string :=
  match n with
  | O => EmptyString
  | S n' => String "/" (slashes n')
  end.

(** A configuration the configuration probe reads without an error: an
    object whose [rtc_configuration], when present, is an object whose
    [iceServers], when present, is a list. *)
Definition well_shaped_config (config : pyval) : bool :=
  match config with
  | PDict d =>
      match Dict.get String.eqb "rtc_configuration" d with
      | None => true
      | Some (PDict rd) =>
          match Dict.get String.eqb "iceServers" rd with
          | None => true
          | Some (PList _) => true
          | Some _ => false
          end
      | Some _ => false
      end
  | _ => false
  end.

(** The text [check_common_issues] looks at for an ICE server: its [urls]
    when that is a string, the first entry when it is a list that starts with
    a string, the empty string when the server has no [urls].  [None] for a
    server, or a [urls], of another shape. *)
Definition inspected_url (server : pyval) : option string :=
  match server with
  | PDict sd =>
      match Dict.get String.eqb "urls" sd with
      | None => Some ""
      | Some (PStr u) => Some u
      | Some (PList (PStr u :: _)) => Some u
      | Some _ => None
      end
  | _ => None
  end.

(** Whether some server's inspected text mentions the scheme. *)
Definition mentions (scheme : string) (servers : list pyval) : bool :=
  existsb
    (fun server =>
       match inspected_url server with
       | Some u => contains_substring scheme u
       | None => false
       end)
    servers.

(** The line [check_common_issues] logs about STUN, and about TURN. *)
Definition stun_line (found : bool) : event :=
  if found then Log INFO "✅ STUN server(s) configured" []
  else Log WARNING "⚠️  No STUN servers found - NAT traversal may fail" [].

Definition turn_line (found : bool) : event :=
  if found then Log INFO "✅ TURN server(s) configured" []
  else
    Log WARNING
      "⚠️  No TURN servers found - connections through restrictive firewalls may fail"
      [].

(** ** The entry points *)

(** The command line of the server, as [argparse] returns it. *)
Record Args : Type := {
  args_host : string;
  args_port : Z;
  args_ssl : bool;
  args_cert : option string;
  args_key : option string;
  args_debug : bool
}.

(** What [main] hands to [web.run_app], with the level it set on the root
    logger; the SSL context is given by the certificate chain it loaded. *)
Record Launch : Type := {
  run_host : string;
  run_port : Z;
  run_ssl_context : option (string * string);
  root_level : level
}.

(** [path or default]: the default also replaces an empty string. *)
Definition or_default (path : option string) (default : string) : string :=
  match path with
  | Some p => if String.eqb p "" then default else p
  | None => default
  end.

Section ServerMain.

Variable AIORTC_AVAILABLE : bool.

(** [ssl_context.load_cert_chain(cert_file, key_file)] *)
Variable load_cert_chain : string -> string -> outcome unit.

(** [main()] of [webrtc_test_server.py], up to the call of [web.run_app],
    whose arguments it returns. *)
Definition server_main (args : Args) : M Launch :=
  let root := if args_debug args then DEBUG else INFO in
  ssl_context <-
    (if args_ssl args then
       let cert_file := or_default (args_cert args) "ssl_certs/localhost.crt" in
       let key_file := or_default (args_key args) "ssl_certs/localhost.key" in
       try_except
         (lift_outcome (load_cert_chain cert_file key_file) ;;
          log INFO "🔒 SSL enabled with cert: {cert_file}" [PStr cert_file] ;;
          ret (Some (cert_file, key_file)))
         any_Exception
         (fun e =>
            log ERROR "❌ Failed to load SSL certificates: {e}"
              [PStr (exc_msg e)] ;;
            log INFO "💡 Continuing without SSL..." [] ;;
            ret None)
     else ret None) ;;
  let protocol :=
    match ssl_context with Some _ => "https" | None => "http" end in
  let where_ :=
    [PStr protocol; PStr (args_host args); PInt (args_port args)] in
  log INFO
    "🚀 Starting WebRTC Test Server at {protocol}://{args.host}:{args.port}"
    where_ ;;
  log INFO
    "📋 Configuration endpoint: {protocol}://{args.host}:{args.port}/config"
    where_ ;;
  log INFO "🔍 Debug page: {protocol}://{args.host}:{args.port}/debug" where_ ;;
  log INFO "📊 Status endpoint: {protocol}://{args.host}:{args.port}/status"
    where_ ;;
  (if negb AIORTC_AVAILABLE then
     log WARNING "⚠️  Running in mock mode - aiortc not available" [] ;;
     log INFO "💡 Install aiortc with: pip install aiortc" []
   else ret tt) ;;
  ret {| run_host := args_host args;
         run_port := args_port args;
         run_ssl_context := ssl_context;
         root_level := root |}.

End ServerMain.

(** What [print_usage] prints. *)
Definition usage_text : string :=
"
WebRTC Connection Debugger for UV Projects

Usage: uv run debug_webrtc_connection.py [BASE_URL]

Arguments:
    BASE_URL    Server base URL (default: http://localhost:8080)

Examples:
    uv run debug_webrtc_connection.py
    uv run debug_webrtc_connection.py http://localhost:8080
    uv run debug_webrtc_connection.py https://myserver.com:8443

Alternative usage:
    uv run python debug_webrtc_connection.py [BASE_URL]

This script will:
    1. Test server connectivity
    2. Validate configuration endpoint
    3. Test WebRTC offer/answer exchange
    4. Check for common configuration issues
    5. Provide troubleshooting guidance

NOTE: Make sure your OpenAvatarChat server is running before using this tool!
    ".

(** How the client's [main] ends when it does not raise: after printing the
    usage text, or after the diagnostics. *)
Inductive client_exit : Type :=
| PrintedUsage (text : string)
| Diagnosed.

Definition is_help_flag (arg : string) : bool :=
  String.eqb arg "-h" || String.eqb arg "--help" || String.eqb arg "help".

Definition test_datachannel_states : M unit :=
  log INFO "📋 DataChannel State Troubleshooting Guide:" [] ;;
  log INFO "   - 'connecting': DataChannel is being established" [] ;;
  log INFO "   - 'open': DataChannel is ready for data transfer" [] ;;
  log INFO "   - 'closing': DataChannel is being closed" [] ;;
  log INFO "   - 'closed': DataChannel is closed" [] ;;
  log INFO "" [] ;;
  log INFO "💡 Common issues:" [] ;;
  log INFO "   1. Trying to send data before channel is 'open'" [] ;;
  log INFO "   2. Connection failures due to network/firewall issues" [] ;;
  log INFO "   3. ICE connection failures" [] ;;
  log INFO "   4. Premature channel closure" [] ;;
  log INFO "" [] ;;
  log INFO "🔧 Solutions implemented:" [] ;;
  log INFO "   - Added readyState checking before sending" [] ;;
  log INFO "   - Added proper error logging" [] ;;
  log INFO "   - Added connection state monitoring" [].

Section ClientMain.

Variable http_get : string -> outcome ClientResponse.
Variable http_post : string -> pyval -> outcome ClientResponse.
Variable time_now : Z.

(** The body of [async with WebRTCDebugger(base_url) as debugger]. *)
Definition debug_session (base_url : string) : M unit :=
  let self_base_url := debugger_base_url base_url in
  diagnose_webrtc_issues http_get http_post time_now self_base_url ;;
  test_datachannel_states.

(** [main()] once the base URL is known. *)
Definition client_run (base_url : string) : M client_exit :=
  log INFO "🚀 Starting WebRTC debugging for {base_url}" [PStr base_url] ;;
  log INFO "💡 This is a UV project - make sure to run with 'uv run' command"
    [] ;;
  log INFO "🌐 Ensure your OpenAvatarChat server is running before testing"
    [] ;;
  debug_session base_url ;;
  ret Diagnosed.

(** [main()] of [debug_webrtc_connection.py] for [sys.argv = argv]. *)
Definition client_main (argv : list string) : M client_exit :=
  match argv with
  | _ :: arg :: _ =>
      if is_help_flag arg then ret (PrintedUsage usage_text)
      else client_run arg
  | _ => client_run "http://localhost:8080"
  end.

End ClientMain.
(** What [json.dumps(v, indent=2)] writes after the first item of a list at
    nesting [level], up to the closing bracket, and the same for an object. *)
Fixpoint indent_more (level : nat) (l : list pyval) : string :=
  match l with
  | [] => JsonIndent.newline_indent level ++ "]"
  | y :: l' =>
      "," ++ JsonIndent.newline_indent (S level) ++
      JsonIndent.dumps_at (S level) y ++ indent_more level l'
  end.

Fixpoint indent_more_members (level : nat) (d : list (string * pyval))
  : string :=
  match d with
  | [] => JsonIndent.newline_indent level ++ "}"
  | (k, y) :: d' =>
      "," ++ JsonIndent.newline_indent (S level) ++ Json.quote k ++ ": " ++
      JsonIndent.dumps_at (S level) y ++ indent_more_members level d'
  end.

(** A value whose indented text parses back to it, at every nesting level
    and whatever follows. *)
Definition roundtrips_indented (v : pyval) : Prop :=
  pyval_wf v = true ->
  forall level fuel rest,
    (Json.size v <= fuel)%nat -> Json.int_stop rest = true ->
    Json.parse_value fuel (JsonIndent.dumps_at level v ++ rest) = Some (v, rest).
(** ** The client in front of the server *)

(** A body that is empty once stripped of white space. *)
Fixpoint is_blank (s : string) : bool :=
  match s with
  | EmptyString => true
  | String c s' =>
      let n := N_of_ascii c in
      ((n =? 32) || ((9 <=? n) && (n <=? 13)))%N && is_blank s'
  end.

(** What [aiohttp]'s client makes of a response of the server: [status] and
    [text()] as sent, and [json()] the decoded text, which it refuses for a
    content type other than [application/json] and which is [None] for a
    blank body. *)
Definition client_view (r : Response) : ClientResponse :=
  {| resp_status := status r;
     resp_json :=
       if String.eqb (response_content_type r) "application/json" then
         if is_blank (text r) then Return PNone
         else py_json_loads (text r)
       else
         Raise (Exc (OtherError "ContentTypeError")
                  "Attempt to decode JSON with unexpected mimetype");
     resp_text := text r |}.

(** The request [session.post(url, json=payload)] puts on the wire. *)
Definition posted (path : string) (json : pyval) : Request :=
  {| method := "POST"; path := path; content_type := "application/json";
     body := Json.dumps json |}.
(** ** Further examples *)

(** [POST /test] with the JSON body [{"webrtc_id": "s1"}], and with an empty
    id. *)
Definition test_known_s1 : Request :=
  {| method := "POST"; path := "/test"; content_type := "application/json";
     body := Json.dumps (PDict [("webrtc_id", PStr "s1")]) |}.

Definition test_empty_id : Request :=
  {| method := "POST"; path := "/test"; content_type := "application/json";
     body := Json.dumps (PDict [("webrtc_id", PStr "")]) |}.

(** A server whose only session was registered under the empty id. *)
Definition unnamed_session : WebRTCTestServer :=
  {| connections := [(KStr "", RTCPeerConnection ice_configuration)];
     data_channels := [(KStr "", MockRTCDataChannel)] |}.

(** An engine that accepts every offer, and one that rejects every offer. *)
Definition accepting_engine (sdp type : pyval) : outcome (string * string) :=
  Return ("answer", "v=0").

Definition rejecting_engine (sdp type : pyval) : outcome (string * string) :=
  Raise (Exc AttributeError "'dict' object has no attribute 'iceServers'").

(** An offer for session ["s3"], and a request that carries no JSON. *)
Definition offer_s3 : Request :=
  {| method := "POST"; path := "/webrtc/offer";
     content_type := "application/json";
     body := Json.dumps (PDict [("webrtc_id", PStr "s3");
                                ("type", PStr "offer");
                                ("sdp", PStr "v=0")]) |}.

Definition offer_not_json : Request :=
  {| method := "POST"; path := "/webrtc/offer";
     content_type := "application/json"; body := "not json" |}.

(** A configuration whose only ICE server lists a STUN and then a TURN
    address, and one whose first ICE server lists no address. *)
Definition listed_urls_config : pyval :=
  PDict [("rtc_configuration",
          PDict [("iceServers",
                  PList [PDict [("urls",
                                 PList [PStr "stun:a"; PStr "turn:b"])]])])].

Definition empty_urls_config : pyval :=
  PDict [("rtc_configuration",
          PDict [("iceServers", PList [PDict [("urls", PList [])]])])].

(** A server that answers every [GET] with status 200 and the configuration
    without addresses. *)
Definition empty_urls_get (url : string) : outcome ClientResponse :=
  Return {| resp_status := 200; resp_json := Return empty_urls_config;
            resp_text := "" |}.

(** A [GET] as the client sends it. *)
Definition got (path : string) : Request :=
  {| method := "GET"; path := path; content_type := "application/octet-stream";
     body := "" |}.

(** The client connected to the handlers of a server in state
    [two_sessions], at [http://localhost:8080]. *)
Definition loopback_get (url : string) : outcome ClientResponse :=
  if String.eqb url "http://localhost:8080/" then
    Return (client_view (handle_index None (got "/")))
  else if String.eqb url "http://localhost:8080/openavatarchat/initconfig" then
    match result (handle_config (got "/openavatarchat/initconfig")
                    "2024-01-01T00:00:00") with
    | Return r => Return (client_view r)
    | Raise e => Raise e
    end
  else Raise (Exc (OtherError "ClientConnectorError") "Cannot connect to host").

Definition loopback_post (AIORTC_AVAILABLE : bool) (url : string)
  (json : pyval) : outcome ClientResponse :=
  match outcome_of
          (handle_webrtc_offer AIORTC_AVAILABLE py_json_loads rejecting_engine
             (posted "/webrtc/offer" json) "uuid" two_sessions) with
  | Return r => Return (client_view r)
  | Raise e => Raise e
  end.

(** The operations that attach or remove a data channel. *)
Definition channel_event (o : op) : bool :=
  match o with
  | DataChannelEvent _ _ | CloseEvent _ => true
  | _ => false
  end.

(** * Properties *)

(** ** Strings *)

Lemma append_assoc (a b c : string) : ((a ++ b) ++ c = a ++ (b ++ c))%string.
Proof.
  induction a as [|x a IH]; simpl; [reflexivity | now rewrite IH].
Qed.

Lemma length_append (a b : string) :
  String.length (a ++ b) = (String.length a + String.length b)%nat.
Proof.
  induction a as [|x a IH]; simpl; [reflexivity | now rewrite IH].
Qed.

(** ** Dictionaries *)

Section DictFacts.

Variables (K V : Type) (eqb : K -> K -> bool).

Lemma dict_get_del_same (k : K) (d : Dict.t K V) :
  Dict.get eqb k d = None -> Dict.del eqb k d = d.
Proof.
  induction d as [|[k' v'] d IH]; simpl; [reflexivity|].
  destruct (eqb k k'); [discriminate|].
  intros H. now rewrite IH.
Qed.

Lemma dict_set_length (k : K) (v : V) (d : Dict.t K V) :
  (List.length d <= List.length (Dict.set eqb k v d))%nat.
Proof.
  induction d as [|[k' v'] d IH]; simpl; [lia|].
  destruct (eqb k k'); simpl; lia.
Qed.

Lemma dict_set_len (k : K) (v : V) (d : Dict.t K V) :
  Dict.len d <= Dict.len (Dict.set eqb k v d).
Proof.
  unfold Dict.len. pose proof (dict_set_length k v d). lia.
Qed.

Lemma dict_mem_set_other (k k' : K) (v : V) (d : Dict.t K V) :
  Dict.mem eqb k' d = true -> Dict.mem eqb k' (Dict.set eqb k v d) = true.
Proof.
  unfold Dict.mem.
  induction d as [|[k0 v0] d IH]; simpl; [discriminate|].
  destruct (eqb k k0) eqn:E; simpl.
  - destruct (eqb k' k0); [reflexivity | exact (fun H => H)].
  - destruct (eqb k' k0); [reflexivity | exact IH].
Qed.

Lemma dict_set_fresh (k : K) (v : V) (d : Dict.t K V) :
  Dict.get eqb k d = None -> Dict.set eqb k v d = (d ++ [(k, v)])%list.
Proof.
  induction d as [|[k' v'] d IH]; simpl; [reflexivity|].
  destruct (eqb k k'); [discriminate|].
  intros H. now rewrite IH.
Qed.

End DictFacts.

Section DictPairs.

Variables (K V : Type) (eqb : K -> K -> bool).
Hypothesis eqb_eq : forall a b, eqb a b = true <-> a = b.

Lemma dict_get_app_none (k : K) (d1 d2 : Dict.t K V) :
  Dict.get eqb k (d1 ++ d2)%list = None ->
  Dict.get eqb k d1 = None /\ Dict.get eqb k d2 = None.
Proof.
  induction d1 as [|[k' v'] d1 IH]; simpl; [now split|].
  destruct (eqb k k'); [discriminate | exact IH].
Qed.

Lemma dict_wf_app_fresh (k : K) (v : V) (d1 d2 : Dict.t K V) :
  Dict.wf eqb (d1 ++ (k, v) :: d2)%list = true -> Dict.get eqb k d1 = None.
Proof.
  induction d1 as [|[k' v'] d1 IH]; simpl; [reflexivity|].
  intros H. apply andb_prop in H. destruct H as [Hk Hwf].
  unfold Dict.mem in Hk.
  destruct (Dict.get eqb k' (d1 ++ (k, v) :: d2)%list) eqn:G; [discriminate|].
  apply dict_get_app_none in G. destruct G as [_ G]. simpl in G.
  destruct (eqb k k') eqn:E.
  - apply eqb_eq in E. subst k'.
    assert (R : eqb k k = true) by now apply eqb_eq.
    rewrite R in G. discriminate.
  - now apply IH.
Qed.

Lemma dict_fold_set_wf (l acc : Dict.t K V) :
  Dict.wf eqb (acc ++ l)%list = true ->
  fold_left (fun d kv => Dict.set eqb (fst kv) (snd kv) d) l acc = (acc ++ l)%list.
Proof.
  revert acc. induction l as [|[k v] l IH]; intros acc H; simpl.
  - now rewrite app_nil_r.
  - rewrite (dict_set_fresh eqb k v acc (dict_wf_app_fresh _ _ _ _ H)).
    rewrite IH; rewrite <- app_assoc; simpl; [reflexivity | exact H].
Qed.

Lemma dict_of_pairs_wf (d : Dict.t K V) :
  Dict.wf eqb d = true -> Dict.of_pairs eqb d = d.
Proof.
  intros H. unfold Dict.of_pairs, Dict.empty. now rewrite dict_fold_set_wf.
Qed.

End DictPairs.

(** ** The JSON codec *)

Module JsonFacts.
Import Json.

Lemma strip_prefix_app (p r : string) : strip_prefix p (p ++ r) = Some r.
Proof.
  induction p as [|a p IH]; simpl; [reflexivity|].
  now rewrite Ascii.eqb_refl.
Qed.

(** A character and its escape. *)
Lemma parse_chars_escape_char (c : ascii) (t : string) :
  parse_chars (escape_char c ++ t) = cons_char c (parse_chars t).
Proof.
  destruct c as [[] [] [] [] [] [] [] []]; reflexivity.
Qed.

Lemma parse_chars_escape (s rest : string) :
  parse_chars (escape s ++ String dquote rest) = Some (s, rest).
Proof.
  induction s as [|c s IH]; simpl.
  - reflexivity.
  - rewrite append_assoc, parse_chars_escape_char, IH. reflexivity.
Qed.

Lemma parse_chars_quote (s rest : string) :
  exists body, quote s ++ rest = String dquote body
               /\ parse_chars body = Some (s, rest).
Proof.
  exists (escape s ++ String dquote rest). split.
  - unfold quote. simpl. now rewrite append_assoc.
  - apply parse_chars_escape.
Qed.

(** *** Integers *)

Lemma parse_digits_stop (rest : string) :
  int_stop rest = true -> parse_digits rest = (Nil, rest).
Proof.
  destruct rest as [|c rest]; simpl; [reflexivity|].
  destruct (digit_of c); [discriminate | reflexivity].
Qed.

Lemma parse_digits_string_of_uint (d : uint) (rest : string) :
  int_stop rest = true ->
  parse_digits (NilEmpty.string_of_uint d ++ rest) = (d, rest).
Proof.
  intros H. induction d; simpl; try (rewrite IHd; reflexivity).
  now apply parse_digits_stop.
Qed.

Lemma string_of_uint_head (d : uint) :
  d <> Nil ->
  exists c r, NilEmpty.string_of_uint d = String c r /\ is_digit c = true.
Proof.
  destruct d; intros H; [contradiction|..]; simpl; eexists; eexists;
    (split; [reflexivity | reflexivity]).
Qed.

Lemma digit_not_minus (c : ascii) : is_digit c = true -> Ascii.eqb c "-" = false.
Proof.
  destruct c as [[] [] [] [] [] [] [] []]; intros H; vm_compute in H;
    try discriminate H; reflexivity.
Qed.

(** A normalised numeral that starts with a zero is the numeral zero. *)
Lemma unorm_D0_inv (u v : uint) : unorm u = D0 v -> v = Nil.
Proof.
  unfold unorm. pose proof (DecimalFacts.nzhead_nonzero u) as Hnz.
  destruct (nzhead u) as [|w|w|w|w|w|w|w|w|w|w]; intros H;
    try discriminate H.
  - now injection H.
  - exfalso. now apply (Hnz w).
Qed.

Lemma unorm_digits_ok (d : uint) : unorm d = d -> digits_ok d = true.
Proof.
  intros H. destruct d as [|d|d|d|d|d|d|d|d|d|d]; try reflexivity.
  - discriminate H.
  - rewrite DecimalFacts.unorm_D0 in H. apply unorm_D0_inv in H.
    now subst d.
Qed.

Lemma to_uint_digits_ok (p : positive) : digits_ok (Pos.to_uint p) = true.
Proof.
  apply unorm_digits_ok.
  rewrite <- (DecimalPos.Unsigned.to_of (Pos.to_uint p)).
  now rewrite DecimalPos.Unsigned.of_to.
Qed.

Lemma parse_int_uint (d : uint) (rest : string) :
  d <> Nil -> digits_ok d = true -> int_stop rest = true ->
  parse_int (NilEmpty.string_of_uint d ++ rest) = Some (Z.of_int (Pos d), rest)
  /\ parse_int (String "-" (NilEmpty.string_of_uint d ++ rest))
     = Some (Z.of_int (Neg d), rest).
Proof.
  intros Hd Hok Hstop.
  pose proof (parse_digits_string_of_uint d rest Hstop) as P.
  split.
  - destruct (string_of_uint_head Hd) as (c & r & E & Hc).
    rewrite E in *. simpl append in *. unfold parse_int.
    rewrite (digit_not_minus c Hc), P, Hok, Hstop. reflexivity.
  - unfold parse_int. rewrite Ascii.eqb_refl, P, Hok, Hstop. reflexivity.
Qed.

Lemma parse_int_string_of_Z (z : Z) (rest : string) :
  int_stop rest = true -> parse_int (string_of_Z z ++ rest) = Some (z, rest).
Proof.
  intros Hstop. rewrite <- (DecimalZ.of_to z) at 2.
  unfold string_of_Z. destruct z as [|p|p]; simpl Z.to_int.
  - simpl. unfold parse_int. simpl. rewrite (parse_digits_stop _ Hstop).
    simpl. rewrite Hstop. reflexivity.
  - pose proof (DecimalPos.Unsigned.to_uint_nonnil p) as Hn.
    unfold NilZero.string_of_int, NilZero.string_of_uint.
    destruct (Pos.to_uint p) eqn:E; try contradiction; rewrite <- E;
      apply parse_int_uint; try assumption; try apply to_uint_digits_ok;
      rewrite E; discriminate.
  - pose proof (DecimalPos.Unsigned.to_uint_nonnil p) as Hn.
    unfold NilZero.string_of_int, NilZero.string_of_uint.
    destruct (Pos.to_uint p) eqn:E; try contradiction; rewrite <- E;
      apply parse_int_uint; try assumption; try apply to_uint_digits_ok;
      rewrite E; discriminate.
Qed.

(** *** Values *)

Lemma pyval_ind (P : pyval -> Prop)
  (HNone : P PNone)
  (HBool : forall b, P (PBool b))
  (HInt : forall z, P (PInt z))
  (HStr : forall s, P (PStr s))
  (HList : forall l, Forall P l -> P (PList l))
  (HDict : forall d, Forall (fun kv => P (snd kv)) d -> P (PDict d)) :
  forall v, P v.
Proof.
  fix IH 1. intros [| b | z | s | l | d].
  - exact HNone.
  - apply HBool.
  - apply HInt.
  - apply HStr.
  - apply HList. induction l as [|x l IHl]; constructor; [apply IH | exact IHl].
  - apply HDict. induction d as [|[k x] d IHd]; constructor;
      [apply IH | exact IHd].
Qed.

Lemma dumps_list (x : pyval) (l : list pyval) :
  dumps (PList (x :: l)) = "[" ++ dumps x ++ dumps_more l.
Proof. reflexivity. Qed.

Lemma dumps_dict (k : string) (x : pyval) (d : list (string * pyval)) :
  dumps (PDict ((k, x) :: d))
  = "{" ++ quote k ++ ": " ++ dumps x ++ dumps_more_members d.
Proof. reflexivity. Qed.

Lemma size_PList (l : list pyval) : size (PList l) = S (size_list l).
Proof. reflexivity. Qed.

Lemma size_PDict (d : list (string * pyval)) : size (PDict d) = S (size_members d).
Proof. reflexivity. Qed.

Lemma string_of_Z_head (z : Z) :
  exists c r, string_of_Z z = String c r /\ is_num_start c = true.
Proof.
  unfold string_of_Z. destruct z as [|p|p]; simpl Z.to_int.
  - now exists "0"%char, EmptyString.
  - pose proof (DecimalPos.Unsigned.to_uint_nonnil p) as Hn.
    destruct (string_of_uint_head Hn) as (c & r & E & Hc).
    exists c, r. split.
    + unfold NilZero.string_of_int, NilZero.string_of_uint.
      destruct (Pos.to_uint p); try contradiction; exact E.
    + unfold is_num_start. now rewrite Hc.
  - eexists. eexists. split; [reflexivity | reflexivity].
Qed.

Lemma num_start_value_start (c : ascii) :
  is_num_start c = true -> value_start c = true.
Proof.
  destruct c as [[] [] [] [] [] [] [] []]; intros H; vm_compute in H;
    try discriminate H; reflexivity.
Qed.

Lemma parse_value_num (f : nat) (c : ascii) (r : string) :
  is_num_start c = true ->
  parse_value (S f) (String c r)
  = match parse_int (String c r) with
    | Some (z, r') => Some (PInt z, r')
    | None => None
    end.
Proof.
  destruct c as [[] [] [] [] [] [] [] []]; intros H; vm_compute in H;
    try discriminate H; reflexivity.
Qed.

Lemma dumps_head (v : pyval) :
  exists c r, dumps v = String c r /\ value_start c = true.
Proof.
  destruct v as [| [] | z | s | [|x l] | [|[k x] d]];
    try (eexists; eexists; split; [reflexivity | reflexivity]).
  destruct (string_of_Z_head z) as (c & r & E & Hc).
  exists c, r. split; [exact E | now apply num_start_value_start].
Qed.

Lemma parse_value_space (fuel : nat) (s : string) :
  parse_value fuel (String " " s) = parse_value fuel s.
Proof. destruct fuel; reflexivity. Qed.

Lemma parse_elems_space (fuel : nat) (s : string) :
  parse_elems fuel (String " " s) = parse_elems fuel s.
Proof. destruct fuel; [reflexivity|]. simpl. now rewrite parse_value_space. Qed.

Lemma parse_members_space (fuel : nat) (s : string) :
  parse_members fuel (String " " s) = parse_members fuel s.
Proof. destruct fuel; reflexivity. Qed.

Lemma int_stop_dumps_more (l : list pyval) (rest : string) :
  int_stop (dumps_more l ++ rest) = true.
Proof. destruct l; reflexivity. Qed.

Lemma int_stop_dumps_more_members (d : list (string * pyval)) (rest : string) :
  int_stop (dumps_more_members d ++ rest) = true.
Proof. destruct d as [|[k x] d]; reflexivity. Qed.

(** Parsing scalars. *)
Lemma parse_value_scalar (v : pyval) (f : nat) (rest : string) :
  match v with PList _ | PDict _ => False | _ => True end ->
  int_stop rest = true ->
  parse_value (S f) (dumps v ++ rest) = Some (v, rest).
Proof.
  intros Hv Hstop. destruct v as [| [] | z | s | l | d]; try contradiction.
  - reflexivity.
  - reflexivity.
  - reflexivity.
  - destruct (string_of_Z_head z) as (c & r & E & Hc).
    pose proof (parse_int_string_of_Z z rest Hstop) as P.
    simpl dumps. rewrite E in *. simpl append in *.
    rewrite (parse_value_num f c _ Hc), P. reflexivity.
  - destruct (parse_chars_quote s rest) as (body & E & P).
    simpl dumps. rewrite E.
    change (parse_value (S f) (String dquote body))
      with (match parse_chars body with
            | Some (str, r') => Some (PStr str, r')
            | None => None
            end).
    now rewrite P.
Qed.

(** Parsing lists and objects, one item at a time. *)

Lemma quote_app (k t : string) :
  quote k ++ t = String dquote (escape k ++ String dquote t).
Proof. unfold quote. simpl. now rewrite append_assoc. Qed.

Lemma parse_value_open_list (f : nat) (c : ascii) (r : string) :
  value_start c = true ->
  parse_value (S f) (String "[" (String c r))
  = match parse_elems f (String c r) with
    | Some (l, r'') => Some (PList l, r'')
    | None => None
    end.
Proof.
  destruct c as [[] [] [] [] [] [] [] []]; intros H; vm_compute in H;
    try discriminate H; reflexivity.
Qed.

Lemma parse_value_open_dict (f : nat) (body : string) :
  parse_value (S f) (String "{" (String dquote body))
  = match parse_members f (String dquote body) with
    | Some (d, r'') => Some (PDict (Dict.of_pairs String.eqb d), r'')
    | None => None
    end.
Proof. reflexivity. Qed.

Lemma parse_elems_step (f : nat) (s r : string) (v : pyval) :
  parse_value f s = Some (v, String "," r) ->
  parse_elems (S f) s
  = match parse_elems f r with
    | Some (l, r'') => Some (v :: l, r'')
    | None => None
    end.
Proof. intros H. simpl. rewrite H. reflexivity. Qed.

Lemma parse_elems_last (f : nat) (s r : string) (v : pyval) :
  parse_value f s = Some (v, String "]" r) ->
  parse_elems (S f) s = Some ([v], r).
Proof. intros H. simpl. rewrite H. reflexivity. Qed.

Lemma parse_members_step (f : nat) (body r2 r4 k : string) (v : pyval) :
  parse_chars body = Some (k, String ":" r2) ->
  parse_value f r2 = Some (v, String "," r4) ->
  parse_members (S f) (String dquote body)
  = match parse_members f r4 with
    | Some (d, r5) => Some ((k, v) :: d, r5)
    | None => None
    end.
Proof.
  intros H1 H2.
  change (parse_members (S f) (String dquote body))
    with (match parse_chars body with
          | Some (k, r1) =>
              match skip_ws r1 with
              | EmptyString => None
              | String c1 r2 =>
                  if Ascii.eqb c1 ":" then
                    match parse_value f r2 with
                    | Some (v, r3) =>
                        match skip_ws r3 with
                        | EmptyString => None
                        | String c3 r4 =>
                            if Ascii.eqb c3 "," then
                              match parse_members f r4 with
                              | Some (d, r5) => Some ((k, v) :: d, r5)
                              | None => None
                              end
                            else if Ascii.eqb c3 "}" then Some ([(k, v)], r4)
                            else None
                        end
                    | None => None
                    end
                  else None
              end
          | None => None
          end).
  rewrite H1. simpl. rewrite H2. reflexivity.
Qed.

Lemma parse_members_last (f : nat) (body r2 r4 k : string) (v : pyval) :
  parse_chars body = Some (k, String ":" r2) ->
  parse_value f r2 = Some (v, String "}" r4) ->
  parse_members (S f) (String dquote body) = Some ([(k, v)], r4).
Proof.
  intros H1 H2.
  change (parse_members (S f) (String dquote body))
    with (match parse_chars body with
          | Some (k, r1) =>
              match skip_ws r1 with
              | EmptyString => None
              | String c1 r2 =>
                  if Ascii.eqb c1 ":" then
                    match parse_value f r2 with
                    | Some (v, r3) =>
                        match skip_ws r3 with
                        | EmptyString => None
                        | String c3 r4 =>
                            if Ascii.eqb c3 "," then
                              match parse_members f r4 with
                              | Some (d, r5) => Some ((k, v) :: d, r5)
                              | None => None
                              end
                            else if Ascii.eqb c3 "}" then Some ([(k, v)], r4)
                            else None
                        end
                    | None => None
                    end
                  else None
              end
          | None => None
          end).
  rewrite H1. simpl. rewrite H2. reflexivity.
Qed.

Lemma pyval_wf_PDict (d : list (string * pyval)) :
  pyval_wf (PDict d) = Dict.wf String.eqb d && wf_members d.
Proof. reflexivity. Qed.

Lemma parse_elems_dumps (l : list pyval) :
  Forall roundtrips l -> forallb pyval_wf l = true ->
  forall x, roundtrips x -> pyval_wf x = true ->
  forall fuel rest,
    (size_list (x :: l) <= fuel)%nat ->
    parse_elems fuel (dumps x ++ dumps_more l ++ rest) = Some (x :: l, rest).
Proof.
  induction l as [|y l IH]; intros HF Hwf x Hx Hwx fuel rest Hfuel;
    (destruct fuel as [|f]; [simpl in Hfuel; lia|]);
    simpl size_list in Hfuel.
  - apply parse_elems_last. apply (Hx Hwx); [lia | reflexivity].
  - inversion HF as [|? ? Hy HF']; subst.
    simpl in Hwf. apply andb_prop in Hwf. destruct Hwf as [Hwy Hwl].
    assert (E : dumps_more (y :: l) ++ rest
                = String "," (String " " (dumps y ++ dumps_more l ++ rest)))
      by (simpl; now rewrite append_assoc).
    rewrite E.
    rewrite (@parse_elems_step f _
               (String " " (dumps y ++ dumps_more l ++ rest)) x).
    + rewrite parse_elems_space, (IH HF' Hwl y Hy Hwy); [reflexivity|].
      simpl. lia.
    + rewrite <- E.
      apply (Hx Hwx); [lia | reflexivity].
Qed.

Lemma dumps_more_members_cons (k : string) (y : pyval)
  (d : list (string * pyval)) (rest : string) :
  dumps_more_members ((k, y) :: d) ++ rest
  = String ","
      (String " " (quote k ++ ": " ++ dumps y ++ dumps_more_members d ++ rest)).
Proof.
  cbn [dumps_more_members append].
  rewrite append_assoc. cbn [append]. now rewrite append_assoc.
Qed.

Lemma parse_members_dumps (d : list (string * pyval)) :
  Forall (fun kv => roundtrips (snd kv)) d -> wf_members d = true ->
  forall k x, roundtrips x -> pyval_wf x = true ->
  forall fuel rest,
    (size_members ((k, x) :: d) <= fuel)%nat ->
    parse_members fuel
      (quote k ++ ": " ++ dumps x ++ dumps_more_members d ++ rest)
    = Some ((k, x) :: d, rest).
Proof.
  induction d as [|[k' y] d IH]; intros HF Hwf k x Hx Hwx fuel rest Hfuel;
    (destruct fuel as [|f]; [simpl in Hfuel; lia|]);
    simpl size_members in Hfuel; rewrite quote_app.
  - apply (@parse_members_last f _
             (String " " (dumps x ++ dumps_more_members [] ++ rest)) rest).
    + apply parse_chars_escape.
    + rewrite parse_value_space. apply (Hx Hwx); [lia | reflexivity].
  - inversion HF as [|? ? Hy HF']; subst. simpl in Hy.
    simpl in Hwf. apply andb_prop in Hwf. destruct Hwf as [Hwy Hwl].
    rewrite dumps_more_members_cons.
    rewrite (@parse_members_step f _
               (String " "
                  (dumps x ++
                   String ","
                     (String " "
                        (quote k' ++ ": " ++ dumps y ++
                         dumps_more_members d ++ rest))))
               (String " "
                  (quote k' ++ ": " ++ dumps y ++ dumps_more_members d ++ rest))
               k x).
    + rewrite parse_members_space, (IH HF' Hwl k' y Hy Hwy); [reflexivity|].
      simpl. lia.
    + apply parse_chars_escape.
    + rewrite parse_value_space. apply (Hx Hwx); [lia | reflexivity].
Qed.

Lemma append_nil_r (s : string) : s ++ "" = s.
Proof. induction s as [|c s IH]; simpl; [reflexivity | now rewrite IH]. Qed.

(** Every well-formed value parses back from its text. *)
Lemma parse_value_dumps : forall v, roundtrips v.
Proof.
  induction v as [| b | z | s | l HF | d HF] using pyval_ind;
    intros Hwf fuel rest Hfuel Hstop;
    (destruct fuel as [|f]; [simpl in Hfuel; lia|]);
    try (apply parse_value_scalar; [exact I | exact Hstop]).
  - destruct l as [|x l]; [reflexivity|].
    inversion HF as [|? ? Hx HF']; subst.
    simpl in Hwf. apply andb_prop in Hwf. destruct Hwf as [Hwx Hwl].
    rewrite size_PList in Hfuel. rewrite dumps_list.
    destruct (dumps_head x) as (c & r & E & Hc).
    pose proof (@parse_elems_dumps l HF' Hwl x Hx Hwx f rest) as P.
    cbn [append]. rewrite !append_assoc. rewrite E in *. cbn [append] in *.
    rewrite (parse_value_open_list f c _ Hc), P; [reflexivity | lia].
  - destruct d as [|[k x] d]; [reflexivity|].
    inversion HF as [|? ? Hx HF']; subst. simpl in Hx.
    rewrite pyval_wf_PDict in Hwf. apply andb_prop in Hwf.
    destruct Hwf as [Hkeys Hwf].
    simpl in Hwf. apply andb_prop in Hwf. destruct Hwf as [Hwx Hwd].
    rewrite size_PDict in Hfuel. rewrite dumps_dict.
    pose proof (@parse_members_dumps d HF' Hwd k x Hx Hwx f rest) as P.
    cbn [append]. rewrite !append_assoc. cbn [append].
    rewrite !append_assoc.
    rewrite quote_app in *. cbn [append] in P.
    rewrite parse_value_open_dict, P; [|lia].
    rewrite (dict_of_pairs_wf String.eqb String.eqb_eq _ Hkeys). reflexivity.
Qed.

Lemma size_list_le (l : list pyval) :
  Forall (fun v => (size v <= String.length (dumps v))%nat) l ->
  (S (size_list l) <= String.length (dumps_more l))%nat.
Proof.
  induction 1 as [|y l Hy _ IH]; simpl; [lia|].
  rewrite length_append. lia.
Qed.

Lemma size_members_le (d : list (string * pyval)) :
  Forall (fun kv => (size (snd kv) <= String.length (dumps (snd kv)))%nat) d ->
  (S (size_members d) <= String.length (dumps_more_members d))%nat.
Proof.
  induction 1 as [|[k y] d Hy _ IH]; cbn [size_members dumps_more_members snd] in *;
    repeat (cbn [append String.length]; rewrite ?length_append); lia.
Qed.

Lemma size_le_length (v : pyval) : (size v <= String.length (dumps v))%nat.
Proof.
  induction v as [| b | z | s | l HF | d HF] using pyval_ind.
  - simpl. lia.
  - destruct b; simpl; lia.
  - destruct (string_of_Z_head z) as (c & r & E & _). simpl. rewrite E.
    simpl. lia.
  - simpl. lia.
  - destruct l as [|x l]; [simpl; lia|].
    inversion HF as [|? ? Hx HF']; subst.
    rewrite dumps_list, size_PList. pose proof (size_list_le HF').
    simpl. rewrite length_append. lia.
  - destruct d as [|[k x] d]; [simpl; lia|].
    inversion HF as [|? ? Hx HF']; subst. simpl in Hx.
    rewrite dumps_dict, size_PDict. pose proof (size_members_le HF').
    cbn [size_members].
    repeat (cbn [append String.length]; rewrite ?length_append). lia.
Qed.

(** [json.loads(json.dumps(v)) == v] *)
Lemma loads_dumps (v : pyval) : pyval_wf v = true -> loads (dumps v) = Some v.
Proof.
  intros Hwf. unfold loads.
  pose proof (@parse_value_dumps v Hwf (S (String.length (dumps v))) ""
                ltac:(pose proof (size_le_length v); lia) eq_refl) as P.
  rewrite append_nil_r in P. rewrite P. reflexivity.
Qed.

End JsonFacts.

(** ** The send guard *)

Lemma ne_str_true (v : pyval) (s : string) : v <> PStr s -> ne_str v s = true.
Proof.
  destruct v as [| b | z | s' | l | d]; simpl; try reflexivity.
  intros H. destruct (String.eqb_spec s' s) as [->|]; [now elim H | reflexivity].
Qed.

Lemma ne_str_open : ne_str (PStr "open") "open" = false.
Proof. reflexivity. Qed.

Lemma safe_channel_send_open (ch : channel) (message_data : pyval)
  (message_type : string) :
  readyState ch = Some (PStr "open") ->
  safe_channel_send (Some ch) message_data message_type
  = try_except
      (channel_send ch (wire_text message_data) ;;
       log INFO "✅ Successfully sent {message_type}" [PStr message_type] ;;
       ret true)
      any_Exception
      (fun e =>
         log ERROR "❌ Failed to send {message_type}: {e}"
           [PStr message_type; PStr (exc_msg e)] ;;
         ret false).
Proof.
  intros H. unfold safe_channel_send. rewrite H, ne_str_open.
  destruct message_data; reflexivity.
Qed.

(** The guard always returns a boolean. *)
Lemma safe_channel_send_returns (handle : option channel)
  (message_data : payload) (message_type : string) :
  exists b, result (safe_channel_send handle message_data message_type) = Return b.
Proof.
  destruct handle as [ch|]; [|now exists false].
  unfold safe_channel_send.
  destruct (readyState ch) as [st|]; [|now exists false].
  destruct (ne_str st "open"); [now exists false|].
  assert (H : forall text,
             exists b,
               result
                 (try_except
                    (channel_send ch text ;;
                     log INFO "✅ Successfully sent {message_type}"
                       [PStr message_type] ;;
                     ret true)
                    any_Exception
                    (fun e =>
                       log ERROR "❌ Failed to send {message_type}: {e}"
                         [PStr message_type; PStr (exc_msg e)] ;;
                       ret false)) = Return b).
  { intros text. unfold channel_send. cbn.
    destruct (send ch text); cbn; eauto. }
  destruct message_data as [v|e]; [destruct v; apply H | now exists false].
Qed.

(** C1.  A handle that is [None], has no [readyState] attribute or has a
    [readyState] other than ["open"] makes [safe_channel_send] return
    [False] after one warning, and [channel.send] is not called. *)
Theorem safe_channel_send_fails_closed (handle : option channel)
  (message_data : payload) (message_type : string) :
  not_ready handle ->
  result (safe_channel_send handle message_data message_type) = Return false
  /\ (forall lbl data,
        ~ In (Transmit lbl data)
            (events (safe_channel_send handle message_data message_type)))
  /\ exists fmt args,
       events (safe_channel_send handle message_data message_type)
       = [Log WARNING fmt args].
Proof.
  intros H. unfold safe_channel_send.
  destruct handle as [ch|]; simpl in H.
  - destruct (readyState ch) as [st|].
    + rewrite (ne_str_true H). cbn. repeat split; eauto.
      intros lbl data [E|[]]. discriminate E.
    + cbn. repeat split; eauto. intros lbl data [E|[]]. discriminate E.
  - cbn. repeat split; eauto. intros lbl data [E|[]]. discriminate E.
Qed.

Lemma safe_channel_send_fails_closed_witness :
  not_ready (Some connecting_channel)
  /\ result (safe_channel_send (Some connecting_channel) chat_hi "message")
     = Return false.
Proof.
  assert (H : not_ready (Some connecting_channel)) by (simpl; discriminate).
  split; [exact H|].
  exact (proj1 (@safe_channel_send_fails_closed
                  (Some connecting_channel) chat_hi "message" H)).
Defined.

(** C2.  When [channel.send] raises, [safe_channel_send] returns [False];
    on an open channel the call is followed by one error line that carries
    the exception.  Whatever the handle and the payload, the guard returns a
    boolean: nothing raised by the transport reaches the caller. *)
Theorem safe_channel_send_catches (ch : channel) (message_data : pyval)
  (message_type : string) (e : pyexc) :
  send ch (wire_text message_data) = SendRaises e ->
  result (safe_channel_send (Some ch) message_data message_type) = Return false
  /\ (readyState ch = Some (PStr "open") ->
      events (safe_channel_send (Some ch) message_data message_type)
      = [Transmit (label ch) (wire_text message_data);
         Log ERROR "❌ Failed to send {message_type}: {e}"
           [PStr message_type; PStr (exc_msg e)]])
  /\ (forall handle data type_,
        exists b, result (safe_channel_send handle data type_) = Return b).
Proof.
  intros H. split; [|split].
  - destruct (readyState ch) as [st|] eqn:R.
    + destruct (ne_str st "open") eqn:N.
      * unfold safe_channel_send. now rewrite R, N.
      * assert (st = PStr "open") as ->.
        { destruct st as [| b | z | s | l | d]; try discriminate N.
          simpl in N. apply negb_false_iff in N.
          apply String.eqb_eq in N. now subst. }
        rewrite (safe_channel_send_open _ _ _ R).
        unfold channel_send. cbn. rewrite H. reflexivity.
    + unfold safe_channel_send. now rewrite R.
  - intros R. rewrite (safe_channel_send_open _ _ _ R).
    unfold channel_send. cbn. rewrite H. reflexivity.
  - intros. apply safe_channel_send_returns.
Qed.

Lemma safe_channel_send_catches_witness :
  send failing_channel (wire_text chat_hi)
  = SendRaises (Exc (OtherError "ConnectionError") "closed")
  /\ result (safe_channel_send (Some failing_channel) chat_hi "message")
     = Return false.
Proof.
  split; [reflexivity|].
  exact (proj1 (@safe_channel_send_catches failing_channel chat_hi "message"
                  (Exc (OtherError "ConnectionError") "closed") eq_refl)).
Defined.




(** ** The registries *)

Lemma key_eqb_refl (k : pykey) : key_eqb k k = true.
Proof.
  destruct k as [| b | z | s]; simpl;
    [reflexivity | now destruct b | apply Z.eqb_refl | apply String.eqb_refl].
Qed.

Lemma key_eqb_sym (a b : pykey) : key_eqb a b = key_eqb b a.
Proof.
  destruct a as [| x | x | x], b as [| y | y | y]; simpl; try reflexivity.
  - now destruct x, y.
  - apply Z.eqb_sym.
  - apply Z.eqb_sym.
  - apply Z.eqb_sym.
  - apply String.eqb_sym.
Qed.

Section RegistryFacts.

Variable V : Type.

Lemma dict_get_set_same (k : pykey) (v : V) (d : Dict.t pykey V) :
  Dict.get key_eqb k (Dict.set key_eqb k v d) = Some v.
Proof.
  induction d as [|[k' v'] d IH]; simpl.
  - now rewrite key_eqb_refl.
  - destruct (key_eqb k k') eqn:E; simpl; rewrite E; [reflexivity | exact IH].
Qed.

Lemma dict_set_present_length (k : pykey) (v : V) (d : Dict.t pykey V) :
  Dict.mem key_eqb k d = true ->
  List.length (Dict.set key_eqb k v d) = List.length d.
Proof.
  unfold Dict.mem. induction d as [|[k' v'] d IH]; simpl; [discriminate|].
  destruct (key_eqb k k'); simpl; [reflexivity|].
  intros H. now rewrite IH.
Qed.

Lemma dict_get_del_some (k k' : pykey) (d : Dict.t pykey V) :
  Dict.get key_eqb k' d = None ->
  Dict.get key_eqb k' (Dict.del key_eqb k d) = None.
Proof.
  induction d as [|[k0 v0] d IH]; simpl; [reflexivity|].
  destruct (key_eqb k' k0) eqn:E; [discriminate|].
  intros H. destruct (key_eqb k k0); simpl; [exact H|].
  rewrite E. now apply IH.
Qed.

Lemma dict_wf_del (k : pykey) (d : Dict.t pykey V) :
  Dict.wf key_eqb d = true -> Dict.wf key_eqb (Dict.del key_eqb k d) = true.
Proof.
  induction d as [|[k0 v0] d IH]; simpl; [reflexivity|].
  intros H. apply andb_prop in H. destruct H as [Hk Hwf].
  destruct (key_eqb k k0); simpl; [exact Hwf|].
  rewrite (IH Hwf), andb_true_r.
  unfold Dict.mem in *.
  destruct (Dict.get key_eqb k0 d) eqn:G; [discriminate|].
  now rewrite dict_get_del_some.
Qed.

Lemma dict_get_set_none (k k' : pykey) (v : V) (d : Dict.t pykey V) :
  key_eqb k' k = false ->
  Dict.get key_eqb k' d = None ->
  Dict.get key_eqb k' (Dict.set key_eqb k v d) = None.
Proof.
  intros Hk. induction d as [|[k0 v0] d IH]; simpl.
  - now rewrite Hk.
  - destruct (key_eqb k' k0) eqn:E; [discriminate|].
    intros H. destruct (key_eqb k k0); simpl; rewrite E; [exact H | now apply IH].
Qed.

Lemma dict_wf_set (k : pykey) (v : V) (d : Dict.t pykey V) :
  Dict.wf key_eqb d = true -> Dict.wf key_eqb (Dict.set key_eqb k v d) = true.
Proof.
  induction d as [|[k0 v0] d IH]; simpl; [reflexivity|].
  intros H. apply andb_prop in H. destruct H as [Hk Hwf].
  destruct (key_eqb k k0) eqn:E; simpl.
  - now rewrite Hk, Hwf.
  - rewrite (IH Hwf), andb_true_r.
    unfold Dict.mem in *.
    destruct (Dict.get key_eqb k0 d) eqn:G; [discriminate|].
    rewrite dict_get_set_none; [reflexivity | | exact G].
    now rewrite key_eqb_sym.
Qed.

(** In a well-formed dict, a deleted key is gone. *)
Lemma dict_get_del_wf (k : pykey) (d : Dict.t pykey V) :
  Dict.wf key_eqb d = true ->
  (forall a b c, key_eqb a b = true -> key_eqb a c = true -> key_eqb b c = true) ->
  Dict.get key_eqb k (Dict.del key_eqb k d) = None.
Proof.
  intros Hwf Htrans. induction d as [|[k0 v0] d IH]; simpl; [reflexivity|].
  simpl in Hwf. apply andb_prop in Hwf. destruct Hwf as [Hk Hwf].
  destruct (key_eqb k k0) eqn:E; simpl.
  - unfold Dict.mem in Hk.
    destruct (Dict.get key_eqb k0 d) eqn:G; [discriminate|].
    clear IH Hwf. induction d as [|[k1 v1] d IH]; simpl; [reflexivity|].
    simpl in G. destruct (key_eqb k0 k1) eqn:E1; [discriminate|].
    destruct (key_eqb k k1) eqn:E2.
    + rewrite (Htrans k k0 k1 E E2) in E1. discriminate.
    + now apply IH.
  - rewrite E. now apply IH.
Qed.

End RegistryFacts.

Lemma key_eqb_trans (a b c : pykey) :
  key_eqb a b = true -> key_eqb a c = true -> key_eqb b c = true.
Proof.
  destruct a as [| x | x | x], b as [| y | y | y], c as [| z | z | z];
    simpl; try discriminate; try reflexivity;
    rewrite ?Z.eqb_eq, ?String.eqb_eq, ?Bool.eqb_true_iff; intros; subst;
    first [ reflexivity
          | apply Z.eqb_refl
          | apply String.eqb_refl
          | now destruct y, z
          | now destruct x, z
          | now destruct x, y ].
Qed.

Lemma on_close_eq (webrtc_id : pykey) (self : WebRTCTestServer) :
  on_close webrtc_id self
  = ([Log INFO "📪 DataChannel closed for {webrtc_id}" [key_val webrtc_id]],
     if Dict.mem key_eqb webrtc_id (data_channels self)
     then {| connections := connections self;
             data_channels := Dict.del key_eqb webrtc_id (data_channels self) |}
     else self,
     Return tt).
Proof.
  unfold on_close, sm_bind, lift, get_self, del_data_channel.
  cbn [log emit fst snd app].
  destruct (Dict.mem key_eqb webrtc_id (data_channels self)) eqn:E;
    [rewrite E|]; reflexivity.
Qed.

(** C4.  The close handler removes the session's channel from
    [data_channels]; run a second time it changes nothing, and for an id that
    is not registered it changes nothing the first time either.  It never
    raises. *)
Theorem on_close_idempotent (webrtc_id : pykey) (self : WebRTCTestServer) :
  Dict.wf key_eqb (data_channels self) = true ->
  let once := on_close webrtc_id self in
  let twice := on_close webrtc_id (state_after once) in
  state_after twice = state_after once
  /\ outcome_of once = Return tt
  /\ outcome_of twice = Return tt
  /\ Dict.mem key_eqb webrtc_id (data_channels (state_after once)) = false
  /\ (Dict.mem key_eqb webrtc_id (data_channels self) = false ->
      state_after once = self).
Proof.
  intros Hwf. cbv zeta. rewrite !on_close_eq. unfold state_after, outcome_of.
  cbn [fst snd].
  destruct (Dict.mem key_eqb webrtc_id (data_channels self)) eqn:E.
  - cbn [data_channels].
    assert (G : Dict.mem key_eqb webrtc_id
                  (Dict.del key_eqb webrtc_id (data_channels self)) = false).
    { unfold Dict.mem.
      now rewrite (dict_get_del_wf webrtc_id _ Hwf key_eqb_trans). }
    rewrite G. repeat split; try reflexivity. discriminate.
  - rewrite E. repeat split; reflexivity.
Qed.

Lemma on_close_idempotent_witness :
  state_after (on_close (KStr "s1") (state_after (on_close (KStr "s1") two_sessions)))
  = state_after (on_close (KStr "s1") two_sessions)
  /\ Dict.keys (data_channels (state_after (on_close (KStr "s1") two_sessions)))
     = [KStr "s2"].
Proof.
  split; [|reflexivity].
  exact (proj1 (@on_close_idempotent (KStr "s1") two_sessions eq_refl)).
Defined.

(** Against C8 as stated: a second channel for a session that already has
    one replaces it, and no warning is logged. *)
Lemma on_datachannel_reattach_no_warning :
  Dict.get key_eqb (KStr "s2") (data_channels two_sessions)
  = Some connecting_channel
  /\ Dict.get key_eqb (KStr "s2")
       (data_channels
          (state_after (on_datachannel (KStr "s2") MockRTCDataChannel two_sessions)))
     = Some MockRTCDataChannel
  /\ logged WARNING
       (trace_of (on_datachannel (KStr "s2") MockRTCDataChannel two_sessions))
     = [].
Proof. repeat split. Qed.

(** C8, amended.  The [datachannel] callback binds the new channel to the
    session id, replacing a channel bound before (the registry keeps its
    size); the only line it logs is the info line that names the channel's
    label, so no warning is emitted, and [connections] is left alone. *)
Theorem on_datachannel_overwrites (webrtc_id : pykey) (channel : channel)
  (self : WebRTCTestServer) :
  let r := on_datachannel webrtc_id channel self in
  Dict.get key_eqb webrtc_id (data_channels (state_after r)) = Some channel
  /\ trace_of r
     = [Log INFO "📺 DataChannel established: {channel.label}"
          [PStr (label channel)]]
  /\ logged WARNING (trace_of r) = []
  /\ outcome_of r = Return tt
  /\ connections (state_after r) = connections self
  /\ (Dict.mem key_eqb webrtc_id (data_channels self) = true ->
      Dict.len (data_channels (state_after r)) = Dict.len (data_channels self)).
Proof.
  cbv zeta. unfold on_datachannel, sm_bind, lift, set_data_channel,
    state_after, trace_of, outcome_of. cbn.
  repeat split.
  - apply dict_get_set_same.
  - intros H. unfold Dict.len. now rewrite dict_set_present_length.
Qed.

(** ** What every operation preserves *)

(** Any reflexive and transitive relation between servers that the three
    registry updates respect is respected by every handler, every operation
    and every run. *)
Section Preservation.

Variable R : WebRTCTestServer -> WebRTCTestServer -> Prop.
Hypothesis R_refl : forall s, R s s.
Hypothesis R_trans : forall s1 s2 s3, R s1 s2 -> R s2 s3 -> R s1 s3.
Hypothesis R_set_connection :
  forall k pc, preserves R (set_connection k pc).
Hypothesis R_set_data_channel :
  forall k ch, preserves R (set_data_channel k ch).
Hypothesis R_del_data_channel :
  forall k, preserves R (del_data_channel k).

Variable AIORTC_AVAILABLE : bool.
Variable json_loads : string -> outcome pyval.
Variable py_str : pyval -> string.
Variable engine_negotiate : pyval -> pyval -> outcome (string * string).
Variable debug_page : option string.

Lemma preserves_ret {A} (a : A) : preserves R (sm_ret a).
Proof. intros self. apply R_refl. Qed.

Lemma preserves_lift {A} (m : M A) : preserves R (lift m).
Proof. intros self. apply R_refl. Qed.

Lemma preserves_get_self : preserves R get_self.
Proof. intros self. apply R_refl. Qed.

Lemma preserves_bind {A B} (m : SM A) (k : A -> SM B) :
  preserves R m -> (forall a, preserves R (k a)) -> preserves R (sm_bind m k).
Proof.
  intros Hm Hk self. unfold sm_bind, state_after. specialize (Hm self).
  unfold state_after in Hm.
  destruct (m self) as [[tr s1] [a|e]]; [|exact Hm].
  specialize (Hk a s1). unfold state_after in Hk.
  destruct (k a s1) as [[tr' s2] r].
  eapply R_trans; [exact Hm | exact Hk].
Qed.

Lemma preserves_try_except {A} (m : SM A) (handles : pyexc -> bool)
  (h : pyexc -> SM A) :
  preserves R m -> (forall e, preserves R (h e)) ->
  preserves R (sm_try_except m handles h).
Proof.
  intros Hm Hh self. unfold sm_try_except, state_after. specialize (Hm self).
  unfold state_after in Hm.
  destruct (m self) as [[tr s1] [a|e]]; [exact Hm|].
  destruct (handles e); [|exact Hm].
  specialize (Hh e s1). unfold state_after in Hh.
  destruct (h e s1) as [[tr' s2] r].
  eapply R_trans; [exact Hm | exact Hh].
Qed.

(** Splits a handler into its steps. *)
Ltac preserves :=
  repeat first
    [ apply preserves_bind; [|intros ?]
    | apply preserves_try_except; [|intros ?]
    | apply preserves_ret
    | apply preserves_lift
    | apply preserves_get_self
    | apply R_set_connection
    | apply R_set_data_channel
    | apply R_del_data_channel
    | match goal with
      | |- preserves R (if ?b then _ else _) => destruct b
      | |- preserves R (match ?x with _ => _ end) => destruct x
      end ].

Lemma preserves_on_close (webrtc_id : pykey) : preserves R (on_close webrtc_id).
Proof. unfold on_close. preserves. Qed.

Lemma preserves_on_datachannel (webrtc_id : pykey) (ch : channel) :
  preserves R (on_datachannel webrtc_id ch).
Proof. unfold on_datachannel. preserves. Qed.

Lemma preserves_handle_webrtc_offer (request : Request) (uuid4 : string) :
  preserves R
    (handle_webrtc_offer AIORTC_AVAILABLE json_loads engine_negotiate
       request uuid4).
Proof. unfold handle_webrtc_offer. preserves. Qed.

Lemma preserves_step (o : op) :
  preserves R
    (step AIORTC_AVAILABLE json_loads py_str engine_negotiate debug_page o).
Proof.
  destruct o; unfold step, dispatch; preserves;
    auto using preserves_on_close, preserves_on_datachannel,
      preserves_handle_webrtc_offer.
Qed.

Lemma preserves_run (ops : list op) (self : WebRTCTestServer) :
  R self
    (snd (run AIORTC_AVAILABLE json_loads py_str engine_negotiate debug_page
            ops self)).
Proof.
  revert self. induction ops as [|o ops IH]; intros self; simpl.
  - apply R_refl.
  - pose proof (preserves_step o self) as H. unfold state_after in H.
    destruct (step _ _ _ _ _ o self) as [[tr s1] r]. simpl in H.
    specialize (IH s1).
    destruct (run _ _ _ _ _ ops s1) as [tr' s2]. simpl in *.
    eapply R_trans; eassumption.
Qed.

End Preservation.

(** ** The connections registry only grows *)

Lemma connections_kept_refl (s : WebRTCTestServer) : connections_kept s s.
Proof. split; [auto | lia]. Qed.

Lemma connections_kept_trans (s1 s2 s3 : WebRTCTestServer) :
  connections_kept s1 s2 -> connections_kept s2 s3 -> connections_kept s1 s3.
Proof. intros [H1 L1] [H2 L2]. split; [auto | lia]. Qed.

Lemma connections_kept_same (s s' : WebRTCTestServer) :
  connections s' = connections s -> connections_kept s s'.
Proof. intros E. unfold connections_kept. rewrite E. split; [auto | lia]. Qed.

Lemma keeps_set_connection (k : pykey) (pc : peer_connection) :
  preserves connections_kept (set_connection k pc).
Proof.
  intros self. split; cbn.
  - intros k'. apply dict_mem_set_other.
  - apply dict_set_len.
Qed.

Lemma keeps_set_data_channel (k : pykey) (ch : channel) :
  preserves connections_kept (set_data_channel k ch).
Proof. intros self. now apply connections_kept_same. Qed.

Lemma keeps_del_data_channel (k : pykey) :
  preserves connections_kept (del_data_channel k).
Proof.
  intros self. apply connections_kept_same. unfold del_data_channel.
  now destruct (Dict.mem key_eqb k (data_channels self)).
Qed.

Section ConnectionsGrow.

Variable AIORTC_AVAILABLE : bool.
Variable json_loads : string -> outcome pyval.
Variable py_str : pyval -> string.
Variable engine_negotiate : pyval -> pyval -> outcome (string * string).
Variable debug_page : option string.

Lemma keeps_step (o : op) :
  preserves connections_kept
    (step AIORTC_AVAILABLE json_loads py_str engine_negotiate debug_page o).
Proof.
  apply preserves_step;
    eauto using connections_kept_refl, connections_kept_trans,
      keeps_set_connection, keeps_set_data_channel, keeps_del_data_channel.
Qed.

Lemma run_keeps (ops : list op) (self : WebRTCTestServer) :
  connections_kept self
    (snd (run AIORTC_AVAILABLE json_loads py_str engine_negotiate debug_page
            ops self)).
Proof.
  apply preserves_run;
    eauto using connections_kept_refl, connections_kept_trans,
      keeps_set_connection, keeps_set_data_channel, keeps_del_data_channel.
Qed.

(** ** The registries stay well formed *)

Lemma wf_kept_trans (s1 s2 s3 : WebRTCTestServer) :
  wf_kept s1 s2 -> wf_kept s2 s3 -> wf_kept s1 s3.
Proof. unfold wf_kept. auto. Qed.

Lemma wf_set_connection (k : pykey) (pc : peer_connection) :
  preserves wf_kept (set_connection k pc).
Proof.
  intros self. unfold wf_kept, registries_wf, state_after. cbn.
  intros H. apply andb_prop in H. destruct H as [H1 H2].
  now rewrite dict_wf_set, H2.
Qed.

Lemma wf_set_data_channel (k : pykey) (ch : channel) :
  preserves wf_kept (set_data_channel k ch).
Proof.
  intros self. unfold wf_kept, registries_wf, state_after. cbn.
  intros H. apply andb_prop in H. destruct H as [H1 H2].
  now rewrite dict_wf_set, H1.
Qed.

Lemma wf_del_data_channel (k : pykey) : preserves wf_kept (del_data_channel k).
Proof.
  intros self. unfold wf_kept, registries_wf, state_after, del_data_channel.
  destruct (Dict.mem key_eqb k (data_channels self)); [|tauto]. cbn.
  intros H. apply andb_prop in H. destruct H as [H1 H2].
  now rewrite dict_wf_del, H1.
Qed.

(** Every server reached from [WebRTCTestServer()] has well-formed
    registries. *)
Lemma reachable_wf (ops : list op) :
  registries_wf
    (snd (run AIORTC_AVAILABLE json_loads py_str engine_negotiate debug_page
            ops new_server)) = true.
Proof.
  apply (@preserves_run wf_kept (fun s H => H) wf_kept_trans
           wf_set_connection wf_set_data_channel wf_del_data_channel
           AIORTC_AVAILABLE json_loads py_str engine_negotiate debug_page
           ops new_server).
  reflexivity.
Qed.

End ConnectionsGrow.

Section ConnectionsClaim.

Variable AIORTC_AVAILABLE : bool.
Variable json_loads : string -> outcome pyval.
Variable py_str : pyval -> string.
Variable engine_negotiate : pyval -> pyval -> outcome (string * string).
Variable debug_page : option string.

(** An offer whose body is a JSON object with a hashable session id leaves
    that id in [connections], whatever happens afterwards; when the engine
    rejects the offer, or in mock mode, the answer is a 500. *)
Lemma handle_webrtc_offer_registers (request : Request) (uuid4 : string)
  (self : WebRTCTestServer) (data : list (string * pyval)) (key : pykey) :
  json_loads (body request) = Return (PDict data) ->
  hash_key (pdict_get "webrtc_id" (PStr uuid4) data) = ret key ->
  let r := handle_webrtc_offer AIORTC_AVAILABLE json_loads engine_negotiate
             request uuid4 self in
  Dict.mem key_eqb key (connections (state_after r)) = true
  /\ (AIORTC_AVAILABLE = false
      \/ (exists e, engine_negotiate (pdict_get "sdp" PNone data)
                      (pdict_get "type" PNone data) = Raise e) ->
      exists resp, outcome_of r = Return resp /\ status resp = 500).
Proof.
  intros Hloads Hkey. cbv zeta.
  unfold handle_webrtc_offer, sm_try_except, sm_bind, lift, request_json,
    loads_or_raise, state_after, outcome_of.
  rewrite Hloads. cbn. rewrite Hkey. cbn.
  assert (Hmem : Dict.mem key_eqb key
                   (Dict.set key_eqb key
                      (if AIORTC_AVAILABLE
                       then RTCPeerConnection ice_configuration
                       else MockRTCPeerConnection) (connections self)) = true).
  { unfold Dict.mem. now rewrite dict_get_set_same. }
  destruct AIORTC_AVAILABLE; cbn.
  - destruct (engine_negotiate _ _) as [[ty sdp]|e] eqn:E; cbn.
    + split; [exact Hmem|]. intros [H|[e H]]; discriminate.
    + split; [exact Hmem|]. intros _. eexists. split; reflexivity.
  - split; [exact Hmem|]. intros _. eexists. split; reflexivity.
Qed.

(** C9.  Nothing removes an entry of [connections]:
    - every operation of the server, and so every sequence of operations,
      keeps every key of [connections] and does not lower their number;
    - the close handler leaves [connections] as it was;
    - an offer is registered before negotiation, so its id stays in
      [connections] also when the answer is a 500;
    - [/status] reports the number of entries, which therefore never
      decreases along a run. *)
Theorem connections_never_shrink :
  (forall (o : op) (self : WebRTCTestServer),
     connections_kept self
       (state_after
          (step AIORTC_AVAILABLE json_loads py_str engine_negotiate debug_page
             o self)))
  /\ (forall (ops : list op) (self : WebRTCTestServer),
        connections_kept self
          (snd (run AIORTC_AVAILABLE json_loads py_str engine_negotiate
                  debug_page ops self)))
  /\ (forall (webrtc_id : pykey) (self : WebRTCTestServer),
        connections (state_after (on_close webrtc_id self)) = connections self)
  /\ (forall request uuid4 self data key e,
        json_loads (body request) = Return (PDict data) ->
        hash_key (pdict_get "webrtc_id" (PStr uuid4) data) = ret key ->
        AIORTC_AVAILABLE = true ->
        engine_negotiate (pdict_get "sdp" PNone data)
          (pdict_get "type" PNone data) = Raise e ->
        let r := handle_webrtc_offer AIORTC_AVAILABLE json_loads
                   engine_negotiate request uuid4 self in
        Dict.mem key_eqb key (connections (state_after r)) = true
        /\ exists resp, outcome_of r = Return resp /\ status resp = 500)
  /\ (forall (ops : list op) (self : WebRTCTestServer) (now now' : string),
        let self' := snd (run AIORTC_AVAILABLE json_loads py_str
                            engine_negotiate debug_page ops self) in
        exists n n',
          status_connections AIORTC_AVAILABLE self now = PInt n
          /\ status_connections AIORTC_AVAILABLE self' now' = PInt n'
          /\ n = Dict.len (connections self)
          /\ n <= n').
Proof.
  repeat apply conj.
  - intros o self. apply keeps_step.
  - intros ops self. apply run_keeps.
  - intros webrtc_id self. rewrite on_close_eq. unfold state_after. cbn.
    destruct (Dict.mem key_eqb webrtc_id (data_channels self)); reflexivity.
  - intros request uuid4 self data key e Hloads Hkey Hmode Hneg.
    destruct (@handle_webrtc_offer_registers request uuid4 self data key
                Hloads Hkey) as [Hmem H500].
    split; [exact Hmem|]. apply H500. right. now exists e.
  - intros ops self now now'. cbv zeta.
    eexists. eexists. repeat split.
    apply (run_keeps AIORTC_AVAILABLE json_loads py_str engine_negotiate
             debug_page ops self).
Qed.

End ConnectionsClaim.

(** ** Messages and the [/test] endpoint *)

Lemma bind_returns {A B} (m : M A) (k : A -> M B) (a : A) :
  result m = Return a ->
  bind m k = ((events m ++ events (k a))%list, result (k a)).
Proof.
  destruct m as [tr r]. simpl. intros ->. simpl. now destruct (k a).
Qed.

Section TestEndpoint.

Variable json_loads : string -> outcome pyval.
Variable py_str : pyval -> string.

Lemma broadcast_spec (items : list (pykey * channel)) (test_message : pyval) :
  broadcast py_str items test_message
  = (flat_map (fun item => events (broadcast_send py_str test_message item)) items,
     Return
       (List.map
          (fun item =>
             test_result (key_val (fst item))
               (sent_ok (broadcast_send py_str test_message item)) (snd item))
          items)).
Proof.
  induction items as [|[wid ch] items IH]; [reflexivity|].
  cbn [broadcast flat_map List.map fst snd].
  destruct (safe_channel_send_returns (Some ch) (broadcast_payload test_message)
              ("broadcast test to " ++ py_str (key_val wid))) as [b Hb].
  assert (Hok : sent_ok (broadcast_send py_str test_message (wid, ch)) = b)
    by (unfold sent_ok, broadcast_send; cbn [fst snd]; now rewrite Hb).
  rewrite Hok.
  change (safe_channel_send (Some ch) (broadcast_payload test_message)
            ("broadcast test to " ++ py_str (key_val wid)))
    with (broadcast_send py_str test_message (wid, ch)) in Hb.
  change (safe_channel_send (Some ch)
            (PDict [("type", PStr "broadcast_test"); ("message", test_message)])
            ("broadcast test to " ++ py_str (key_val wid)))
    with (broadcast_send py_str test_message (wid, ch)).
  rewrite (bind_returns _ _ Hb), IH.
  unfold bind, ret, events, result. cbn [fst snd].
  now rewrite !app_nil_r.
Qed.

(** The [/test] handler when no single channel is selected. *)
Lemma handle_datachannel_test_broadcast (self : WebRTCTestServer)
  (request : Request) (now : string) (data : list (string * pyval)) :
  (if String.eqb (content_type request) "application/json"
   then request_json json_loads request
   else ret (PDict [])) = ret (PDict data) ->
  lookup_channel self (pdict_get "webrtc_id" PNone data) = ret None ->
  handle_datachannel_test json_loads py_str self request now
  = (flat_map
       (fun item =>
          events
            (broadcast_send py_str
               (pdict_get "message" (PStr "Test message from server") data)
               item))
       (data_channels self),
     Return
       (broadcast_response py_str self
          (pdict_get "message" (PStr "Test message from server") data) now)).
Proof.
  intros Hdata Hlookup. unfold handle_datachannel_test.
  rewrite Hdata. cbn. rewrite Hlookup. cbn.
  rewrite broadcast_spec. cbn. now rewrite !app_nil_r.
Qed.


End TestEndpoint.



Section TestEndpointClaims.

Variable json_loads : string -> outcome pyval.
Variable py_str : pyval -> string.

Lemma lookup_channel_unknown (self : WebRTCTestServer) (webrtc_id : pyval)
  (key : pykey) :
  hash_key webrtc_id = ret key ->
  Dict.mem key_eqb key (data_channels self) = false ->
  lookup_channel self webrtc_id = ret None.
Proof.
  intros Hkey Hmem. unfold lookup_channel. rewrite Hkey.
  unfold Dict.mem in Hmem.
  destruct (Dict.get key_eqb key (data_channels self)) eqn:G; [discriminate|].
  destruct (truthy webrtc_id); [|reflexivity].
  unfold bind, ret. now rewrite G.
Qed.

(** C6, amended.  A [POST /test] whose JSON object carries a [webrtc_id]
    (a string, number, boolean or null) that is not a key of
    [data_channels] takes the broadcast branch: a guarded send is attempted
    on every registered channel, the response holds one result per channel
    with that channel's [readyState] (or ["unknown"]) and the outcome of its
    send, and the status is 200.  The result list is empty when no channel
    is registered. *)
Theorem test_unknown_id_broadcasts (self : WebRTCTestServer) (request : Request)
  (now : string) (data : list (string * pyval)) (key : pykey) :
  content_type request = "application/json" ->
  json_loads (body request) = Return (PDict data) ->
  hash_key (pdict_get "webrtc_id" PNone data) = ret key ->
  Dict.mem key_eqb key (data_channels self) = false ->
  let test_message :=
    pdict_get "message" (PStr "Test message from server") data in
  handle_datachannel_test json_loads py_str self request now
  = (flat_map (fun item => events (broadcast_send py_str test_message item))
       (data_channels self),
     Return (broadcast_response py_str self test_message now))
  /\ status (broadcast_response py_str self test_message now) = 200
  /\ (data_channels self = [] ->
      handle_datachannel_test json_loads py_str self request now
      = ([],
         Return
           (json_response
              (Json.dumps
                 (PDict [("test_results", PList []);
                         ("total_channels", PInt 0);
                         ("timestamp", PStr now)]))))).
Proof.
  intros Hct Hloads Hkey Hmem. cbv zeta.
  assert (E : handle_datachannel_test json_loads py_str self request now
              = (flat_map
                   (fun item =>
                      events
                        (broadcast_send py_str
                           (pdict_get "message"
                              (PStr "Test message from server") data) item))
                   (data_channels self),
                 Return
                   (broadcast_response py_str self
                      (pdict_get "message" (PStr "Test message from server")
                         data) now))).
  { apply handle_datachannel_test_broadcast.
    - rewrite Hct. cbn. unfold request_json, loads_or_raise. now rewrite Hloads.
    - now apply lookup_channel_unknown with key. }
  repeat split; [exact E|].
  intros Hnil. rewrite E. unfold broadcast_response. now rewrite Hnil.
Qed.

(** C10.  A request to [/test] whose content type is not
    [application/json] is handled as an empty object: the body is not read,
    the message is the default one, and a guarded send of the broadcast
    payload is attempted on every registered channel, in registration order.
    The response has status 200 and is the JSON text of an object with one
    result per channel (the session id, whether the guard reported success,
    and the channel's [readyState], or ["unknown"] without one), the number
    of channels and the time. *)
Theorem test_without_json_broadcasts (self : WebRTCTestServer)
  (request : Request) (now : string) :
  content_type request <> "application/json" ->
  let attempt (item : pykey * channel) :=
    safe_channel_send (Some (snd item))
      (PDict [("type", PStr "broadcast_test");
              ("message", PStr "Test message from server")])
      ("broadcast test to " ++ py_str (key_val (fst item))) in
  handle_datachannel_test json_loads py_str self request now
  = (flat_map (fun item => events (attempt item)) (data_channels self),
     Return
       {| text :=
            Json.dumps
              (PDict
                 [("test_results",
                   PList
                     (List.map
                        (fun item =>
                           PDict
                             [("webrtc_id", key_val (fst item));
                              ("success",
                               PBool
                                 match result (attempt item) with
                                 | Return success => success
                                 | Raise _ => false
                                 end);
                              ("channel_state",
                               match readyState (snd item) with
                               | Some st => st
                               | None => PStr "unknown"
                               end)])
                        (data_channels self)));
                  ("total_channels",
                   PInt (Z.of_nat (List.length (data_channels self))));
                  ("timestamp", PStr now)]);
          response_content_type := "application/json";
          status := 200 |})
  /\ (forall item,
        In item (data_channels self) ->
        exists success, result (attempt item) = Return success).
Proof.
  intros Hct. cbv zeta. split.
  - apply (@handle_datachannel_test_broadcast json_loads py_str self request
             now []).
    + apply String.eqb_neq in Hct. now rewrite Hct.
    + reflexivity.
  - intros item _. apply safe_channel_send_returns.
Qed.

End TestEndpointClaims.

(** Against C6 as stated: the id ["b"] is not registered, and the response
    to [POST /test] for it lists a successful send, to the channel of
    session ["a"], which received the broadcast. *)
Lemma test_unknown_id_sends_to_others :
  Dict.mem key_eqb (KStr "b") (data_channels one_open_channel) = false
  /\ handle_datachannel_test py_json_loads str_of one_open_channel test_unknown_b
       "now"
     = ([Transmit "test"
           (Json.dumps
              (PDict [("type", PStr "broadcast_test");
                      ("message", PStr "Test message from server")]));
         Log INFO "✅ Successfully sent {message_type}"
           [PStr "broadcast test to a"]],
        Return
          (json_response
             (Json.dumps
                (PDict
                   [("test_results",
                     PList
                       [PDict [("webrtc_id", PStr "a");
                               ("success", PBool true);
                               ("channel_state", PStr "open")]]);
                    ("total_channels", PInt 1);
                    ("timestamp", PStr "now")])))).
Proof. split; vm_compute; reflexivity. Qed.

Lemma test_unknown_id_broadcasts_witness :
  status
    (broadcast_response str_of one_open_channel
       (PStr "Test message from server") "now") = 200
  /\ py_json_loads (body test_unknown_b)
     = Return (PDict [("webrtc_id", PStr "b")]).
Proof.
  split; [|reflexivity].
  exact (proj1 (proj2 (@test_unknown_id_broadcasts py_json_loads str_of
                         one_open_channel test_unknown_b "now"
                         [("webrtc_id", PStr "b")] (KStr "b")
                         eq_refl eq_refl eq_refl eq_refl))).
Defined.

Lemma test_without_json_broadcasts_witness :
  content_type test_bodyless_get <> "application/json"
  /\ result (handle_datachannel_test py_json_loads str_of two_sessions
               test_bodyless_get "now")
     = Return
         (json_response
            (Json.dumps
               (PDict
                  [("test_results",
                    PList
                      [PDict [("webrtc_id", PStr "s1");
                              ("success", PBool true);
                              ("channel_state", PStr "open")];
                       PDict [("webrtc_id", PStr "s2");
                              ("success", PBool false);
                              ("channel_state", PStr "connecting")]]);
                   ("total_channels", PInt 2);
                   ("timestamp", PStr "now")])))
  /\ transmitted
       (events
          (handle_datachannel_test py_json_loads str_of two_sessions
             test_bodyless_get "now"))
     = [Json.dumps (PDict [("type", PStr "broadcast_test");
                           ("message", PStr "Test message from server")])].
Proof.
  assert (H : content_type test_bodyless_get <> "application/json")
    by (simpl; discriminate).
  split; [exact H|].
  pose proof (proj1 (@test_without_json_broadcasts py_json_loads str_of
                       two_sessions test_bodyless_get "now" H)) as E.
  cbv zeta in E. rewrite E. split; reflexivity.
Defined.

(** ** The diagnostic client's checklist *)

Lemma events_bind {A B} (m : M A) (k : A -> M B) :
  events (bind m k)
  = (events m ++ match result m with
                 | Return a => events (k a)
                 | Raise _ => []
                 end)%list.
Proof.
  destruct m as [tr [a|e]]; simpl; [now destruct (k a) | now rewrite app_nil_r].
Qed.

Lemma result_bind {A B} (m : M A) (k : A -> M B) :
  result (bind m k)
  = match result m with
    | Return a => result (k a)
    | Raise e => Raise e
    end.
Proof. destruct m as [tr [a|e]]; simpl; [now destruct (k a) | reflexivity]. Qed.

Lemma events_try_except {A} (m : M A) (handles : pyexc -> bool)
  (h : pyexc -> M A) :
  events (try_except m handles h)
  = (events m ++ match result m with
                 | Return _ => []
                 | Raise e => if handles e then events (h e) else []
                 end)%list.
Proof.
  destruct m as [tr [a|e]]; simpl; [now rewrite app_nil_r|].
  destruct (handles e); [now destruct (h e) | now rewrite app_nil_r].
Qed.

Lemma result_try_except {A} (m : M A) (handles : pyexc -> bool)
  (h : pyexc -> M A) :
  result (try_except m handles h)
  = match result m with
    | Return a => Return a
    | Raise e => if handles e then result (h e) else Raise e
    end.
Proof.
  destruct m as [tr [a|e]]; simpl; [reflexivity|].
  destruct (handles e); [now destruct (h e) | reflexivity].
Qed.

Lemma probes_run_app (tr tr' : trace) :
  probes_run (tr ++ tr')%list = (probes_run tr ++ probes_run tr')%list.
Proof.
  induction tr as [|ev tr IH]; simpl; [reflexivity|].
  destruct ev as [l fmt args | lbl data | m url]; try exact IH.
  destruct l; try exact IH.
  destruct (probe_of_line fmt); simpl; now rewrite IH.
Qed.

Lemma quiet_bind {A B} (m : M A) (k : A -> M B) :
  quiet m -> (forall a, quiet (k a)) -> quiet (bind m k).
Proof.
  unfold quiet. intros Hm Hk. rewrite events_bind, probes_run_app, Hm.
  destruct (result m); [apply Hk | reflexivity].
Qed.

Lemma quiet_try_except {A} (m : M A) (handles : pyexc -> bool)
  (h : pyexc -> M A) :
  quiet m -> (forall e, quiet (h e)) -> quiet (try_except m handles h).
Proof.
  unfold quiet. intros Hm Hh. rewrite events_try_except, probes_run_app, Hm.
  destruct (result m) as [a|e]; [reflexivity|].
  destruct (handles e); [apply Hh | reflexivity].
Qed.

Lemma quiet_ret {A} (a : A) : quiet (ret a).
Proof. reflexivity. Qed.

Lemma quiet_raise {A} (e : pyexc) : quiet (@raise A e).
Proof. reflexivity. Qed.

Lemma quiet_lift_outcome {A} (o : outcome A) : quiet (lift_outcome o).
Proof. reflexivity. Qed.

Lemma quiet_py_get (obj : pyval) (key : string) (default : pyval) :
  quiet (py_get obj key default).
Proof. now destruct obj. Qed.

Lemma quiet_py_in (needle : string) (container : pyval) :
  quiet (py_in needle container).
Proof. now destruct container. Qed.

Lemma quiet_py_getitem (container : pyval) (key : string) :
  quiet (py_getitem container key).
Proof.
  destruct container as [| b | z | s | l | d]; try reflexivity.
  unfold py_getitem. now destruct (Dict.get String.eqb key d).
Qed.

Lemma quiet_py_first (container : pyval) : quiet (py_first container).
Proof. now destruct container as [| b | z | [|c s] | [|x l] | d]. Qed.

Lemma quiet_py_len (v : pyval) : quiet (py_len v).
Proof. now destruct v. Qed.

Lemma quiet_py_iter (v : pyval) : quiet (py_iter v).
Proof. now destruct v. Qed.

Lemma quiet_py_any (f : pyval -> M bool) (items : list pyval) :
  (forall x, quiet (f x)) -> quiet (py_any f items).
Proof.
  intros Hf. induction items as [|x items IH]; [reflexivity|].
  simpl. apply quiet_bind; [apply Hf|]. intros [|]; [reflexivity | exact IH].
Qed.

Lemma quiet_for_enumerate (f : Z -> pyval -> M unit) (i0 : Z)
  (items : list pyval) :
  (forall i x, quiet (f i x)) -> quiet (for_enumerate f i0 items).
Proof.
  intros Hf. revert i0. induction items as [|x items IH]; intros i0;
    [reflexivity|].
  simpl. apply quiet_bind; [apply Hf | intros _; apply IH].
Qed.

Create HintDb quiet.
#[local] Hint Resolve quiet_ret quiet_raise quiet_lift_outcome quiet_py_get
  quiet_py_in quiet_py_getitem quiet_py_first quiet_py_len quiet_py_iter
  : quiet.

(** Splits a computation into its steps; a log line or a request is quiet by
    computation. *)
Ltac quiet :=
  repeat first
    [ apply quiet_bind; [|intros ?]
    | apply quiet_try_except; [|intros ?]
    | apply quiet_py_any; intros ?
    | apply quiet_for_enumerate; intros ? ?
    | solve [auto with quiet]
    | reflexivity
    | match goal with
      | |- quiet (if ?b then _ else _) => destruct b
      end ].

Section Checklist.

Variable http_get : string -> outcome ClientResponse.
Variable http_post : string -> pyval -> outcome ClientResponse.
Variable time_now : Z.
Variable base_url : string.

Lemma quiet_server_has (scheme : string) (server : pyval) :
  quiet (server_has scheme server).
Proof. unfold server_has. quiet. Qed.

Lemma probes_test_server_connectivity :
  probes_run (events (test_server_connectivity http_get base_url))
  = [Connectivity].
Proof.
  unfold test_server_connectivity. rewrite events_bind, probes_run_app.
  cbn [result log emit snd].
  match goal with
  | |- (_ ++ probes_run (events ?m))%list = _ =>
      assert (Q : quiet m) by (unfold session_get; quiet)
  end.
  unfold quiet in Q. rewrite Q. reflexivity.
Qed.

Lemma probes_test_config_endpoint :
  probes_run (events (test_config_endpoint http_get base_url))
  = [Configuration].
Proof.
  unfold test_config_endpoint. rewrite events_bind, probes_run_app.
  cbn [result log emit snd].
  match goal with
  | |- (_ ++ probes_run (events ?m))%list = _ =>
      assert (Q : quiet m) by (unfold session_get; quiet)
  end.
  unfold quiet in Q. rewrite Q. reflexivity.
Qed.

Lemma probes_test_webrtc_offer_endpoint :
  probes_run (events (test_webrtc_offer_endpoint http_post time_now base_url))
  = [OfferExchange].
Proof.
  unfold test_webrtc_offer_endpoint. rewrite events_bind, probes_run_app.
  cbn [result log emit snd].
  match goal with
  | |- (_ ++ probes_run (events ?m))%list = _ =>
      assert (Q : quiet m) by (unfold session_post; quiet)
  end.
  unfold quiet in Q. rewrite Q. reflexivity.
Qed.

Lemma probes_check_common_issues (config : pyval) :
  probes_run (events (check_common_issues config)) = [CommonIssues].
Proof.
  unfold check_common_issues. rewrite events_bind, probes_run_app.
  cbn [result log emit snd].
  match goal with
  | |- (_ ++ probes_run (events ?m))%list = _ =>
      assert (Q : quiet m) by (quiet; apply quiet_server_has)
  end.
  unfold quiet in Q. rewrite Q. reflexivity.
Qed.

End Checklist.

Section ChecklistClaim.

Variable http_get : string -> outcome ClientResponse.
Variable http_post : string -> pyval -> outcome ClientResponse.
Variable time_now : Z.
Variable base_url : string.

Lemma try_any_returns {A} (m : M A) (h : pyexc -> M A) :
  (forall e, exists a, result (h e) = Return a) ->
  exists a, result (try_except m any_Exception h) = Return a.
Proof.
  intros Hh. rewrite result_try_except.
  destruct (result m) as [a|e]; [now exists a | apply Hh].
Qed.

Lemma test_server_connectivity_returns :
  exists b, result (test_server_connectivity http_get base_url) = Return b.
Proof.
  unfold test_server_connectivity. rewrite result_bind. cbn [result log emit snd].
  apply try_any_returns. intros e. now exists false.
Qed.

Lemma test_config_endpoint_returns :
  exists c, result (test_config_endpoint http_get base_url) = Return c.
Proof.
  unfold test_config_endpoint. rewrite result_bind. cbn [result log emit snd].
  apply try_any_returns. intros e. now exists PNone.
Qed.

Lemma test_webrtc_offer_endpoint_returns :
  exists b,
    result (test_webrtc_offer_endpoint http_post time_now base_url) = Return b.
Proof.
  unfold test_webrtc_offer_endpoint. rewrite result_bind.
  cbn [result log emit snd].
  apply try_any_returns. intros e. now exists false.
Qed.

(** C7, amended.  The checklist stops at a failed prerequisite: when the
    connectivity probe fails, only that probe runs; when the configuration
    probe yields no configuration (or an empty one), only those two run;
    otherwise all four probes run, whether the offer exchange succeeds or
    not.  Each of the three HTTP probes returns a result and never raises. *)
Theorem diagnose_probes :
  probes_run (events (diagnose_webrtc_issues http_get http_post time_now base_url))
  = match result (test_server_connectivity http_get base_url) with
    | Return true =>
        match result (test_config_endpoint http_get base_url) with
        | Return config =>
            if truthy config
            then [Connectivity; Configuration; OfferExchange; CommonIssues]
            else [Connectivity; Configuration]
        | Raise _ => [Connectivity; Configuration]
        end
    | _ => [Connectivity]
    end
  /\ (exists b, result (test_server_connectivity http_get base_url) = Return b)
  /\ (exists c, result (test_config_endpoint http_get base_url) = Return c)
  /\ (exists b,
        result (test_webrtc_offer_endpoint http_post time_now base_url)
        = Return b).
Proof.
  split;
    [|auto using test_server_connectivity_returns,
        test_config_endpoint_returns, test_webrtc_offer_endpoint_returns].
  unfold diagnose_webrtc_issues.
  rewrite events_bind, probes_run_app. cbn [result log emit snd].
  rewrite events_bind, probes_run_app, probes_test_server_connectivity.
  destruct (result (test_server_connectivity http_get base_url)) as [[|]|e];
    try reflexivity.
  cbn [negb]. rewrite events_bind, probes_run_app, probes_test_config_endpoint.
  destruct (result (test_config_endpoint http_get base_url)) as [config|e];
    [|reflexivity].
  destruct (truthy config); [|reflexivity].
  cbn [negb].
  rewrite events_bind, probes_run_app, probes_test_webrtc_offer_endpoint.
  destruct test_webrtc_offer_endpoint_returns as [b ->].
  rewrite events_bind, probes_run_app.
  assert (Q : forall b : bool,
             probes_run
               (events (if negb b
                        then log ERROR "❌ WebRTC offer endpoint test failed" []
                        else ret tt)) = []
             /\ exists u,
                  result (if negb b
                          then log ERROR "❌ WebRTC offer endpoint test failed" []
                          else ret tt) = Return u).
  { intros [|]; split; try reflexivity; now exists tt. }
  destruct (Q b) as [Q1 [u Q2]]. rewrite Q1, Q2.
  rewrite events_bind, probes_run_app, probes_check_common_issues.
  destruct (result (check_common_issues config)); reflexivity.
Qed.

End ChecklistClaim.

(** Against C7 as stated: when the server cannot be reached, the client runs
    the connectivity probe and nothing else, although the offer endpoint
    would have answered: one request is issued. *)
Lemma diagnose_stops_when_unreachable :
  result (test_server_connectivity refused_get "http://localhost:8080")
  = Return false
  /\ probes_run
       (events
          (diagnose_webrtc_issues refused_get accepting_post 0
             "http://localhost:8080"))
     = [Connectivity]
  /\ requests
       (events
          (diagnose_webrtc_issues refused_get accepting_post 0
             "http://localhost:8080"))
     = [("GET", "http://localhost:8080/")].
Proof. repeat split. Qed.

(** ** More on the [/test] endpoint *)

Section TestEndpointMore.

Variable json_loads : string -> outcome pyval.
Variable py_str : pyval -> string.

(** X1.  A [/test] request that names a registered session (a truthy,
    hashable [webrtc_id] that is a key of [data_channels]) makes one guarded
    send, of the [server_test] payload, to that session's channel and to no
    other; the response has that single result and status 200. *)
Theorem test_known_id_single_send (self : WebRTCTestServer) (request : Request)
  (now : string) (data : list (string * pyval)) (key : pykey) (ch : channel) :
  content_type request = "application/json" ->
  json_loads (body request) = Return (PDict data) ->
  truthy (pdict_get "webrtc_id" PNone data) = true ->
  hash_key (pdict_get "webrtc_id" PNone data) = ret key ->
  Dict.get key_eqb key (data_channels self) = Some ch ->
  let webrtc_id := pdict_get "webrtc_id" PNone data in
  let attempt :=
    safe_channel_send (Some ch)
      (PDict [("type", PStr "server_test");
              ("message",
               pdict_get "message" (PStr "Test message from server") data)])
      ("test message to " ++ py_str webrtc_id) in
  handle_datachannel_test json_loads py_str self request now
  = (events attempt,
     Return
       (json_response
          (Json.dumps
             (PDict [("test_results",
                      PList [test_result webrtc_id (sent_ok attempt) ch]);
                     ("total_channels", PInt (Dict.len (data_channels self)));
                     ("timestamp", PStr now)])))).
Proof.
  intros Hct Hloads Htruthy Hkey Hget. cbv zeta.
  assert (Hlook : lookup_channel self (pdict_get "webrtc_id" PNone data)
                  = ret (Some ch)).
  { unfold lookup_channel. rewrite Htruthy, Hkey. cbn. now rewrite Hget. }
  unfold handle_datachannel_test, request_json, loads_or_raise.
  rewrite Hct, Hloads. cbn -[safe_channel_send]. rewrite Hlook.
  cbn -[safe_channel_send]. unfold sent_ok.
  match goal with
  | |- context [safe_channel_send ?c ?p ?t] =>
      destruct (safe_channel_send_returns c p t) as [b Hb];
      destruct (safe_channel_send c p t) as [tr r]
  end.
  simpl in Hb. subst r. cbn. now rewrite !app_nil_r.
Qed.

(** X2.  [/test] always answers, with status 200 or 500.  A 500 comes from
    reading the request (a body [json.loads] raises on, a value that is not an
    object, an unhashable [webrtc_id]): the handler then logs one error line
    and has called no channel. *)
Theorem handle_datachannel_test_answers (self : WebRTCTestServer)
  (request : Request) (now : string) :
  exists resp,
    result (handle_datachannel_test json_loads py_str self request now)
    = Return resp
    /\ (status resp = 200
        \/ exists e,
             resp = error_response e
             /\ events (handle_datachannel_test json_loads py_str self request
                          now)
                = [Log ERROR "❌ Error in DataChannel test: {e}"
                     [PStr (exc_msg e)]]).
Proof.
  unfold handle_datachannel_test.
  set (data_of := if String.eqb (content_type request) "application/json"
                  then request_json json_loads request
                  else ret (PDict [])).
  assert (Hdata : (exists d, data_of = ret d)
                  \/ exists e, data_of = raise e).
  { unfold data_of, request_json, loads_or_raise.
    destruct (String.eqb _ _); [|left; now eexists].
    destruct (json_loads _); [left | right]; now eexists. }
  destruct Hdata as [[d ->]|[e ->]];
    [|eexists; split; [reflexivity | right; eexists; split; reflexivity]].
  destruct d as [| b | z | s | l | d];
    try (eexists; split; [reflexivity | right; eexists; split; reflexivity]).
  cbn [bind ret py_get app].
  set (webrtc_id := pdict_get "webrtc_id" PNone d).
  set (test_message := pdict_get "message" _ d).
  assert (Hlook : (exists found, lookup_channel self webrtc_id = ret found)
                  \/ exists e, lookup_channel self webrtc_id = raise e).
  { unfold lookup_channel. destruct (truthy webrtc_id); [|left; now eexists].
    destruct webrtc_id; cbn; (left + right); now eexists. }
  destruct Hlook as [[found ->]|[e ->]];
    [|eexists; split; [reflexivity | right; eexists; split; reflexivity]].
  cbn [bind ret app].
  destruct found as [ch|].
  - match goal with
    | |- context [safe_channel_send ?c ?p ?t] =>
        destruct (safe_channel_send_returns c p t) as [b Hb];
        destruct (safe_channel_send c p t) as [tr r]
    end.
    simpl in Hb. subst r. cbn. eexists. split; [reflexivity | now left].
  - rewrite broadcast_spec. cbn. eexists. split; [reflexivity | now left].
Qed.

(** X3.  A falsy [webrtc_id] (absent, [null], [false], [0], the empty string,
    an empty list or object) never selects a channel, also when a session is
    registered under it: the request is broadcast. *)
Theorem test_falsy_id_broadcasts (self : WebRTCTestServer) (request : Request)
  (now : string) (data : list (string * pyval)) :
  content_type request = "application/json" ->
  json_loads (body request) = Return (PDict data) ->
  truthy (pdict_get "webrtc_id" PNone data) = false ->
  handle_datachannel_test json_loads py_str self request now
  = (flat_map
       (fun item =>
          events
            (broadcast_send py_str
               (pdict_get "message" (PStr "Test message from server") data)
               item))
       (data_channels self),
     Return
       (broadcast_response py_str self
          (pdict_get "message" (PStr "Test message from server") data) now)).
Proof.
  intros Hct Hloads Hfalsy.
  apply handle_datachannel_test_broadcast.
  - rewrite Hct. cbn. unfold request_json, loads_or_raise. now rewrite Hloads.
  - unfold lookup_channel. now rewrite Hfalsy.
Qed.

End TestEndpointMore.

(** ** More on offers *)

Section OfferMore.

Variable json_loads : string -> outcome pyval.
Variable engine_negotiate : pyval -> pyval -> outcome (string * string).

(** X4.  Without [aiortc] every offer is answered with a 500 and the canned
    mock answer is never sent: the decorator of [on_datachannel] is then
    [lambda: None], and applying it raises inside the handler's [try].  No
    channel is ever registered by the request. *)
Theorem handle_webrtc_offer_mock_mode (request : Request) (uuid4 : string)
  (self : WebRTCTestServer) :
  let r := handle_webrtc_offer false json_loads engine_negotiate request uuid4
             self in
  (exists e, outcome_of r = Return (error_response e))
  /\ data_channels (state_after r) = data_channels self.
Proof.
  cbv zeta.
  unfold handle_webrtc_offer, sm_try_except, sm_bind, lift, request_json,
    loads_or_raise, state_after, outcome_of.
  destruct (json_loads (body request)) as [data|]; cbn; [|eauto].
  destruct data as [| b | z | s | l | d]; cbn; eauto.
  destruct (pdict_get "webrtc_id" (PStr uuid4) d); cbn; eauto.
Qed.

(** X5.  With [aiortc], an offer whose body is a JSON object with a hashable
    session id and which the engine accepts is answered with status 200 and
    the JSON text of the engine's answer, which decodes to its [type] and
    [sdp]; the peer connection is registered under the id, or under the
    generated uuid when the body has no [webrtc_id], and [data_channels] is
    untouched. *)
Theorem handle_webrtc_offer_accepts (request : Request) (uuid4 : string)
  (self : WebRTCTestServer) (data : list (string * pyval)) (key : pykey)
  (ty sdp : string) :
  json_loads (body request) = Return (PDict data) ->
  hash_key (pdict_get "webrtc_id" (PStr uuid4) data) = ret key ->
  engine_negotiate (pdict_get "sdp" PNone data) (pdict_get "type" PNone data)
  = Return (ty, sdp) ->
  let r := handle_webrtc_offer true json_loads engine_negotiate request uuid4
             self in
  let answer := PDict [("type", PStr ty); ("sdp", PStr sdp)] in
  outcome_of r = Return (json_response (Json.dumps answer))
  /\ Json.loads (Json.dumps answer) = Some answer
  /\ state_after r
     = {| connections :=
            Dict.set key_eqb key (RTCPeerConnection ice_configuration)
              (connections self);
          data_channels := data_channels self |}
  /\ (Dict.get String.eqb "webrtc_id" data = None -> key = KStr uuid4).
Proof.
  intros Hloads Hkey Hneg. cbv zeta.
  split; [|split; [now apply JsonFacts.loads_dumps|split]].
  - unfold handle_webrtc_offer, sm_try_except, sm_bind, lift, request_json,
      loads_or_raise, outcome_of.
    rewrite Hloads. cbn -[Json.dumps]. rewrite Hkey. cbn -[Json.dumps].
    rewrite Hneg. reflexivity.
  - unfold handle_webrtc_offer, sm_try_except, sm_bind, lift, request_json,
      loads_or_raise, state_after.
    rewrite Hloads. cbn -[Json.dumps]. rewrite Hkey. cbn -[Json.dumps].
    rewrite Hneg. reflexivity.
  - intros Hnone. unfold pdict_get in Hkey. rewrite Hnone in Hkey.
    now injection Hkey as <-.
Qed.

(** X6.  An unreadable offer is answered with a 500 after one error line and
    leaves the server exactly as it was: nothing is registered. *)
Theorem handle_webrtc_offer_rejects (AIORTC_AVAILABLE : bool)
  (request : Request) (uuid4 : string) (self : WebRTCTestServer) :
  unreadable_offer json_loads request = true ->
  let r := handle_webrtc_offer AIORTC_AVAILABLE json_loads engine_negotiate
             request uuid4 self in
  state_after r = self
  /\ exists e,
       outcome_of r = Return (error_response e)
       /\ logged ERROR (trace_of r) = ["❌ Error handling WebRTC offer: {e}"].
Proof.
  unfold unreadable_offer. intros H. cbv zeta.
  unfold handle_webrtc_offer, sm_try_except, sm_bind, lift, request_json,
    loads_or_raise, state_after, outcome_of, trace_of.
  destruct (json_loads (body request)) as [data|]; cbn; [|eauto].
  destruct data as [| b | z | s | l | d]; cbn; eauto.
  unfold pdict_get.
  destruct (Dict.get String.eqb "webrtc_id" d) as [[| b | z | s | l | d']|];
    try discriminate H; cbn; eauto.
Qed.

End OfferMore.

(** ** More on messages *)

Lemma safe_channel_send_transmits_once (handle : option channel)
  (message_data : pyval) (message_type : string) :
  (List.length
     (transmitted (events (safe_channel_send handle message_data message_type)))
   <= 1)%nat
  /\ (forall data,
        In data
          (transmitted
             (events (safe_channel_send handle message_data message_type))) ->
        data = wire_text message_data
        /\ exists ch, handle = Some ch /\ readyState ch = Some (PStr "open")).
Proof.
  destruct handle as [ch|]; [|split; [cbn; lia | intros data []]].
  destruct (readyState ch) as [st|] eqn:R;
    [|unfold safe_channel_send; rewrite R; split; [cbn; lia | intros data []]].
  destruct (ne_str st "open") eqn:N;
    [unfold safe_channel_send; rewrite R, N; split;
     [cbn; lia | intros data []]|].
  assert (st = PStr "open") as ->.
  { destruct st as [| b | z | s | l | d]; try discriminate N.
    simpl in N. apply negb_false_iff in N. apply String.eqb_eq in N.
    now subst. }
  rewrite (safe_channel_send_open _ _ _ R). unfold channel_send. cbn.
  destruct (send ch (wire_text message_data)); cbn;
    (split; [lia | intros data [<-|[]]; split; [reflexivity | eauto]]).
Qed.

Lemma bind_ret_l {A B} (a : A) (k : A -> M B) : bind (ret a) k = k a.
Proof. unfold bind, ret. now destruct (k a). Qed.

Lemma try_except_unhandled {A} (m : M A) (handles : pyexc -> bool)
  (h : pyexc -> M A) :
  (forall e, result m = Raise e -> handles e = false) ->
  try_except m handles h = m.
Proof.
  destruct m as [tr [a|e]]; intros H; [reflexivity|].
  cbn. now rewrite (H e eq_refl).
Qed.

Section MessagesMore.

Variable json_loads : string -> outcome pyval.
Variable py_str : pyval -> string.

Lemma on_message_non_object (channel : channel)
  (message uuid4 now : string) (msg_data : pyval) :
  json_loads message = Return msg_data ->
  (forall d, msg_data <> PDict d) ->
  on_message json_loads py_str channel message uuid4 now
  = ([Log INFO "📨 Received message: {message}" [PStr message]],
     Raise (Exc AttributeError
              ("'" ++ type_name msg_data ++ "' object has no attribute 'get'"))).
Proof.
  intros H Hnot. unfold on_message, loads_or_raise. rewrite H.
  destruct msg_data as [| b | z | s | l | d]; try reflexivity.
  now elim (Hnot d).
Qed.

(** X7.  A message that is valid JSON but not an object (a number, a string,
    a list, [null], ...) makes the handler raise [AttributeError]: only
    [JSONDecodeError] is caught.  Nothing is sent back and nothing but the
    message itself is logged. *)
Theorem on_message_not_an_object (channel : channel)
  (message uuid4 now : string) (msg_data : pyval) :
  json_loads message = Return msg_data ->
  (forall d, msg_data <> PDict d) ->
  events (on_message json_loads py_str channel message uuid4 now)
  = [Log INFO "📨 Received message: {message}" [PStr message]]
  /\ exists e,
       result (on_message json_loads py_str channel message uuid4 now)
       = Raise e
       /\ exc_cls e = AttributeError.
Proof.
  intros H Hnot. rewrite (on_message_non_object channel uuid4 now H Hnot).
  split; [reflexivity|]. eexists. split; reflexivity.
Qed.

(** The handler's reply, for a message that is a JSON object. *)
Lemma on_message_object (channel : channel) (message uuid4 now : string)
  (d : list (string * pyval)) :
  json_loads message = Return (PDict d) ->
  let ty := pdict_get "type" PNone d in
  on_message json_loads py_str channel message uuid4 now
  = (log INFO "📨 Received message: {message}" [PStr message] ;;
     if eq_str ty "chat" then
       safe_channel_send (Some channel)
         (PDict [("type", PStr "chat_response");
                 ("id", pdict_get "id" (PStr uuid4) d);
                 ("message",
                  PStr ("Echo: " ++ py_str (pdict_get "data" (PStr "No data") d)))])
         "chat response" ;;
       ret tt
     else if eq_str ty "stop_chat" then
       safe_channel_send (Some channel)
         (PDict [("type", PStr "chat_stopped"); ("message", PStr "Chat stopped")])
         "stop confirmation" ;;
       ret tt
     else if eq_str ty "test" then
       st <- attr_readyState channel ;;
       safe_channel_send (Some channel) (test_response st now) "test response" ;;
       ret tt
     else
       safe_channel_send (Some channel) (echo_reply (PDict d)) "echo response" ;;
       ret tt).
Proof.
  intros H. cbv zeta. unfold on_message, loads_or_raise. rewrite H.
  change (lift_outcome (Return (PDict d))) with (ret (PDict d)).
  cbn [py_get]. rewrite !bind_ret_l. cbn [py_get]. rewrite !bind_ret_l.
  match goal with
  | |- bind ?l (fun _ => ?a) = bind ?l (fun _ => ?b) =>
      assert (E : a = b); [|now rewrite E]
  end.
  apply try_except_unhandled. intros e.
  repeat match goal with
         | |- context [if ?b then _ else _] => destruct b
         end;
    rewrite ?result_bind;
    try match goal with
        | |- context [safe_channel_send ?c ?p ?t] =>
            destruct (safe_channel_send_returns c p t) as [b ->]
        end; try discriminate.
  unfold attr_readyState. destruct (readyState channel) as [st|].
  - cbn [result ret raise snd]. rewrite result_bind.
    match goal with
    | |- context [safe_channel_send ?c ?p ?t] =>
        destruct (safe_channel_send_returns c p t) as [b ->]
    end.
    discriminate.
  - cbn. now intros [= <-].
Qed.

Lemma transmitted_app (tr tr' : trace) :
  transmitted (tr ++ tr')%list = (transmitted tr ++ transmitted tr')%list.
Proof.
  induction tr as [|ev tr IH]; [reflexivity|].
  destruct ev; simpl; now rewrite IH.
Qed.

Lemma transmitted_log_bind {A} (l : level) (fmt : string) (args : list pyval)
  (m : M A) :
  transmitted (events (log l fmt args ;; m)) = transmitted (events m).
Proof. rewrite events_bind. reflexivity. Qed.

(** What a guarded send followed by [return] transmits. *)
Lemma transmitted_send_ret (handle : option channel)
  (message_data : pyval) (message_type : string) :
  transmitted
    (events (safe_channel_send handle message_data message_type ;; ret tt))
  = transmitted (events (safe_channel_send handle message_data message_type)).
Proof.
  rewrite events_bind.
  destruct (safe_channel_send_returns handle message_data message_type)
    as [b ->].
  cbn. now rewrite app_nil_r.
Qed.

Lemma on_message_undecodable (channel : channel) (message uuid4 now : string)
  (e : pyexc) :
  json_loads message = Raise e ->
  is_JSONDecodeError e = true ->
  on_message json_loads py_str channel message uuid4 now
  = (log INFO "📨 Received message: {message}" [PStr message] ;;
     log WARNING "⚠️  Received non-JSON message: {message}" [PStr message] ;;
     safe_channel_send (Some channel) invalid_json_reply "error response" ;;
     ret tt).
Proof.
  intros H Hcls. unfold on_message, loads_or_raise, invalid_json_reply.
  rewrite H. unfold try_except, bind, raise, log, emit, ret, lift_outcome.
  rewrite Hcls. cbn [app].
  match goal with
  | |- context [safe_channel_send ?c ?p ?t] =>
      destruct (safe_channel_send c p t) as [tr [b|e']]; reflexivity
  end.
Qed.

Lemma on_message_loads_raises (channel : channel) (message uuid4 now : string)
  (e : pyexc) :
  json_loads message = Raise e ->
  is_JSONDecodeError e = false ->
  on_message json_loads py_str channel message uuid4 now
  = ([Log INFO "📨 Received message: {message}" [PStr message]], Raise e).
Proof.
  intros H Hcls. unfold on_message, loads_or_raise. rewrite H.
  unfold try_except, bind, raise, log, emit, ret, lift_outcome.
  now rewrite Hcls.
Qed.

(** X8.  Whatever the message, the handler calls [channel.send] at most once,
    and only on a channel whose [readyState] is ["open"]. *)
Theorem on_message_sends_at_most_once (channel : channel)
  (message uuid4 now : string) :
  (List.length
     (transmitted
        (events (on_message json_loads py_str channel message uuid4 now)))
   <= 1)%nat
  /\ (transmitted
        (events (on_message json_loads py_str channel message uuid4 now))
      <> [] ->
      readyState channel = Some (PStr "open")).
Proof.
  assert (Hsend : forall (p : pyval) t,
            (List.length
               (transmitted
                  (events (safe_channel_send (Some channel) p t ;; ret tt)))
             <= 1)%nat
            /\ (transmitted
                  (events (safe_channel_send (Some channel) p t ;; ret tt))
                <> [] ->
                readyState channel = Some (PStr "open"))).
  { intros p t. rewrite transmitted_send_ret.
    destruct (safe_channel_send_transmits_once (Some channel) p t) as [L I].
    split; [exact L|]. intros Hne.
    destruct (transmitted (events (safe_channel_send (Some channel) p t)))
      as [|data l]; [now elim Hne|].
    destruct (I data (or_introl eq_refl)) as [_ [ch [[= <-] R]]]. exact R. }
  destruct (json_loads message) as [msg_data|e] eqn:H.
  - destruct msg_data as [| b | z | s | l | d];
      try (rewrite (@on_message_non_object channel message uuid4 now _ H)
            by discriminate;
           cbn; split; [lia | intros Hne; now elim Hne]).
    rewrite (@on_message_object channel message uuid4 now d H).
    rewrite transmitted_log_bind.
    repeat match goal with
           | |- context [if ?b then _ else _] => destruct b
           end; try apply Hsend.
    unfold attr_readyState. destruct (readyState channel) as [st|].
    + rewrite bind_ret_l. apply Hsend.
    + cbn. split; [lia | intros Hne; now elim Hne].
  - destruct (is_JSONDecodeError e) eqn:Hcls.
    + rewrite (@on_message_undecodable channel message uuid4 now e H Hcls).
      rewrite !transmitted_log_bind. apply Hsend.
    + rewrite (@on_message_loads_raises channel message uuid4 now e H Hcls).
      cbn. split; [lia | intros Hne; now elim Hne].
Qed.

(** X9.  A reply to a [test] message that is transmitted at all reports the
    channel state ["open"]: the state is read before the guard, and the guard
    sends on an open channel only. *)
Theorem on_message_test_reports_open (channel : channel)
  (message uuid4 now : string) (d : list (string * pyval)) :
  json_loads message = Return (PDict d) ->
  eq_str (pdict_get "type" PNone d) "test" = true ->
  forall data,
    In data
      (transmitted
         (events (on_message json_loads py_str channel message uuid4 now))) ->
    data = Json.dumps (test_response (PStr "open") now).
Proof.
  intros H Hty data. rewrite (@on_message_object channel message uuid4 now d H).
  cbv zeta. rewrite Hty.
  assert (Hchat : eq_str (pdict_get "type" PNone d) "chat" = false
                  /\ eq_str (pdict_get "type" PNone d) "stop_chat" = false).
  { destruct (pdict_get "type" PNone d) as [| b | z | s | l | d'];
      try discriminate Hty.
    unfold eq_str, ne_str in *. rewrite negb_involutive in *.
    apply String.eqb_eq in Hty. now subst s. }
  destruct Hchat as [-> ->].
  rewrite transmitted_log_bind.
  unfold attr_readyState. destruct (readyState channel) as [st|] eqn:R;
    [|intros []].
  rewrite bind_ret_l, transmitted_send_ret. intros Hin.
  destruct (safe_channel_send_transmits_once (Some channel)
              (test_response st now) "test response") as [_ I].
  destruct (I data Hin) as [-> [ch [[= <-] R']]].
  rewrite R in R'. now injection R' as ->.
Qed.


End MessagesMore.

(** ** More on the registries *)

Lemma dict_del_app_fresh (V : Type) (k : pykey) (v : V) (d : Dict.t pykey V) :
  Dict.get key_eqb k d = None ->
  Dict.del key_eqb k (d ++ [(k, v)])%list = d.
Proof.
  induction d as [|[k' v'] d IH]; simpl.
  - now rewrite key_eqb_refl.
  - destruct (key_eqb k k'); [discriminate|]. intros H. now rewrite IH.
Qed.

Lemma dict_get_del_other (V : Type) (k k' : pykey) (d : Dict.t pykey V) :
  key_eqb k' k = false ->
  Dict.get key_eqb k' (Dict.del key_eqb k d) = Dict.get key_eqb k' d.
Proof.
  intros Hne. induction d as [|[k0 v0] d IH]; simpl; [reflexivity|].
  destruct (key_eqb k k0) eqn:E; simpl.
  - destruct (key_eqb k' k0) eqn:E'; [|reflexivity].
    rewrite key_eqb_sym in E'. rewrite key_eqb_sym in E.
    rewrite (key_eqb_trans _ _ _ E' E) in Hne. discriminate.
  - destruct (key_eqb k' k0); [reflexivity | exact IH].
Qed.

Lemma dict_get_set_other (V : Type) (k k' : pykey) (v : V) (d : Dict.t pykey V) :
  key_eqb k' k = false ->
  Dict.get key_eqb k' (Dict.set key_eqb k v d) = Dict.get key_eqb k' d.
Proof.
  intros Hne. induction d as [|[k0 v0] d IH]; simpl.
  - now rewrite Hne.
  - destruct (key_eqb k k0) eqn:E; simpl.
    + destruct (key_eqb k' k0) eqn:E'; [|reflexivity].
      rewrite key_eqb_sym in E'. rewrite key_eqb_sym in E.
      rewrite (key_eqb_trans _ _ _ E' E) in Hne. discriminate.
    + destruct (key_eqb k' k0); [reflexivity | exact IH].
Qed.

Lemma on_datachannel_eq (webrtc_id : pykey) (channel : channel)
  (self : WebRTCTestServer) :
  on_datachannel webrtc_id channel self
  = ([Log INFO "📺 DataChannel established: {channel.label}"
        [PStr (label channel)]],
     {| connections := connections self;
        data_channels :=
          Dict.set key_eqb webrtc_id channel (data_channels self) |},
     Return tt).
Proof. reflexivity. Qed.

(** X11.  A channel attached for a session that had none and then closed
    leaves the server as it was before the attachment. *)
Theorem on_datachannel_then_on_close (webrtc_id : pykey) (channel : channel)
  (self : WebRTCTestServer) :
  Dict.mem key_eqb webrtc_id (data_channels self) = false ->
  state_after
    (on_close webrtc_id (state_after (on_datachannel webrtc_id channel self)))
  = self.
Proof.
  intros Hnew. rewrite on_close_eq, on_datachannel_eq.
  unfold state_after. cbn [fst snd data_channels connections].
  unfold Dict.mem in *. rewrite dict_get_set_same.
  destruct (Dict.get key_eqb webrtc_id (data_channels self)) eqn:G;
    [discriminate|].
  rewrite (dict_set_fresh _ _ _ _ G), (dict_del_app_fresh _ _ _ G).
  now destruct self.
Qed.

(** X12.  Attaching or closing the channel of one session leaves the channel
    of every other session as it was. *)
Theorem other_sessions_undisturbed (webrtc_id other : pykey)
  (channel : channel) (self : WebRTCTestServer) :
  key_eqb other webrtc_id = false ->
  Dict.get key_eqb other
    (data_channels (state_after (on_datachannel webrtc_id channel self)))
  = Dict.get key_eqb other (data_channels self)
  /\ Dict.get key_eqb other
       (data_channels (state_after (on_close webrtc_id self)))
     = Dict.get key_eqb other (data_channels self).
Proof.
  intros Hne. split.
  - rewrite on_datachannel_eq. unfold state_after.
    cbn [fst snd data_channels]. now apply dict_get_set_other.
  - rewrite on_close_eq. unfold state_after. cbn [fst snd].
    destruct (Dict.mem key_eqb webrtc_id (data_channels self)); [|reflexivity].
    cbn [data_channels]. now apply dict_get_del_other.
Qed.

(** ** More on the diagnostic client *)

Lemma rstrip_slash_decompose (s : string) :
  exists n, s = rstrip_slash s ++ slashes n.
Proof.
  induction s as [|c s [n IH]]; [now exists O|].
  simpl. destruct (rstrip_slash s) as [|c' r] eqn:E.
  - simpl in IH. destruct (Ascii.eqb_spec c "/") as [->|_].
    + exists (S n). simpl. now rewrite <- IH.
    + exists n. simpl. now rewrite <- IH.
  - exists n. simpl. simpl in IH. now rewrite <- IH.
Qed.

Lemma rstrip_slash_last (s : string) :
  last_char (rstrip_slash s) <> Some "/"%char.
Proof.
  induction s as [|c s IH]; [discriminate|].
  simpl. destruct (rstrip_slash s) as [|c' r] eqn:E.
  - destruct (Ascii.eqb_spec c "/") as [->|Hc]; [discriminate|].
    simpl. now intros [= ->].
  - exact IH.
Qed.

Lemma rstrip_slash_fixed (s : string) :
  last_char s <> Some "/"%char -> rstrip_slash s = s.
Proof.
  induction s as [|c s IH]; [reflexivity|].
  intros H. simpl.
  destruct s as [|c' s'].
  - simpl. destruct (Ascii.eqb_spec c "/") as [->|_]; [now elim H | reflexivity].
  - rewrite IH by exact H. reflexivity.
Qed.

(** X13.  The debugger's base URL is the given URL without its trailing
    slashes: only slashes are removed, from the end, and all of them, so a
    URL that does not end in a slash is kept and stripping twice changes
    nothing more. *)
Theorem debugger_base_url_strips (base_url : string) :
  (exists n, base_url = debugger_base_url base_url ++ slashes n)
  /\ last_char (debugger_base_url base_url) <> Some "/"%char
  /\ debugger_base_url (debugger_base_url base_url) = debugger_base_url base_url
  /\ (last_char base_url <> Some "/"%char ->
      debugger_base_url base_url = base_url).
Proof.
  unfold debugger_base_url. repeat split.
  - apply rstrip_slash_decompose.
  - apply rstrip_slash_last.
  - apply rstrip_slash_fixed, rstrip_slash_last.
  - apply rstrip_slash_fixed.
Qed.

Lemma requests_app (tr tr' : trace) :
  requests (tr ++ tr')%list = (requests tr ++ requests tr')%list.
Proof.
  induction tr as [|ev tr IH]; [reflexivity|].
  destruct ev; simpl; now rewrite IH.
Qed.

Section ProbesMore.

Variable http_get : string -> outcome ClientResponse.
Variable http_post : string -> pyval -> outcome ClientResponse.
Variable time_now : Z.
Variable base_url : string.

(** X14.  The connectivity probe issues one request, [GET <base>/], and
    returns [True] exactly when it is answered with status 200; any other
    status and any exception give [False]. *)
Theorem test_server_connectivity_spec :
  result (test_server_connectivity http_get base_url)
  = Return
      match http_get (base_url ++ "/") with
      | Return response => resp_status response =? 200
      | Raise _ => false
      end
  /\ requests (events (test_server_connectivity http_get base_url))
     = [("GET", base_url ++ "/")].
Proof.
  unfold test_server_connectivity, session_get, lift_outcome.
  destruct (http_get (base_url ++ "/")) as [response|e]; cbn.
  - destruct (resp_status response =? 200); cbn; split; reflexivity.
  - split; reflexivity.
Qed.

(** X15.  The offer probe issues one request, a [POST] of the mock offer to
    [<base>/webrtc/offer], and returns [True] exactly when the answer has
    status 200 and a body that decodes as JSON. *)
Theorem test_webrtc_offer_endpoint_spec :
  result (test_webrtc_offer_endpoint http_post time_now base_url)
  = Return
      match http_post (base_url ++ "/webrtc/offer") (mock_offer time_now) with
      | Return response =>
          (resp_status response =? 200)
          && match resp_json response with
             | Return _ => true
             | Raise _ => false
             end
      | Raise _ => false
      end
  /\ requests (events (test_webrtc_offer_endpoint http_post time_now base_url))
     = [("POST", base_url ++ "/webrtc/offer")].
Proof.
  unfold test_webrtc_offer_endpoint, session_post, lift_outcome.
  destruct (http_post (base_url ++ "/webrtc/offer") (mock_offer time_now))
    as [response|e]; cbn -[JsonIndent.dumps mock_offer].
  - destruct (resp_status response =? 200); cbn -[JsonIndent.dumps];
      [|split; reflexivity].
    destruct (resp_json response); cbn -[JsonIndent.dumps]; split; reflexivity.
  - split; reflexivity.
Qed.

End ProbesMore.

Lemma result_bind_ret {A B} (m : M A) (b b' : B) :
  result (m ;; ret b) = Return b' -> b' = b.
Proof.
  rewrite result_bind. destruct (result m); [|discriminate].
  now intros [= <-].
Qed.

Lemma result_bind_inv {A B} (m : M A) (k : A -> M B) (b : B) :
  result (bind m k) = Return b ->
  exists a, result m = Return a /\ result (k a) = Return b.
Proof.
  rewrite result_bind. destruct (result m) as [a|e]; [|discriminate].
  intros H. now exists a.
Qed.

Lemma py_any_ret (f : pyval -> M bool) (g : pyval -> bool)
  (items : list pyval) :
  Forall (fun x => f x = ret (g x)) items ->
  py_any f items = ret (existsb g items).
Proof.
  induction 1 as [|x items Hx _ IH]; [reflexivity|].
  simpl. rewrite Hx, bind_ret_l. destruct (g x); [reflexivity | exact IH].
Qed.

Lemma server_has_inspected (scheme : string) (server : pyval) (u : string) :
  inspected_url server = Some u ->
  server_has scheme server = ret (contains_substring scheme u).
Proof.
  unfold inspected_url, server_has.
  destruct server as [| b | z | s | l | sd]; try discriminate.
  cbn [py_get]. unfold pdict_get.
  destruct (Dict.get String.eqb "urls" sd) as [[| b | z | s | [|[| b | z | s | l' | d'] l] | d]|];
    try discriminate; intros [= <-]; reflexivity.
Qed.

Lemma py_any_mentions (scheme : string) (servers : list pyval) :
  Forall (fun server => inspected_url server <> None) servers ->
  py_any (server_has scheme) servers = ret (mentions scheme servers).
Proof.
  intros H. unfold mentions. apply py_any_ret.
  induction H as [|server servers Hs _ IH]; constructor; [|exact IH].
  destruct (inspected_url server) as [u|] eqn:E; [|now elim Hs].
  now apply server_has_inspected.
Qed.

Lemma for_enumerate_log_returns (i0 : Z) (items : list pyval) :
  result
    (for_enumerate
       (fun i server =>
          log DEBUG "  ICE Server {i+1}: {server}" [PInt (i + 1); server])
       i0 items)
  = Return tt.
Proof.
  revert i0. induction items as [|x items IH]; intros i0; [reflexivity|].
  cbn [for_enumerate]. rewrite result_bind. cbn [result log emit snd].
  apply IH.
Qed.

(** Runs the result of a computation as far as its steps are known. *)
Ltac run_result :=
  repeat
    (progress
       (rewrite ?result_bind;
        cbn [result ret raise snd log emit lift_outcome py_len py_iter py_in
               py_getitem py_get])).

Section ConfigMore.

Variable http_get : string -> outcome ClientResponse.
Variable http_post : string -> pyval -> outcome ClientResponse.
Variable time_now : Z.
Variable base_url : string.

Lemma test_config_endpoint_well_shaped (response : ClientResponse)
  (config : pyval) :
  http_get (base_url ++ "/openavatarchat/initconfig") = Return response ->
  resp_status response = 200 ->
  resp_json response = Return config ->
  well_shaped_config config = true ->
  result (test_config_endpoint http_get base_url) = Return config.
Proof.
  intros Hget Hstatus Hjson Hshape.
  unfold test_config_endpoint, session_get.
  rewrite result_bind. cbn [result log emit snd].
  rewrite result_try_except. run_result.
  rewrite Hget. run_result. rewrite Hstatus. cbn [Z.eqb Pos.eqb].
  run_result. rewrite Hjson. run_result.
  destruct config as [| b | z | s | l | d]; try discriminate Hshape.
  unfold well_shaped_config in Hshape. run_result. unfold Dict.mem.
  destruct (Dict.get String.eqb "rtc_configuration" d) as [rtc|] eqn:G;
    [|now run_result].
  destruct rtc as [| b | z | s | l | rd]; try discriminate Hshape.
  run_result. rewrite ?G. run_result. unfold Dict.mem.
  destruct (Dict.get String.eqb "iceServers" rd) as [ice|] eqn:G';
    [|now run_result].
  destruct ice as [| b | z | s | l | d']; try discriminate Hshape.
  run_result. rewrite ?G'. run_result.
  now rewrite for_enumerate_log_returns.
Qed.

(** X16.  The configuration probe never raises and returns either [None] or
    the decoded body of an answer with status 200; it returns [None] when
    the request fails or the status is not 200, and it returns the body
    whenever that is well shaped (an object whose [rtc_configuration], if
    any, is an object whose [iceServers], if any, is a list). *)
Theorem test_config_endpoint_spec :
  (exists config,
     result (test_config_endpoint http_get base_url) = Return config
     /\ (config = PNone
         \/ exists response,
              http_get (base_url ++ "/openavatarchat/initconfig")
              = Return response
              /\ resp_status response = 200
              /\ resp_json response = Return config))
  /\ ((forall response,
         http_get (base_url ++ "/openavatarchat/initconfig") = Return response ->
         resp_status response <> 200) ->
      result (test_config_endpoint http_get base_url) = Return PNone)
  /\ (forall response config,
        http_get (base_url ++ "/openavatarchat/initconfig") = Return response ->
        resp_status response = 200 ->
        resp_json response = Return config ->
        well_shaped_config config = true ->
        result (test_config_endpoint http_get base_url) = Return config).
Proof.
  split; [|split].
  - destruct (test_config_endpoint_returns http_get base_url) as [c Hc].
    exists c. split; [exact Hc|].
    unfold test_config_endpoint in Hc. rewrite result_bind in Hc.
    cbn [result log emit snd] in Hc. rewrite result_try_except in Hc.
    match type of Hc with
    | match result ?body with _ => _ end = _ =>
        destruct (result body) as [a|e] eqn:B
    end;
      [|cbn in Hc; left; now injection Hc as <-].
    injection Hc as ->.
    apply result_bind_inv in B. destruct B as (response & B1 & B2).
    unfold session_get in B1. rewrite result_bind in B1.
    cbn [result emit snd lift_outcome] in B1.
    destruct (Z.eqb_spec (resp_status response) 200) as [Hs|_];
      [|cbn in B2; left; now injection B2 as <-].
    apply result_bind_inv in B2. destruct B2 as (config & B2 & B3).
    apply result_bind_inv in B3. destruct B3 as (u1 & _ & B3).
    apply result_bind_inv in B3. destruct B3 as (u2 & _ & B3).
    apply result_bind_inv in B3. destruct B3 as (has_rtc & _ & B3).
    apply result_bind_ret in B3. subst c.
    right. now exists response.
  - intros Hbad.
    unfold test_config_endpoint, session_get, lift_outcome.
    rewrite result_bind. cbn [result log emit snd].
    rewrite result_try_except, !result_bind. cbn [result emit snd].
    destruct (http_get (base_url ++ "/openavatarchat/initconfig"))
      as [response|e] eqn:Hget; cbn [result snd any_Exception];
      [|reflexivity].
    destruct (Z.eqb_spec (resp_status response) 200) as [Hs|_];
      [now elim (Hbad response eq_refl)|].
    rewrite result_bind. reflexivity.
  - apply test_config_endpoint_well_shaped.
Qed.

End ConfigMore.

(** What [check_common_issues] does with a configuration whose ICE servers
    form a non-empty list. *)
Lemma check_common_issues_servers (config : pyval)
  (d rd : list (string * pyval)) (servers : list pyval) :
  config = PDict d ->
  pdict_get "rtc_configuration" (PDict []) d = PDict rd ->
  pdict_get "iceServers" (PList []) rd = PList servers ->
  servers <> [] ->
  check_common_issues config
  = (log INFO "Checking for common issues..." [] ;;
     has_stun <- py_any (server_has "stun:") servers ;;
     has_turn <- py_any (server_has "turn:") servers ;;
     emit (stun_line has_stun) ;;
     emit (turn_line has_turn)).
Proof.
  intros -> Hrtc Hice Hne. unfold check_common_issues.
  assert (Hd : truthy (PDict d) = true).
  { destruct d; [|reflexivity]. cbn in Hrtc. injection Hrtc as <-.
    cbn in Hice. injection Hice as <-. now elim Hne. }
  rewrite Hd. cbn [negb py_get]. rewrite bind_ret_l, Hrtc.
  cbn [py_get]. rewrite bind_ret_l, Hice.
  assert (Hs : truthy (PList servers) = true)
    by (destruct servers; [now elim Hne | reflexivity]).
  rewrite Hs. cbn [negb py_iter]. rewrite bind_ret_l.
  unfold bind.
  destruct (py_any (server_has "stun:") servers) as [tr1 [[|]|e1]];
    destruct (py_any (server_has "turn:") servers) as [tr2 [[|]|e2]];
    reflexivity.
Qed.

(** X17.  For a configuration whose [iceServers] is a non-empty list of
    servers of the usual shapes, [check_common_issues] returns normally
    after three lines: its heading, whether some server mentions [stun:],
    and whether some server mentions [turn:].  Of a list-valued [urls] only
    the first entry is looked at. *)
Theorem check_common_issues_detects (config : pyval)
  (d rd : list (string * pyval)) (servers : list pyval) :
  config = PDict d ->
  pdict_get "rtc_configuration" (PDict []) d = PDict rd ->
  pdict_get "iceServers" (PList []) rd = PList servers ->
  servers <> [] ->
  Forall (fun server => inspected_url server <> None) servers ->
  check_common_issues config
  = ([Log INFO "Checking for common issues..." [];
      stun_line (mentions "stun:" servers);
      turn_line (mentions "turn:" servers)],
     Return tt).
Proof.
  intros Hc Hrtc Hice Hne Hall.
  rewrite (check_common_issues_servers Hc Hrtc Hice Hne).
  rewrite !(py_any_mentions _ Hall), !bind_ret_l. reflexivity.
Qed.

Lemma check_common_issues_index_error (config : pyval)
  (d rd sd : list (string * pyval)) (servers : list pyval) :
  config = PDict d ->
  pdict_get "rtc_configuration" (PDict []) d = PDict rd ->
  pdict_get "iceServers" (PList []) rd = PList (PDict sd :: servers) ->
  Dict.get String.eqb "urls" sd = Some (PList []) ->
  check_common_issues config
  = ([Log INFO "Checking for common issues..." []],
     Raise (Exc IndexError "list index out of range")).
Proof.
  intros Hc Hrtc Hice Hurls.
  rewrite (check_common_issues_servers Hc Hrtc Hice) by discriminate.
  cbn [py_any]. unfold server_has at 1. cbn [py_get]. unfold pdict_get.
  rewrite Hurls. reflexivity.
Qed.

Lemma pdict_get_found (key : string) (default v : pyval)
  (d : list (string * pyval)) :
  pdict_get key default d = v -> v <> default ->
  Dict.get String.eqb key d = Some v.
Proof.
  unfold pdict_get. destruct (Dict.get String.eqb key d); intros <- H;
    [reflexivity | now elim H].
Qed.

Section DiagnoseRaises.

Variable http_get : string -> outcome ClientResponse.
Variable http_post : string -> pyval -> outcome ClientResponse.
Variable time_now : Z.
Variable base_url : string.

Lemma test_server_connectivity_result :
  result (test_server_connectivity http_get base_url)
  = Return
      match http_get (base_url ++ "/") with
      | Return response => resp_status response =? 200
      | Raise _ => false
      end.
Proof.
  unfold test_server_connectivity, session_get, lift_outcome.
  destruct (http_get (base_url ++ "/")) as [response|e]; cbn; [|reflexivity].
  destruct (resp_status response =? 200); reflexivity.
Qed.

(** X18.  The checklist is not guarded against a malformed configuration:
    when the server is reachable and its configuration lists a first ICE
    server whose [urls] is an empty list, reading the first entry raises
    [IndexError], which leaves [check_common_issues] and
    [diagnose_webrtc_issues] uncaught. *)
Theorem diagnose_index_error (r1 r2 : ClientResponse)
  (d rd sd : list (string * pyval)) (servers : list pyval) :
  http_get (base_url ++ "/") = Return r1 ->
  resp_status r1 = 200 ->
  http_get (base_url ++ "/openavatarchat/initconfig") = Return r2 ->
  resp_status r2 = 200 ->
  resp_json r2 = Return (PDict d) ->
  pdict_get "rtc_configuration" (PDict []) d = PDict rd ->
  pdict_get "iceServers" (PList []) rd = PList (PDict sd :: servers) ->
  Dict.get String.eqb "urls" sd = Some (PList []) ->
  result (check_common_issues (PDict d))
  = Raise (Exc IndexError "list index out of range")
  /\ result (diagnose_webrtc_issues http_get http_post time_now base_url)
     = Raise (Exc IndexError "list index out of range").
Proof.
  intros H1 S1 H2 S2 J2 Hrtc Hice Hurls.
  pose proof (check_common_issues_index_error eq_refl Hrtc Hice Hurls) as C.
  split; [now rewrite C|].
  assert (Gice : Dict.get String.eqb "iceServers" rd
                 = Some (PList (PDict sd :: servers)))
    by (apply (pdict_get_found _ _ Hice); discriminate).
  assert (Grtc : Dict.get String.eqb "rtc_configuration" d = Some (PDict rd)).
  { apply (pdict_get_found _ _ Hrtc). intros [= ->]. discriminate Gice. }
  assert (Hshape : well_shaped_config (PDict d) = true)
    by (unfold well_shaped_config; now rewrite Grtc, Gice).
  assert (Htruthy : truthy (PDict d) = true)
    by (destruct d; [discriminate Grtc | reflexivity]).
  unfold diagnose_webrtc_issues.
  rewrite result_bind. cbn [result log emit snd].
  rewrite result_bind, test_server_connectivity_result, H1, S1.
  cbn [Z.eqb Pos.eqb negb].
  rewrite result_bind,
    (test_config_endpoint_well_shaped http_get base_url H2 S2 J2 Hshape).
  rewrite Htruthy. cbn [negb]. rewrite result_bind.
  destruct (test_webrtc_offer_endpoint_returns http_post time_now base_url)
    as [b ->].
  rewrite result_bind.
  assert (Q : result (if negb b
                      then log ERROR "❌ WebRTC offer endpoint test failed" []
                      else ret tt) = Return tt) by now destruct b.
  rewrite Q, result_bind, C. reflexivity.
Qed.

End DiagnoseRaises.

(** ** The entry points *)

Section ServerMainFacts.

Variable AIORTC_AVAILABLE : bool.
Variable load_cert_chain : string -> string -> outcome unit.

(** X19.  [main] always reaches [web.run_app]: it asks for TLS exactly when
    [--ssl] was given and the certificate chain (the given files, or the
    ones under [ssl_certs/]) loaded; a chain that fails to load is logged as
    an error and the server falls back to plain HTTP.  Host and port are
    passed on unchanged. *)
Theorem server_main_starts (args : Args) :
  let cert_file := or_default (args_cert args) "ssl_certs/localhost.crt" in
  let key_file := or_default (args_key args) "ssl_certs/localhost.key" in
  result (server_main AIORTC_AVAILABLE load_cert_chain args)
  = Return
      {| run_host := args_host args;
         run_port := args_port args;
         run_ssl_context :=
           if args_ssl args then
             match load_cert_chain cert_file key_file with
             | Return _ => Some (cert_file, key_file)
             | Raise _ => None
             end
           else None;
         root_level := if args_debug args then DEBUG else INFO |}
  /\ (forall e,
        args_ssl args = true ->
        load_cert_chain cert_file key_file = Raise e ->
        logged ERROR
          (events (server_main AIORTC_AVAILABLE load_cert_chain args))
        = ["❌ Failed to load SSL certificates: {e}"]
        /\ In (Log INFO "💡 Continuing without SSL..." [])
             (events (server_main AIORTC_AVAILABLE load_cert_chain args))).
Proof.
  cbv zeta. unfold server_main.
  destruct (args_ssl args); [|split; [|discriminate]].
  - destruct (load_cert_chain _ _) as [[]|e] eqn:L.
    + split; [|discriminate].
      destruct AIORTC_AVAILABLE; reflexivity.
    + split; [destruct AIORTC_AVAILABLE; reflexivity|].
      intros e' _ [= <-].
      destruct AIORTC_AVAILABLE; cbn; (split; [reflexivity | auto]).
  - destruct AIORTC_AVAILABLE; reflexivity.
Qed.

End ServerMainFacts.

Section ClientMainFacts.

Variable http_get : string -> outcome ClientResponse.
Variable http_post : string -> pyval -> outcome ClientResponse.
Variable time_now : Z.

Lemma test_server_connectivity_requests (base_url : string) :
  requests (events (test_server_connectivity http_get base_url))
  = [("GET", base_url ++ "/")].
Proof.
  unfold test_server_connectivity, session_get, lift_outcome.
  destruct (http_get (base_url ++ "/")) as [response|e]; cbn; [|reflexivity].
  destruct (resp_status response =? 200); reflexivity.
Qed.

Lemma requests_log_bind {A} (l : level) (fmt : string) (args : list pyval)
  (m : M A) :
  requests (events (log l fmt args ;; m)) = requests (events m).
Proof. rewrite events_bind. reflexivity. Qed.

Lemma requests_bind_head {A B} (m : M A) (k : A -> M B) :
  exists more,
    requests (events (bind m k)) = (requests (events m) ++ more)%list.
Proof. rewrite events_bind, requests_app. eauto. Qed.

Lemma client_run_first_request (base_url : string) :
  exists more,
    requests (events (client_run http_get http_post time_now base_url))
    = ("GET", debugger_base_url base_url ++ "/") :: more.
Proof.
  unfold client_run. rewrite !requests_log_bind.
  destruct (requests_bind_head
              (debug_session http_get http_post time_now base_url)
              (fun _ => ret Diagnosed)) as [m1 ->].
  unfold debug_session.
  destruct (requests_bind_head
              (diagnose_webrtc_issues http_get http_post time_now
                 (debugger_base_url base_url))
              (fun _ => test_datachannel_states)) as [m2 ->].
  unfold diagnose_webrtc_issues. rewrite requests_log_bind.
  match goal with
  | |- context [requests (events (bind ?m ?k))] =>
      destruct (requests_bind_head m k) as [m3 ->]
  end.
  rewrite test_server_connectivity_requests. simpl. eexists. reflexivity.
Qed.

(** X20.  The client's [main]: a help flag as first argument prints the
    usage text and does nothing else (no log line, no request); otherwise
    the first request goes to the base URL (the first argument, or
    [http://localhost:8080] without one) stripped of its trailing slashes
    and followed by one slash. *)
Theorem client_main_spec (prog : string) :
  (forall arg rest,
     is_help_flag arg = true ->
     client_main http_get http_post time_now (prog :: arg :: rest)
     = ([], Return (PrintedUsage usage_text)))
  /\ (forall arg rest,
        is_help_flag arg = false ->
        exists more,
          requests
            (events
               (client_main http_get http_post time_now (prog :: arg :: rest)))
          = ("GET", debugger_base_url arg ++ "/") :: more)
  /\ (exists more,
        requests (events (client_main http_get http_post time_now [prog]))
        = ("GET", "http://localhost:8080/") :: more).
Proof.
  split; [|split].
  - intros arg rest H. unfold client_main. now rewrite H.
  - intros arg rest H. unfold client_main. rewrite H.
    apply client_run_first_request.
  - unfold client_main. apply client_run_first_request.
Qed.

End ClientMainFacts.

(** ** The indented JSON text *)

Module JsonIndentFacts.
Import Json JsonFacts JsonIndent.

Lemma skip_ws_spaces (n : nat) (s : string) :
  skip_ws (spaces n ++ s) = skip_ws s.
Proof. induction n as [|n IH]; [reflexivity | exact IH]. Qed.

Lemma skip_ws_newline_indent (level : nat) (s : string) :
  skip_ws (newline_indent level ++ s) = skip_ws s.
Proof. unfold newline_indent. cbn [append]. apply skip_ws_spaces. Qed.

Lemma skip_ws_value_start (c : ascii) (r : string) :
  value_start c = true -> skip_ws (String c r) = String c r.
Proof.
  unfold value_start. intros H. apply andb_prop in H. destruct H as [H _].
  apply andb_prop in H. destruct H as [H _]. apply negb_true_iff in H.
  simpl. now rewrite H.
Qed.

Lemma parse_value_skip (fuel : nat) (s s' : string) :
  skip_ws s = skip_ws s' -> parse_value fuel s = parse_value fuel s'.
Proof. intros H. destruct fuel; [reflexivity|]. simpl. now rewrite H. Qed.

Lemma parse_elems_skip (fuel : nat) (s s' : string) :
  skip_ws s = skip_ws s' -> parse_elems fuel s = parse_elems fuel s'.
Proof.
  intros H. destruct fuel; [reflexivity|]. simpl.
  now rewrite (@parse_value_skip fuel _ _ H).
Qed.

Lemma parse_members_skip (fuel : nat) (s s' : string) :
  skip_ws s = skip_ws s' -> parse_members fuel s = parse_members fuel s'.
Proof. intros H. destruct fuel; [reflexivity|]. simpl. now rewrite H. Qed.

Lemma dumps_at_list (level : nat) (x : pyval) (l : list pyval) :
  dumps_at level (PList (x :: l))
  = "[" ++ newline_indent (S level) ++ dumps_at (S level) x ++
    indent_more level l.
Proof.
  cbn [dumps_at]. do 3 f_equal.
  induction l as [|y l IH]; [reflexivity|].
  cbn [indent_more]. now rewrite <- IH.
Qed.

Lemma dumps_at_dict (level : nat) (k : string) (x : pyval)
  (d : list (string * pyval)) :
  dumps_at level (PDict ((k, x) :: d))
  = "{" ++ newline_indent (S level) ++ quote k ++ ": " ++
    dumps_at (S level) x ++ indent_more_members level d.
Proof.
  cbn [dumps_at]. do 5 f_equal.
  induction d as [|[k' y] d IH]; [reflexivity|].
  cbn [indent_more_members]. now rewrite <- IH.
Qed.

Lemma dumps_at_scalar (level : nat) (v : pyval) :
  match v with PList (_ :: _) | PDict (_ :: _) => False | _ => True end ->
  dumps_at level v = Json.dumps v.
Proof. destruct v as [| b | z | s | [|x l] | [|[k x] d]]; now intros. Qed.

Lemma dumps_at_head (level : nat) (v : pyval) :
  exists c r, dumps_at level v = String c r /\ value_start c = true.
Proof.
  destruct v as [| b | z | s | [|x l] | [|[k x] d]];
    try (rewrite dumps_at_scalar by exact I; apply dumps_head);
    eexists; eexists; split; reflexivity.
Qed.

Lemma value_start_not_close (c : ascii) :
  value_start c = true -> Ascii.eqb c "]" = false /\ Ascii.eqb c "}" = false.
Proof.
  unfold value_start. intros H. apply andb_prop in H. destruct H as [H H2].
  apply andb_prop in H. destruct H as [_ H1].
  apply negb_true_iff in H1, H2. now split.
Qed.

Lemma parse_value_open_list_ws (f : nat) (r r0 : string) (c : ascii) :
  skip_ws r = String c r0 -> Ascii.eqb c "]" = false ->
  parse_value (S f) (String "[" r)
  = match parse_elems f r with
    | Some (l, r'') => Some (PList l, r'')
    | None => None
    end.
Proof.
  intros H Hc.
  change (parse_value (S f) (String "[" r))
    with (match skip_ws r with
          | EmptyString => None
          | String c' r' =>
              if Ascii.eqb c' "]" then Some (PList [], r')
              else
                match parse_elems f r with
                | Some (l, r'') => Some (PList l, r'')
                | None => None
                end
          end).
  now rewrite H, Hc.
Qed.

Lemma parse_value_open_dict_ws (f : nat) (r r0 : string) (c : ascii) :
  skip_ws r = String c r0 -> Ascii.eqb c "}" = false ->
  parse_value (S f) (String "{" r)
  = match parse_members f r with
    | Some (d, r'') => Some (PDict (Dict.of_pairs String.eqb d), r'')
    | None => None
    end.
Proof.
  intros H Hc.
  change (parse_value (S f) (String "{" r))
    with (match skip_ws r with
          | EmptyString => None
          | String c' r' =>
              if Ascii.eqb c' "}" then Some (PDict [], r')
              else
                match parse_members f r with
                | Some (d, r'') =>
                    Some (PDict (Dict.of_pairs String.eqb d), r'')
                | None => None
                end
          end).
  now rewrite H, Hc.
Qed.

Lemma parse_elems_last_ws (f : nat) (s r r' : string) (v : pyval) :
  parse_value f s = Some (v, r) -> skip_ws r = String "]" r' ->
  parse_elems (S f) s = Some ([v], r').
Proof. intros H Hr. simpl. rewrite H, Hr. reflexivity. Qed.

Lemma int_stop_indent_more (level : nat) (l : list pyval) (rest : string) :
  int_stop (indent_more level l ++ rest) = true.
Proof. destruct l; reflexivity. Qed.

Lemma int_stop_indent_more_members (level : nat) (d : list (string * pyval))
  (rest : string) :
  int_stop (indent_more_members level d ++ rest) = true.
Proof. destruct d as [|[k x] d]; reflexivity. Qed.

Lemma indent_more_cons (level : nat) (y : pyval) (l : list pyval)
  (rest : string) :
  indent_more level (y :: l) ++ rest
  = String ","
      (newline_indent (S level) ++ dumps_at (S level) y ++
       indent_more level l ++ rest).
Proof.
  cbn [indent_more append]. now rewrite !append_assoc.
Qed.

Lemma indent_more_members_cons (level : nat) (k : string) (y : pyval)
  (d : list (string * pyval)) (rest : string) :
  indent_more_members level ((k, y) :: d) ++ rest
  = String ","
      (newline_indent (S level) ++ quote k ++ ": " ++ dumps_at (S level) y ++
       indent_more_members level d ++ rest).
Proof.
  cbn [indent_more_members append]. rewrite !append_assoc. cbn [append].
  now rewrite !append_assoc.
Qed.

Lemma indent_more_nil (level : nat) (rest : string) :
  skip_ws (indent_more level [] ++ rest) = String "]" rest.
Proof.
  cbn [indent_more]. rewrite append_assoc, skip_ws_newline_indent.
  reflexivity.
Qed.

Lemma indent_more_members_nil (level : nat) (rest : string) :
  skip_ws (indent_more_members level [] ++ rest) = String "}" rest.
Proof.
  cbn [indent_more_members]. rewrite append_assoc, skip_ws_newline_indent.
  reflexivity.
Qed.

Lemma parse_elems_indented (level : nat) (l : list pyval) :
  Forall roundtrips_indented l -> forallb pyval_wf l = true ->
  forall x, roundtrips_indented x -> pyval_wf x = true ->
  forall fuel rest,
    (size_list (x :: l) <= fuel)%nat ->
    parse_elems fuel
      (newline_indent (S level) ++ dumps_at (S level) x ++
       indent_more level l ++ rest)
    = Some (x :: l, rest).
Proof.
  induction l as [|y l IH]; intros HF Hwf x Hx Hwx fuel rest Hfuel;
    (destruct fuel as [|f]; [simpl in Hfuel; lia|]);
    simpl size_list in Hfuel;
    rewrite (@parse_elems_skip (S f) _ _ (skip_ws_newline_indent (S level) _)).
  - apply parse_elems_last_ws with (r := indent_more level [] ++ rest).
    + apply (Hx Hwx); [lia | apply int_stop_indent_more].
    + apply indent_more_nil.
  - inversion HF as [|? ? Hy HF']; subst.
    simpl in Hwf. apply andb_prop in Hwf. destruct Hwf as [Hwy Hwl].
    rewrite indent_more_cons.
    rewrite (@parse_elems_step f _
               (newline_indent (S level) ++ dumps_at (S level) y ++
                indent_more level l ++ rest) x).
    + rewrite (IH HF' Hwl y Hy Hwy); [reflexivity|]. simpl. lia.
    + rewrite <- indent_more_cons.
      apply (Hx Hwx); [lia | apply int_stop_indent_more].
Qed.

Lemma parse_members_last_ws (f : nat) (body r2 r3 r4 k : string) (v : pyval) :
  parse_chars body = Some (k, String ":" r2) ->
  parse_value f r2 = Some (v, r3) ->
  skip_ws r3 = String "}" r4 ->
  parse_members (S f) (String dquote body) = Some ([(k, v)], r4).
Proof.
  intros H1 H2 H3.
  change (parse_members (S f) (String dquote body))
    with (match parse_chars body with
          | Some (k, r1) =>
              match skip_ws r1 with
              | EmptyString => None
              | String c1 r2 =>
                  if Ascii.eqb c1 ":" then
                    match parse_value f r2 with
                    | Some (v, r3) =>
                        match skip_ws r3 with
                        | EmptyString => None
                        | String c3 r4 =>
                            if Ascii.eqb c3 "," then
                              match parse_members f r4 with
                              | Some (d, r5) => Some ((k, v) :: d, r5)
                              | None => None
                              end
                            else if Ascii.eqb c3 "}" then Some ([(k, v)], r4)
                            else None
                        end
                    | None => None
                    end
                  else None
              end
          | None => None
          end).
  rewrite H1. simpl. rewrite H2, H3. reflexivity.
Qed.

Lemma parse_members_indented (level : nat) (d : list (string * pyval)) :
  Forall (fun kv => roundtrips_indented (snd kv)) d -> wf_members d = true ->
  forall k x, roundtrips_indented x -> pyval_wf x = true ->
  forall fuel rest,
    (size_members ((k, x) :: d) <= fuel)%nat ->
    parse_members fuel
      (newline_indent (S level) ++ quote k ++ ": " ++
       dumps_at (S level) x ++ indent_more_members level d ++ rest)
    = Some ((k, x) :: d, rest).
Proof.
  induction d as [|[k' y] d IH]; intros HF Hwf k x Hx Hwx fuel rest Hfuel;
    (destruct fuel as [|f]; [simpl in Hfuel; lia|]);
    simpl size_members in Hfuel;
    rewrite (@parse_members_skip (S f) _ _
               (skip_ws_newline_indent (S level) _));
    rewrite quote_app.
  - apply (@parse_members_last_ws f _
             (String " "
                (dumps_at (S level) x ++
                 indent_more_members level [] ++ rest))
             (indent_more_members level [] ++ rest) rest).
    + apply parse_chars_escape.
    + rewrite parse_value_space.
      apply (Hx Hwx); [lia | apply int_stop_indent_more_members].
    + apply indent_more_members_nil.
  - inversion HF as [|? ? Hy HF']; subst. simpl in Hy.
    simpl in Hwf. apply andb_prop in Hwf. destruct Hwf as [Hwy Hwl].
    rewrite indent_more_members_cons.
    rewrite (@parse_members_step f _
               (String " "
                  (dumps_at (S level) x ++
                   String ","
                     (newline_indent (S level) ++ quote k' ++ ": " ++
                      dumps_at (S level) y ++
                      indent_more_members level d ++ rest)))
               (newline_indent (S level) ++ quote k' ++ ": " ++
                dumps_at (S level) y ++ indent_more_members level d ++ rest)
               k x).
    + rewrite (IH HF' Hwl k' y Hy Hwy); [reflexivity|]. simpl. lia.
    + apply parse_chars_escape.
    + rewrite parse_value_space, <- indent_more_members_cons.
      apply (Hx Hwx); [lia | apply int_stop_indent_more_members].
Qed.

(** Every well-formed value parses back from its indented text. *)
Lemma parse_value_indented : forall v, roundtrips_indented v.
Proof.
  induction v as [| b | z | s | l HF | d HF] using pyval_ind;
    intros Hwf level fuel rest Hfuel Hstop;
    (destruct fuel as [|f]; [simpl in Hfuel; lia|]);
    try (rewrite dumps_at_scalar by exact I;
         apply parse_value_scalar; [exact I | exact Hstop]).
  - destruct l as [|x l]; [reflexivity|].
    inversion HF as [|? ? Hx HF']; subst.
    simpl in Hwf. apply andb_prop in Hwf. destruct Hwf as [Hwx Hwl].
    rewrite size_PList in Hfuel. rewrite dumps_at_list.
    destruct (dumps_at_head (S level) x) as (c & r & E & Hc).
    destruct (value_start_not_close c Hc) as [Hc1 _].
    pose proof (@parse_elems_indented level l HF' Hwl x Hx Hwx f rest) as P.
    cbn [append]. rewrite !append_assoc.
    rewrite (@parse_value_open_list_ws f _
               (r ++ indent_more level l ++ rest) c).
    + rewrite P; [reflexivity | lia].
    + rewrite skip_ws_newline_indent, E. cbn [append].
      now apply skip_ws_value_start.
    + exact Hc1.
  - destruct d as [|[k x] d]; [reflexivity|].
    inversion HF as [|? ? Hx HF']; subst. simpl in Hx.
    rewrite pyval_wf_PDict in Hwf. apply andb_prop in Hwf.
    destruct Hwf as [Hkeys Hwf].
    simpl in Hwf. apply andb_prop in Hwf. destruct Hwf as [Hwx Hwd].
    rewrite size_PDict in Hfuel. rewrite dumps_at_dict.
    pose proof (@parse_members_indented level d HF' Hwd k x Hx Hwx f rest)
      as P.
    cbn [append]. rewrite !append_assoc. cbn [append].
    rewrite !append_assoc. cbn [append] in P.
    erewrite parse_value_open_dict_ws;
      [ | rewrite skip_ws_newline_indent, quote_app; reflexivity
        | reflexivity ].
    rewrite P; [|lia].
    rewrite (dict_of_pairs_wf String.eqb String.eqb_eq _ Hkeys).
    reflexivity.
Qed.

Lemma indent_list_le (level : nat) (l : list pyval) :
  Forall (fun v => forall n, (size v <= String.length (dumps_at n v))%nat) l ->
  (S (size_list l) <= String.length (indent_more level l))%nat.
Proof.
  induction 1 as [|y l Hy _ IH]; cbn [size_list indent_more].
  - rewrite length_append. simpl. lia.
  - specialize (Hy (S level)).
    repeat (cbn [append String.length]; rewrite ?length_append). lia.
Qed.

Lemma indent_members_le (level : nat) (d : list (string * pyval)) :
  Forall (fun kv => forall n,
            (size (snd kv) <= String.length (dumps_at n (snd kv)))%nat) d ->
  (S (size_members d) <= String.length (indent_more_members level d))%nat.
Proof.
  induction 1 as [|[k y] d Hy _ IH]; cbn [size_members indent_more_members snd] in *.
  - rewrite length_append. simpl. lia.
  - specialize (Hy (S level)).
    repeat (cbn [append String.length]; rewrite ?length_append). lia.
Qed.

Lemma size_le_length_indented (v : pyval) :
  forall level, (size v <= String.length (dumps_at level v))%nat.
Proof.
  induction v as [| b | z | s | l HF | d HF] using pyval_ind; intros level;
    try (rewrite dumps_at_scalar by exact I; apply size_le_length).
  - destruct l as [|x l]; [simpl; lia|].
    inversion HF as [|? ? Hx HF']; subst. specialize (Hx (S level)).
    rewrite dumps_at_list, size_PList.
    pose proof (indent_list_le level HF').
    cbn [size_list].
    repeat (cbn [append String.length]; rewrite ?length_append). lia.
  - destruct d as [|[k x] d]; [simpl; lia|].
    inversion HF as [|? ? Hx HF']; subst. simpl in Hx.
    specialize (Hx (S level)).
    rewrite dumps_at_dict, size_PDict.
    pose proof (indent_members_le level HF').
    cbn [size_members].
    repeat (cbn [append String.length]; rewrite ?length_append). lia.
Qed.

End JsonIndentFacts.

(** [json.loads(json.dumps(v, indent=2)) == v] *)
Lemma loads_dumps_indented (v : pyval) :
  pyval_wf v = true -> Json.loads (JsonIndent.dumps v) = Some v.
Proof.
  intros Hwf. unfold Json.loads, JsonIndent.dumps.
  pose proof (@JsonIndentFacts.parse_value_indented v Hwf 0%nat
                (S (String.length (JsonIndent.dumps_at 0 v))) ""
                ltac:(pose proof (JsonIndentFacts.size_le_length_indented v 0);
                      lia) eq_refl) as P.
  rewrite JsonFacts.append_nil_r in P. rewrite P. reflexivity.
Qed.

(** ** The client in front of the server *)

Lemma key_vals_wf (ks : list pykey) :
  forallb pyval_wf (List.map key_val ks) = true.
Proof.
  induction ks as [|k ks IH]; [reflexivity|].
  simpl. rewrite IH. now destruct k.
Qed.

Lemma status_payload_wf (AIORTC_AVAILABLE : bool) (self : WebRTCTestServer)
  (now : string) :
  pyval_wf (status_payload AIORTC_AVAILABLE self now) = true.
Proof.
  unfold status_payload. rewrite JsonFacts.pyval_wf_PDict.
  apply andb_true_intro. split; [reflexivity|].
  cbn [Json.wf_members pyval_wf andb]. now rewrite key_vals_wf.
Qed.

(** The client decodes a body the model knows the value of. *)
Lemma client_view_decodes (r : Response) (v : pyval) :
  response_content_type r = "application/json" ->
  is_blank (text r) = false ->
  (131072 <=? leading_brackets (text r)) = false ->
  expecting_value (text r) = false ->
  Json.loads (text r) = Some v ->
  within_limits v = true ->
  resp_json (client_view r) = Return v.
Proof.
  intros Hct Hblank Hdeep Hval Hloads Hlim. unfold client_view, py_json_loads.
  cbn [resp_json]. now rewrite Hct, Hblank, Hdeep, Hval, Hloads, Hlim.
Qed.

(** X21.  [GET /status] is answered with status 200 and a JSON body that
    decodes to an object whose [connections] and [data_channels] are the
    sizes of the two registries and whose [active_sessions] lists the ids of
    the registered channels in registration order, in every state of the
    server. *)
Theorem handle_status_body_decodes (AIORTC_AVAILABLE : bool)
  (self : WebRTCTestServer) (request : Request) (now : string) :
  let response := handle_status AIORTC_AVAILABLE self request now in
  status response = 200
  /\ response_content_type response = "application/json"
  /\ exists d,
       Json.loads (text response) = Some (PDict d)
       /\ Dict.get String.eqb "connections" d
          = Some (PInt (Dict.len (connections self)))
       /\ Dict.get String.eqb "data_channels" d
          = Some (PInt (Dict.len (data_channels self)))
       /\ Dict.get String.eqb "active_sessions" d
          = Some (PList (List.map key_val (Dict.keys (data_channels self))))
       /\ Dict.get String.eqb "aiortc_available" d
          = Some (PBool AIORTC_AVAILABLE).
Proof.
  cbv zeta. split; [reflexivity | split; [reflexivity|]].
  unfold handle_status, json_response. cbn [text].
  rewrite (loads_dumps_indented _
             (status_payload_wf AIORTC_AVAILABLE self now)).
  eexists. split; [reflexivity|]. repeat split.
Qed.

Lemma config_payload_wf (now : string) : pyval_wf (config_payload now) = true.
Proof. reflexivity. Qed.

Lemma logged_app (l : level) (tr tr' : trace) :
  logged l (tr ++ tr')%list = (logged l tr ++ logged l tr')%list.
Proof.
  induction tr as [|ev tr IH]; [reflexivity|].
  destruct ev as [l' fmt args| |]; simpl; [|exact IH|exact IH].
  destruct l, l'; simpl; now rewrite IH.
Qed.

Section Loopback.

Variable http_get : string -> outcome ClientResponse.
Variable http_post : string -> pyval -> outcome ClientResponse.
Variable time_now : Z.
Variable base_url : string.

(** The client's view of the configuration the server builds. *)
Lemma served_config (request : Request) (now : string) (r : Response) :
  result (handle_config request now) = Return r ->
  resp_status (client_view r) = 200
  /\ resp_json (client_view r) = Return (config_payload now).
Proof.
  intros [= <-]. split; [reflexivity|].
  apply client_view_decodes; try reflexivity.
  apply loads_dumps_indented, config_payload_wf.
Qed.

(** A full run of the checklist in front of a server that answers the index
    and serves the built-in configuration. *)
Lemma diagnose_served (now : string) (r1 r2 r3 : ClientResponse) :
  http_get (base_url ++ "/") = Return r1 ->
  resp_status r1 = 200 ->
  http_get (base_url ++ "/openavatarchat/initconfig") = Return r2 ->
  resp_status r2 = 200 ->
  resp_json r2 = Return (config_payload now) ->
  http_post (base_url ++ "/webrtc/offer") (mock_offer time_now) = Return r3 ->
  let run := diagnose_webrtc_issues http_get http_post time_now base_url in
  result run = Return tt
  /\ probes_run (events run)
     = [Connectivity; Configuration; OfferExchange; CommonIssues]
  /\ logged WARNING (events run)
     = ["⚠️  No TURN servers found - connections through restrictive firewalls may fail"]
  /\ logged ERROR (events run)
     = if resp_status r3 =? 200 then
         match resp_json r3 with
         | Return _ => []
         | Raise _ =>
             ["❌ Failed to test WebRTC offer endpoint: {e}";
              "❌ WebRTC offer endpoint test failed"]
         end
       else
         ["❌ WebRTC offer endpoint returned status {response.status}: {error_text}";
          "❌ WebRTC offer endpoint test failed"].
Proof.
  intros H1 S1 H2 S2 J2 H3. cbv zeta.
  destruct r1 as [st1 js1 tx1], r2 as [st2 js2 tx2], r3 as [st3 js3 tx3].
  cbn [resp_status resp_json] in *. subst st1 st2 js2.
  unfold diagnose_webrtc_issues, test_server_connectivity,
    test_config_endpoint, test_webrtc_offer_endpoint, session_get,
    session_post, lift_outcome.
  rewrite H1, H2, H3.
  cbn -[JsonIndent.dumps].
  destruct (st3 =? 200); [destruct js3 as [answer|e]|];
    repeat split; reflexivity.
Qed.

(** The answer of a server without [aiortc] to any offer, as the client
    sees it. *)
Lemma served_mock_offer (json_loads : string -> outcome pyval)
  (engine_negotiate : pyval -> pyval -> outcome (string * string))
  (request : Request) (uuid4 : string) (self : WebRTCTestServer)
  (r : Response) :
  outcome_of
    (handle_webrtc_offer false json_loads engine_negotiate request uuid4 self)
  = Return r ->
  resp_status (client_view r) = 500.
Proof.
  unfold handle_webrtc_offer, sm_try_except, sm_bind, lift, request_json,
    loads_or_raise, outcome_of.
  destruct (json_loads (body request)) as [data|]; cbn;
    [|now intros [= <-]].
  destruct data as [| b | z | s | l | d]; cbn; try now intros [= <-].
  destruct (pdict_get "webrtc_id" (PStr uuid4) d); cbn; now intros [= <-].
Qed.

(** The answer of a server with [aiortc] to the client's offer when the
    engine rejects it, and the server it leaves. *)
Lemma served_rejected_offer (json_loads : string -> outcome pyval)
  (engine_negotiate : pyval -> pyval -> outcome (string * string))
  (uuid4 : string) (self : WebRTCTestServer) (e : pyexc) :
  json_loads (Json.dumps (mock_offer time_now)) = Return (mock_offer time_now) ->
  engine_negotiate (PStr mock_sdp) (PStr "offer") = Raise e ->
  let r := handle_webrtc_offer true json_loads engine_negotiate
             (posted "/webrtc/offer" (mock_offer time_now)) uuid4 self in
  outcome_of r = Return (error_response e)
  /\ state_after r
     = {| connections :=
            Dict.set key_eqb
              (KStr ("debug-test-" ++ Json.string_of_Z time_now))
              (RTCPeerConnection ice_configuration) (connections self);
          data_channels := data_channels self |}.
Proof.
  intros Hloads Hneg. cbv zeta.
  unfold handle_webrtc_offer, sm_try_except, sm_bind, lift, request_json,
    loads_or_raise, outcome_of, state_after, posted.
  cbn [body]. rewrite Hloads.
  unfold mock_offer. cbn -[Json.dumps mock_sdp Json.string_of_Z].
  rewrite Hneg. split; reflexivity.
Qed.

Lemma test_webrtc_offer_endpoint_result :
  result (test_webrtc_offer_endpoint http_post time_now base_url)
  = Return
      match http_post (base_url ++ "/webrtc/offer") (mock_offer time_now) with
      | Return response =>
          (resp_status response =? 200)
          && match resp_json response with
             | Return _ => true
             | Raise _ => false
             end
      | Raise _ => false
      end.
Proof.
  unfold test_webrtc_offer_endpoint, session_post, lift_outcome.
  destruct (http_post (base_url ++ "/webrtc/offer") (mock_offer time_now))
    as [response|e]; cbn -[JsonIndent.dumps mock_offer]; [|reflexivity].
  destruct (resp_status response =? 200); cbn -[JsonIndent.dumps];
    [|reflexivity].
  destruct (resp_json response); reflexivity.
Qed.

(** X22.  The debugger in front of this server's configuration endpoint:
    the probe returns exactly the configuration the server built, and the
    common-issues check then reports a STUN server and warns that there is
    no TURN server. *)
Theorem debugger_reads_served_config (request : Request) (now : string)
  (r : Response) :
  result (handle_config request now) = Return r ->
  http_get (base_url ++ "/openavatarchat/initconfig")
  = Return (client_view r) ->
  result (test_config_endpoint http_get base_url)
  = Return (config_payload now)
  /\ check_common_issues (config_payload now)
     = ([Log INFO "Checking for common issues..." [];
         stun_line true; turn_line false],
        Return tt).
Proof.
  intros Hr Hget. destruct (served_config Hr) as [Hs Hj].
  split; [|reflexivity].
  now apply (test_config_endpoint_well_shaped http_get base_url Hget Hs Hj).
Qed.

(** X23.  The debugger in front of a server without [aiortc]: all four
    probes run and the run ends normally, but the offer probe fails, since
    the server answers every offer with a 500.  The run logs two errors,
    both about the offer, and one warning, about TURN. *)
Theorem debugger_against_mock_server (debug_page : option string)
  (json_loads : string -> outcome pyval)
  (engine_negotiate : pyval -> pyval -> outcome (string * string))
  (index_request config_request offer_request : Request)
  (now uuid4 : string) (self : WebRTCTestServer) (r2 r3 : Response) :
  http_get (base_url ++ "/")
  = Return (client_view (handle_index debug_page index_request)) ->
  result (handle_config config_request now) = Return r2 ->
  http_get (base_url ++ "/openavatarchat/initconfig")
  = Return (client_view r2) ->
  outcome_of
    (handle_webrtc_offer false json_loads engine_negotiate offer_request
       uuid4 self)
  = Return r3 ->
  http_post (base_url ++ "/webrtc/offer") (mock_offer time_now)
  = Return (client_view r3) ->
  let run := diagnose_webrtc_issues http_get http_post time_now base_url in
  result run = Return tt
  /\ probes_run (events run)
     = [Connectivity; Configuration; OfferExchange; CommonIssues]
  /\ logged ERROR (events run)
     = ["❌ WebRTC offer endpoint returned status {response.status}: {error_text}";
        "❌ WebRTC offer endpoint test failed"]
  /\ logged WARNING (events run)
     = ["⚠️  No TURN servers found - connections through restrictive firewalls may fail"].
Proof.
  intros G1 Hr2 G2 Hr3 G3. cbv zeta.
  destruct (served_config Hr2) as [S2 J2].
  pose proof (served_mock_offer _ _ _ _ _ Hr3) as S3.
  assert (S1 : resp_status (client_view (handle_index debug_page index_request))
               = 200) by (unfold handle_index; now destruct debug_page).
  destruct (diagnose_served G1 S1 G2 S2 J2 G3) as (R & P & W & E).
  rewrite S3 in E. repeat split; assumption.
Qed.

(** X24.  The debugger in front of a server with [aiortc] whose engine
    rejects the offer: the server answers with a 500 that carries the
    engine's exception, so the offer probe fails; all four probes run and
    the run ends normally, with two error lines, both about the offer.  The
    server keeps the peer connection it registered for the offer, under the
    id the client chose, [debug-test-<time>]. *)
Theorem debugger_against_engine (debug_page : option string)
  (json_loads : string -> outcome pyval)
  (engine_negotiate : pyval -> pyval -> outcome (string * string))
  (index_request config_request : Request)
  (now uuid4 : string) (self : WebRTCTestServer) (r2 r3 : Response)
  (e : pyexc) :
  let served :=
    handle_webrtc_offer true json_loads engine_negotiate
      (posted "/webrtc/offer" (mock_offer time_now)) uuid4 self in
  http_get (base_url ++ "/")
  = Return (client_view (handle_index debug_page index_request)) ->
  result (handle_config config_request now) = Return r2 ->
  http_get (base_url ++ "/openavatarchat/initconfig")
  = Return (client_view r2) ->
  json_loads (Json.dumps (mock_offer time_now)) = Return (mock_offer time_now) ->
  engine_negotiate (PStr mock_sdp) (PStr "offer") = Raise e ->
  outcome_of served = Return r3 ->
  http_post (base_url ++ "/webrtc/offer") (mock_offer time_now)
  = Return (client_view r3) ->
  let run := diagnose_webrtc_issues http_get http_post time_now base_url in
  result run = Return tt
  /\ probes_run (events run)
     = [Connectivity; Configuration; OfferExchange; CommonIssues]
  /\ logged ERROR (events run)
     = ["❌ WebRTC offer endpoint returned status {response.status}: {error_text}";
        "❌ WebRTC offer endpoint test failed"]
  /\ result (test_webrtc_offer_endpoint http_post time_now base_url)
     = Return false
  /\ r3 = error_response e
  /\ Dict.get key_eqb (KStr ("debug-test-" ++ Json.string_of_Z time_now))
       (connections (state_after served))
     = Some (RTCPeerConnection ice_configuration).
Proof.
  cbv zeta. intros G1 Hr2 G2 Hloads Hneg Hr3 G3.
  destruct (served_rejected_offer json_loads engine_negotiate uuid4 self
              Hloads Hneg) as [O St].
  rewrite O in Hr3. injection Hr3 as <-.
  destruct (served_config Hr2) as [S2 J2].
  assert (S1 : resp_status (client_view (handle_index debug_page index_request))
               = 200) by (unfold handle_index; now destruct debug_page).
  assert (S3 : resp_status (client_view (error_response e)) = 500)
    by reflexivity.
  destruct (diagnose_served G1 S1 G2 S2 J2 G3) as (R & P & _ & E).
  rewrite S3 in E.
  repeat split; [exact R | exact P | exact E | |].
  - rewrite test_webrtc_offer_endpoint_result, G3, S3. reflexivity.
  - rewrite St. cbn [connections]. apply dict_get_set_same.
Qed.

End Loopback.

(** ** Worked examples *)

Lemma test_known_id_single_send_witness :
  py_json_loads (body test_known_s1)
  = Return (PDict [("webrtc_id", PStr "s1")])
  /\ transmitted
       (events
          (handle_datachannel_test py_json_loads str_of two_sessions
             test_known_s1 "now"))
     = [Json.dumps (PDict [("type", PStr "server_test");
                           ("message", PStr "Test message from server")])].
Proof.
  split; [reflexivity|].
  pose proof (@test_known_id_single_send py_json_loads str_of two_sessions
                test_known_s1 "now" [("webrtc_id", PStr "s1")] (KStr "s1")
                MockRTCDataChannel eq_refl eq_refl eq_refl eq_refl eq_refl)
    as H.
  cbv zeta in H. rewrite H. reflexivity.
Defined.

Lemma test_falsy_id_broadcasts_witness :
  Dict.get key_eqb (KStr "") (data_channels unnamed_session)
  = Some MockRTCDataChannel
  /\ transmitted
       (events
          (handle_datachannel_test py_json_loads str_of unnamed_session
             test_empty_id "now"))
     = [Json.dumps (PDict [("type", PStr "broadcast_test");
                           ("message", PStr "Test message from server")])].
Proof.
  split; [reflexivity|].
  rewrite (@test_falsy_id_broadcasts py_json_loads str_of unnamed_session
             test_empty_id "now" [("webrtc_id", PStr "")]
             eq_refl eq_refl eq_refl).
  reflexivity.
Defined.

Lemma handle_webrtc_offer_accepts_witness :
  Dict.keys
    (connections
       (state_after
          (handle_webrtc_offer true py_json_loads accepting_engine offer_s3
             "uuid" two_sessions)))
  = [KStr "s1"; KStr "s2"; KStr "s3"].
Proof.
  pose proof (@handle_webrtc_offer_accepts py_json_loads accepting_engine
                offer_s3 "uuid" two_sessions
                [("webrtc_id", PStr "s3"); ("type", PStr "offer");
                 ("sdp", PStr "v=0")]
                (KStr "s3") "answer" "v=0" eq_refl eq_refl eq_refl) as H.
  cbv zeta in H. destruct H as (_ & _ & H & _). rewrite H. reflexivity.
Defined.

Lemma handle_webrtc_offer_rejects_witness :
  unreadable_offer py_json_loads offer_not_json = true
  /\ state_after
       (handle_webrtc_offer true py_json_loads accepting_engine offer_not_json
          "uuid" two_sessions)
     = two_sessions.
Proof.
  split; [reflexivity|].
  exact (proj1 (@handle_webrtc_offer_rejects py_json_loads accepting_engine true
                  offer_not_json "uuid" two_sessions eq_refl)).
Defined.

Lemma on_message_not_an_object_witness :
  py_json_loads "[1]" = Return (PList [PInt 1])
  /\ events (on_message py_json_loads str_of MockRTCDataChannel "[1]" "id" "now")
     = [Log INFO "📨 Received message: {message}" [PStr "[1]"]].
Proof.
  split; [reflexivity|].
  refine (proj1 (@on_message_not_an_object py_json_loads str_of
                   MockRTCDataChannel "[1]" "id" "now" (PList [PInt 1])
                   eq_refl _)).
  intros d. discriminate.
Defined.

Lemma on_message_test_reports_open_witness :
  let sent :=
    transmitted
      (events
         (on_message py_json_loads str_of MockRTCDataChannel
            (Json.dumps (PDict [("type", PStr "test")])) "id" "now")) in
  In (hd "" sent) sent
  /\ hd "" sent = Json.dumps (test_response (PStr "open") "now").
Proof.
  cbv zeta.
  match goal with
  | |- ?P /\ _ => assert (H : P) by (left; reflexivity)
  end.
  split; [exact H|].
  exact (@on_message_test_reports_open py_json_loads str_of MockRTCDataChannel
           (Json.dumps (PDict [("type", PStr "test")])) "id" "now"
           [("type", PStr "test")] eq_refl eq_refl _ H).
Defined.


Lemma on_datachannel_then_on_close_witness :
  Dict.mem key_eqb (KStr "s3") (data_channels two_sessions) = false
  /\ state_after
       (on_close (KStr "s3")
          (state_after
             (on_datachannel (KStr "s3") MockRTCDataChannel two_sessions)))
     = two_sessions.
Proof.
  split; [reflexivity|].
  exact (@on_datachannel_then_on_close (KStr "s3") MockRTCDataChannel
           two_sessions eq_refl).
Defined.

Lemma other_sessions_undisturbed_witness :
  Dict.get key_eqb (KStr "s2")
    (data_channels (state_after (on_close (KStr "s1") two_sessions)))
  = Some connecting_channel.
Proof.
  rewrite (proj2 (@other_sessions_undisturbed (KStr "s1") (KStr "s2")
                    MockRTCDataChannel two_sessions eq_refl)).
  reflexivity.
Defined.

Lemma check_common_issues_detects_witness :
  check_common_issues listed_urls_config
  = ([Log INFO "Checking for common issues..." [];
      stun_line true; turn_line false],
     Return tt).
Proof.
  refine (@check_common_issues_detects listed_urls_config _ _
            [PDict [("urls", PList [PStr "stun:a"; PStr "turn:b"])]]
            eq_refl eq_refl eq_refl _ _).
  - discriminate.
  - constructor; [discriminate | constructor].
Defined.

Lemma diagnose_index_error_witness :
  result
    (diagnose_webrtc_issues empty_urls_get accepting_post 0
       "http://localhost:8080")
  = Raise (Exc IndexError "list index out of range").
Proof.
  exact (proj2 (@diagnose_index_error empty_urls_get accepting_post 0
                  "http://localhost:8080"
                  {| resp_status := 200; resp_json := Return empty_urls_config;
                     resp_text := "" |}
                  {| resp_status := 200; resp_json := Return empty_urls_config;
                     resp_text := "" |}
                  [("rtc_configuration",
                    PDict [("iceServers", PList [PDict [("urls", PList [])]])])]
                  [("iceServers", PList [PDict [("urls", PList [])]])]
                  [("urls", PList [])] []
                  eq_refl eq_refl eq_refl eq_refl eq_refl eq_refl eq_refl
                  eq_refl)).
Defined.

Lemma debugger_reads_served_config_witness :
  result (test_config_endpoint loopback_get "http://localhost:8080")
  = Return (config_payload "2024-01-01T00:00:00").
Proof.
  exact (proj1 (@debugger_reads_served_config loopback_get
                  "http://localhost:8080" (got "/openavatarchat/initconfig")
                  "2024-01-01T00:00:00" _ eq_refl eq_refl)).
Defined.

Lemma debugger_against_mock_server_witness :
  logged ERROR
    (events
       (diagnose_webrtc_issues loopback_get (loopback_post false) 0
          "http://localhost:8080"))
  = ["❌ WebRTC offer endpoint returned status {response.status}: {error_text}";
     "❌ WebRTC offer endpoint test failed"].
Proof.
  pose proof (@debugger_against_mock_server loopback_get (loopback_post false)
                0 "http://localhost:8080" None py_json_loads accepting_engine
                (got "/") (got "/openavatarchat/initconfig")
                (posted "/webrtc/offer" (mock_offer 0))
                "2024-01-01T00:00:00" "uuid" two_sessions _ _
                eq_refl eq_refl eq_refl eq_refl eq_refl) as H.
  cbv zeta in H. exact (proj1 (proj2 (proj2 H))).
Defined.

Lemma debugger_against_engine_witness :
  logged ERROR
    (events
       (diagnose_webrtc_issues loopback_get (loopback_post true) 0
          "http://localhost:8080"))
  = ["❌ WebRTC offer endpoint returned status {response.status}: {error_text}";
     "❌ WebRTC offer endpoint test failed"]
  /\ Dict.keys
       (connections
          (state_after
             (handle_webrtc_offer true py_json_loads rejecting_engine
                (posted "/webrtc/offer" (mock_offer 0)) "uuid" two_sessions)))
     = [KStr "s1"; KStr "s2"; KStr "debug-test-0"].
Proof.
  pose proof (@debugger_against_engine loopback_get (loopback_post true)
                0 "http://localhost:8080" None py_json_loads rejecting_engine
                (got "/") (got "/openavatarchat/initconfig")
                "2024-01-01T00:00:00" "uuid" two_sessions _ _ _
                eq_refl eq_refl eq_refl eq_refl eq_refl eq_refl eq_refl) as H.
  cbv zeta in H. split; [exact (proj1 (proj2 (proj2 H)))|].
  vm_compute. reflexivity.
Defined.

(** ** What each operation can change *)

Section Frame.

Variable AIORTC_AVAILABLE : bool.
Variable json_loads : string -> outcome pyval.
Variable py_str : pyval -> string.
Variable engine_negotiate : pyval -> pyval -> outcome (string * string).
Variable debug_page : option string.

Lemma handle_webrtc_offer_keeps_channels (request : Request) (uuid4 : string)
  (self : WebRTCTestServer) :
  data_channels
    (state_after
       (handle_webrtc_offer AIORTC_AVAILABLE json_loads engine_negotiate
          request uuid4 self))
  = data_channels self.
Proof.
  unfold handle_webrtc_offer, sm_try_except, sm_bind, lift, request_json,
    loads_or_raise, state_after.
  destruct (json_loads (body request)) as [data|]; cbn; [|reflexivity].
  destruct data as [| b | z | s | l | d]; cbn; try reflexivity.
  destruct (pdict_get "webrtc_id" (PStr uuid4) d); cbn; try reflexivity;
    destruct AIORTC_AVAILABLE; cbn; try reflexivity;
    destruct (engine_negotiate _ _) as [[ty sdp]|e]; reflexivity.
Qed.

Lemma dispatch_keeps_channels (request : Request) (uuid4 now : string)
  (self : WebRTCTestServer) :
  data_channels
    (state_after
       (dispatch AIORTC_AVAILABLE json_loads py_str engine_negotiate
          debug_page request uuid4 now self))
  = data_channels self.
Proof.
  pose proof (handle_webrtc_offer_keeps_channels request uuid4 self) as H.
  unfold dispatch. cbv zeta.
  repeat match goal with
         | |- context [if ?c then _ else _] => destruct c
         end;
    unfold sm_bind, lift, get_self, sm_ret, state_after in *;
    cbn [fst snd]; try reflexivity.
  - now destruct (handle_webrtc_offer _ _ _ _ _ _) as [[tr s] [r|e]].
  - now destruct (handle_datachannel_test _ _ _ _ _) as [tr [r|e]].
  - now destruct debug_page.
Qed.

Lemma step_frame (o : op) (self : WebRTCTestServer) :
  let self' :=
    state_after
      (step AIORTC_AVAILABLE json_loads py_str engine_negotiate debug_page o
         self) in
  match o with
  | DataChannelEvent _ _ | CloseEvent _ => connections self' = connections self
  | HttpOp _ _ _ => data_channels self' = data_channels self
  | OpenEvent _ _ | MessageEvent _ _ _ _ => self' = self
  end.
Proof.
  cbv zeta. destruct o as [request uuid4 now | k ch | k ch | ch msg uuid4 now | k];
    cbn [step].
  - apply dispatch_keeps_channels.
  - reflexivity.
  - unfold sm_bind, lift, state_after.
    now destruct (on_open k ch) as [tr [r|e]].
  - unfold sm_bind, lift, state_after.
    now destruct (on_message _ _ _ _ _ _) as [tr [r|e]].
  - unfold sm_bind. rewrite on_close_eq. unfold state_after.
    now destruct (Dict.mem key_eqb k (data_channels self)).
Qed.

Lemma run_keeps_channels (ops : list op) :
  forallb (fun o => negb (channel_event o)) ops = true ->
  forall self,
    data_channels
      (snd (run AIORTC_AVAILABLE json_loads py_str engine_negotiate debug_page
              ops self))
    = data_channels self.
Proof.
  induction ops as [|o ops IH]; intros Hops self; [reflexivity|].
  cbn [forallb] in Hops. apply andb_prop in Hops. destruct Hops as [Ho Hops].
  pose proof (step_frame o self) as F. cbv zeta in F.
  cbn [run]. unfold state_after in F.
  destruct (step _ _ _ _ _ o self) as [[tr s1] r]. cbn [fst snd] in F.
  specialize (IH Hops s1).
  destruct (run _ _ _ _ _ ops s1) as [tr' s2]. cbn [snd] in *.
  rewrite IH. destruct o; try discriminate Ho; [exact F | now rewrite F..].
Qed.

(** X25.  What an operation can change.  The channel registry is changed by
    the [datachannel] and [close] callbacks alone: no HTTP request, [open]
    event or message attaches or removes a channel, so a run without those
    two callbacks ends with the channels it started with.  The connection
    registry is changed by HTTP requests alone. *)
Theorem registries_frame (o : op) (self : WebRTCTestServer) :
  let self' :=
    state_after
      (step AIORTC_AVAILABLE json_loads py_str engine_negotiate debug_page o
         self) in
  match o with
  | DataChannelEvent _ _ | CloseEvent _ => connections self' = connections self
  | HttpOp _ _ _ => data_channels self' = data_channels self
  | OpenEvent _ _ | MessageEvent _ _ _ _ => self' = self
  end
  /\ forall ops,
       forallb (fun o => negb (channel_event o)) ops = true ->
       data_channels
         (snd (run AIORTC_AVAILABLE json_loads py_str engine_negotiate
                 debug_page ops self))
       = data_channels self.
Proof.
  cbv zeta. split; [apply step_frame|].
  intros ops Hops. now apply run_keeps_channels.
Qed.

End Frame.
